(** * sez-vision-backend: credential service, access-control gate,
      equipment registry and operations ledger

    A shallow embedding of the Go sources
      - pkg/utils (auth.go, password policy),
      - internal/middleware/auth.go,
      - cmd/api/main.go (the router and its routes),
      - internal/handlers/ru.go (GetHistory),
      - internal/service (AuthService, RuService, AdminService),
      - internal/repository (RuRepository, UserRepository),
    with the theorems that relate them to the specification.

    Conventions.  Go [string] is [string] (a sequence of bytes), Go [int] is
    [Z] with the 64-bit range written out where the code depends on it, a
    pointer-to-scalar field ([*string], [*bool]) is an [option], a Go
    [(T, error)] result is [result T], and a [map[string]any] is a
    [gmap string Any]. *)

From Stdlib Require Import ZArith List String Ascii Bool Lia Sorted Permutation.
From stdpp Require Import base option gmap strings list sorting.
Import ListNotations.

Local Open Scope string_scope.
Local Open Scope Z_scope.

(** ** Go-style results *)

Inductive result (A : Type) : Type :=
| Ok (a : A)
| Err (msg : string).
Arguments Ok {A} a.
Arguments Err {A} msg.

(** [fmt.Errorf("<ctx>: %w", err)]: the wrapped error's text. *)
Definition wrap (ctx : string) (msg : string) : string := ctx +:+ ": " +:+ msg.

(** ** Time

    A [time.Time] is the instant it names, in nanoseconds since the Unix
    epoch; a [time.Duration] is a number of nanoseconds. *)

Definition Time := Z.
Definition Duration := Z.
Definition Second : Duration := 1000000000.

(** A float64 is carried as its IEEE-754 bit pattern; no code here
    computes with one. *)
Definition float64 := Z.

(** ** internal/models *)

(** [type UserRole string] and its constants. *)
Definition UserRole := string.
Definition RoleDispatcher : UserRole := "dispatcher".
Definition RoleEngineer : UserRole := "engineer".
Definition RoleAdmin : UserRole := "admin".

Module User.
Record t : Type := mk {
  ID : string;
  Name : string;
  Email : string;
  PasswordHash : string;
  Role : UserRole;
  CreatedAt : Time;
  UpdatedAt : Time
}.
End User.

Module LoginRequest.
Record t : Type := mk { Email : string; Password : string }.
End LoginRequest.

Module UserResponse.
Record t : Type := mk {
  ID : string;
  Name : string;
  Email : string;
  Role : string;
  CreatedAt : Time
}.
End UserResponse.

Module AuthResponse.
Record t : Type := mk { User : UserResponse.t; Token : string }.
End AuthResponse.

Module RUInfo.
Record t : Type := mk {
  ID : string;
  Name : string;
  Voltage : string;
  Sections : Z;
  CellsCount : Z;
  Transformers : Z;
  TransformerPower : string;
  Location : string;
  InstallationDate : string;
  Manufacturer : string;
  LastMaintenance : string;
  NextMaintenance : string;
  Status : string;
  SchemeType : string;
  TotalLoadHigh : string;
  TotalLoadLow : string;
  TotalPowerHigh : string;
  TotalPowerLow : string;
  MaxCapacityHigh : string;
  MaxCapacityLow : string;
  OperationalHours : Z;
  LastInspection : string;
  Type_ : string;
  HasHighSide : bool;
  HasLowSide : bool;
  BusSections : Z;
  CellsPerSection : Z;
  SubstationID : string;
  CreatedAt : Time;
  UpdatedAt : Time
}.

(** [ruInfo.SubstationID = v] *)
Definition set_SubstationID (v : string) (r : t) : t :=
  mk (ID r) (Name r) (Voltage r) (Sections r) (CellsCount r) (Transformers r)
     (TransformerPower r) (Location r) (InstallationDate r) (Manufacturer r)
     (LastMaintenance r) (NextMaintenance r) (Status r) (SchemeType r)
     (TotalLoadHigh r) (TotalLoadLow r) (TotalPowerHigh r) (TotalPowerLow r)
     (MaxCapacityHigh r) (MaxCapacityLow r) (OperationalHours r)
     (LastInspection r) (Type_ r) (HasHighSide r) (HasLowSide r)
     (BusSections r) (CellsPerSection r) v (CreatedAt r) (UpdatedAt r).

(** [ruInfo.UpdatedAt = v] *)
Definition set_UpdatedAt (v : Time) (r : t) : t :=
  mk (ID r) (Name r) (Voltage r) (Sections r) (CellsCount r) (Transformers r)
     (TransformerPower r) (Location r) (InstallationDate r) (Manufacturer r)
     (LastMaintenance r) (NextMaintenance r) (Status r) (SchemeType r)
     (TotalLoadHigh r) (TotalLoadLow r) (TotalPowerHigh r) (TotalPowerLow r)
     (MaxCapacityHigh r) (MaxCapacityLow r) (OperationalHours r)
     (LastInspection r) (Type_ r) (HasHighSide r) (HasLowSide r)
     (BusSections r) (CellsPerSection r) (SubstationID r) (CreatedAt r) v.
End RUInfo.

(** [type CellStatus string]; the request binds any JSON string to it. *)
Definition CellStatus := string.
Definition CellStatusON : CellStatus := "ON".
Definition CellStatusOFF : CellStatus := "OFF".
Definition CellStatusReserve : CellStatus := "RESERVE".
Definition CellStatusError : CellStatus := "ERROR".
Definition CellStatusMaintenance : CellStatus := "MAINTENANCE".

Module Cell.
Record t : Type := mk {
  ID : Z;
  Number : string;
  Name : string;
  Type_ : string;
  Status : CellStatus;
  Voltage : string;
  VoltageLevel : string;
  Power : option string;
  Description : string;
  LastOperation : option string;
  IsGrounded : bool;
  LastGroundedOperation : option string;
  TransformerNumber : option string;
  BusSection : option Z;
  Current : option float64;
  Temperature : option float64;
  Load_ : option float64;
  RuID : string;
  CreatedAt : Time;
  UpdatedAt : Time
}.

Definition set_Status (v : CellStatus) (c : t) : t :=
  mk (ID c) (Number c) (Name c) (Type_ c) v (Voltage c) (VoltageLevel c)
     (Power c) (Description c) (LastOperation c) (IsGrounded c)
     (LastGroundedOperation c) (TransformerNumber c) (BusSection c)
     (Current c) (Temperature c) (Load_ c) (RuID c) (CreatedAt c) (UpdatedAt c).

Definition set_LastOperation (v : option string) (c : t) : t :=
  mk (ID c) (Number c) (Name c) (Type_ c) (Status c) (Voltage c) (VoltageLevel c)
     (Power c) (Description c) v (IsGrounded c)
     (LastGroundedOperation c) (TransformerNumber c) (BusSection c)
     (Current c) (Temperature c) (Load_ c) (RuID c) (CreatedAt c) (UpdatedAt c).

Definition set_IsGrounded (v : bool) (c : t) : t :=
  mk (ID c) (Number c) (Name c) (Type_ c) (Status c) (Voltage c) (VoltageLevel c)
     (Power c) (Description c) (LastOperation c) v
     (LastGroundedOperation c) (TransformerNumber c) (BusSection c)
     (Current c) (Temperature c) (Load_ c) (RuID c) (CreatedAt c) (UpdatedAt c).

Definition set_LastGroundedOperation (v : option string) (c : t) : t :=
  mk (ID c) (Number c) (Name c) (Type_ c) (Status c) (Voltage c) (VoltageLevel c)
     (Power c) (Description c) (LastOperation c) (IsGrounded c)
     v (TransformerNumber c) (BusSection c)
     (Current c) (Temperature c) (Load_ c) (RuID c) (CreatedAt c) (UpdatedAt c).

Definition set_UpdatedAt (v : Time) (c : t) : t :=
  mk (ID c) (Number c) (Name c) (Type_ c) (Status c) (Voltage c) (VoltageLevel c)
     (Power c) (Description c) (LastOperation c) (IsGrounded c)
     (LastGroundedOperation c) (TransformerNumber c) (BusSection c)
     (Current c) (Temperature c) (Load_ c) (RuID c) (CreatedAt c) v.
End Cell.

Module OperationRecord.
Record t : Type := mk {
  ID : string;
  CellNumber : string;
  CellName : string;
  Action : string;
  Operator : string;
  Timestamp : string;
  Reason : option string;
  DocumentType : option string;
  OrderNumber : option string;
  WorkOrderNumber : option string;
  StartDate : option string;
  EndDate : option string;
  ResponsiblePerson : option string;
  Comment : option string;
  Severity : option string;
  RuID : string;
  CreatedAt : Time;
  UpdatedAt : Time
}.
End OperationRecord.

Module UpdateCellStatusRequest.
Record t : Type := mk { Status : CellStatus; IsGrounded : option bool }.
End UpdateCellStatusRequest.

(** ** The process state: the relational store and the wall clock

    The four tables (users, ru_infos, cells, operation_records) are lists of
    rows.  The n-th statement sent to the store fails with the driver's
    message [fault n] when there is one; the n-th call of [time.Now] reads
    [now n].  Both counters only grow, so a run records how many statements
    it sent and how many times it read the clock. *)

Record DB : Type := mkDB {
  users : list User.t;
  ru_infos : list RUInfo.t;
  cells : list Cell.t;
  operation_records : list OperationRecord.t
}.

Record World : Type := mkWorld {
  db : DB;
  fault : nat -> option string;
  stmts : nat;
  now : nat -> Time;
  ticks : nat
}.

Definition M (A : Type) : Type := World -> A * World.

Definition ret {A} (a : A) : M A := fun w => (a, w).
Definition bind {A B} (m : M A) (k : A -> M B) : M B :=
  fun w => let (a, w') := m w in k a w'.

Declare Scope go_scope.
Delimit Scope go_scope with go.
Notation "x <- m ;; k" := (bind m (fun x => k))
  (at level 100, m at next level, right associativity) : go_scope.
Local Open Scope go_scope.

(** [time.Now()] *)
Definition time_Now : M Time :=
  fun w => (now w (ticks w), mkWorld (db w) (fault w) (stmts w) (now w) (S (ticks w))).

(** One statement against the store: it fails when the driver does, and
    otherwise runs [f] on the tables. *)
Definition statement {A} (f : DB -> result A * DB) : M (result A) :=
  fun w =>
    match fault w (stmts w) with
    | Some msg => (Err msg, mkWorld (db w) (fault w) (S (stmts w)) (now w) (ticks w))
    | None =>
        let (r, d) := f (db w) in
        (r, mkWorld d (fault w) (S (stmts w)) (now w) (ticks w))
    end.

(** The world after one more statement, and after one more clock reading. *)
Definition sent (d : DB) (w : World) : World :=
  mkWorld d (fault w) (S (stmts w)) (now w) (ticks w).
Definition ticked (w : World) : World :=
  mkWorld (db w) (fault w) (stmts w) (now w) (S (ticks w)).

Lemma statement_run {A} (f : DB -> result A * DB) (w : World) :
  statement f w =
  match fault w (stmts w) with
  | Some msg => (Err msg, sent (db w) w)
  | None => (fst (f (db w)), sent (snd (f (db w))) w)
  end.
Proof.
  unfold statement. destruct (fault w (stmts w)); [reflexivity |].
  destruct (f (db w)); reflexivity.
Qed.

Lemma time_Now_run (w : World) : time_Now w = (now w (ticks w), ticked w).
Proof. reflexivity. Qed.

(** ** Password policy (pkg/utils and internal/service/admin.go) *)

Module Password.

(** The double quote, which cannot be written inside a string literal. *)
Definition dquote : ascii := ascii_of_nat 34.

(** The thirty members of the character class compiled into
    specialCharRegex, once its escapes (of the hyphen, the two square
    brackets, the backslash and the slash) are read: the punctuation
    ! @ # $ % ^ & * ( ) _ + - = [ ] { } ; ' : the double quote, the
    backslash and | , . < > / ? *)
Definition specialCharClass : list ascii :=
  list_ascii_of_string "!@#$%^&*()_+-=[]{};':" ++ [dquote]
    ++ list_ascii_of_string "\|,.<>/?".

(** [regexp.MatchString] for a pattern that is one character class: the
    unanchored match succeeds iff some byte of the subject is in the class
    (every member is ASCII, so bytes and runes agree). *)
Fixpoint MatchString (class : list ascii) (s : string) : bool :=
  match s with
  | EmptyString => false
  | String c rest => existsb (Ascii.eqb c) class || MatchString class rest
  end.

Definition msgTooShort : string :=
  "Пароль должен содержать минимум 6 символов".
Definition msgNoSpecial : string :=
  "Пароль должен содержать хотя бы один специальный символ (!@#$%^&* и т.д.)".

(** internal/service/admin.go, [validatePassword]. *)
Definition validatePassword (password : string) : bool * string :=
  if (String.length password <? 6)%nat then (false, msgTooShort)
  else if negb (MatchString specialCharClass password) then (false, msgNoSpecial)
  else (true, "").

(** pkg/utils, [ValidatePassword]: the exported twin of the function above. *)
Definition ValidatePassword (password : string) : bool * string :=
  if (String.length password <? 6)%nat then (false, msgTooShort)
  else if negb (MatchString specialCharClass password) then (false, msgNoSpecial)
  else (true, "").

(** The policy in the specification's words. *)
Definition contains_special (p : string) : Prop :=
  exists c, In c (list_ascii_of_string p) /\ In c specialCharClass.

Definition policy_accepts (p : string) : Prop :=
  (6 <= String.length p)%nat /\ contains_special p.

(** *** Properties *)

Lemma MatchString_In (class : list ascii) (s : string) :
  MatchString class s = true <->
  exists c, In c (list_ascii_of_string s) /\ In c class.
Proof.
  induction s as [|a s IH]; simpl.
  - split; [discriminate | intros (c & [] & _)].
  - rewrite orb_true_iff, IH, existsb_exists. split.
    + intros [(c & Hc & Heq) | (c & Hs & Hc)].
      * apply Ascii.eqb_eq in Heq. subst c. exists a. auto.
      * exists c. auto.
    + intros (c & [<- | Hs] & Hc).
      * left. exists a. split; [exact Hc | apply Ascii.eqb_refl].
      * right. exists c. auto.
Qed.

Lemma validatePassword_accepts_iff (p : string) :
  fst (validatePassword p) = true <-> policy_accepts p.
Proof.
  unfold validatePassword, policy_accepts, contains_special.
  rewrite <- MatchString_In.
  destruct (Nat.ltb_spec (String.length p) 6) as [Hlt | Hge]; simpl.
  - split; [discriminate | intros [Hlen _]; lia].
  - destruct (MatchString specialCharClass p); simpl.
    + split; auto.
    + split; [discriminate | intros [_ H]; discriminate].
Qed.

Lemma validatePassword_reason (p : string) :
  fst (validatePassword p) = false ->
  snd (validatePassword p) = msgTooShort \/ snd (validatePassword p) = msgNoSpecial.
Proof.
  unfold validatePassword.
  destruct (String.length p <? 6)%nat; simpl; [auto |].
  destruct (MatchString specialCharClass p); simpl; [discriminate | auto].
Qed.

Lemma ValidatePassword_same (p : string) : ValidatePassword p = validatePassword p.
Proof. reflexivity. Qed.

(** The length is [len(password)], a number of bytes: three Cyrillic
    letters and an exclamation mark are seven bytes, and pass. *)
Example validatePassword_counts_bytes : fst (validatePassword "пар!") = true.
Proof. reflexivity. Qed.

(** C5.  Both password gates ([validatePassword] of the admin service and
    the exported [ValidatePassword]) accept a password exactly when it has at
    least six bytes and contains a member of the special-character class;
    a rejection carries a non-empty reason; abc123 is rejected and abc123!
    is accepted. *)
Theorem password_policy_gate :
  (forall p, fst (validatePassword p) = true <-> policy_accepts p) /\
  (forall p, fst (ValidatePassword p) = true <-> policy_accepts p) /\
  (forall p, fst (validatePassword p) = false ->
             snd (validatePassword p) <> "" /\
             snd (ValidatePassword p) = snd (validatePassword p)) /\
  validatePassword "abc123" = (false, msgNoSpecial) /\
  fst (validatePassword "abc123!") = true.
Proof.
  split; [exact validatePassword_accepts_iff |].
  split; [intro p; rewrite ValidatePassword_same; apply validatePassword_accepts_iff |].
  split; [| split; reflexivity].
  intros p Hrej. split; [| reflexivity].
  destruct (validatePassword_reason p Hrej) as [-> | ->]; discriminate.
Qed.

End Password.

(** ** Go's strings package: Split and SplitN *)

Module Strings.

(** Whether the byte [c] occurs in [s]. *)
Fixpoint contains_byte (c : ascii) (s : string) : bool :=
  match s with
  | EmptyString => false
  | String a rest => Ascii.eqb a c || contains_byte c rest
  end.

(** [strings.Split(s, sep)] for a one-byte separator: never empty, one more
    piece than there are separators. *)
Fixpoint Split (sep : ascii) (s : string) : list string :=
  match s with
  | EmptyString => [EmptyString]
  | String a rest =>
      if Ascii.eqb a sep then EmptyString :: Split sep rest
      else match Split sep rest with
           | piece :: pieces => String a piece :: pieces
           | [] => [String a EmptyString]
           end
  end.

(** [strings.Cut(s, sep)] for a one-byte separator. *)
Fixpoint Cut (sep : ascii) (s : string) : option (string * string) :=
  match s with
  | EmptyString => None
  | String a rest =>
      if Ascii.eqb a sep then Some (EmptyString, rest)
      else match Cut sep rest with
           | Some (before, after) => Some (String a before, after)
           | None => None
           end
  end.

(** [strings.SplitN(s, sep, 2)]: split at the first separator only. *)
Definition SplitN2 (sep : ascii) (s : string) : list string :=
  match Cut sep s with
  | Some (before, after) => [before; after]
  | None => [s]
  end.

Lemma Split_no_sep (sep : ascii) (s : string) :
  contains_byte sep s = false -> Split sep s = [s].
Proof.
  induction s as [|a s IH]; simpl; [reflexivity |].
  intros Hc. apply orb_false_iff in Hc as [Ha Hs].
  rewrite Ha, (IH Hs). reflexivity.
Qed.

Lemma Split_app (sep : ascii) (s t : string) :
  contains_byte sep s = false ->
  Split sep (s +:+ String sep t) = s :: Split sep t.
Proof.
  induction s as [|a s IH]; simpl.
  - intros _. rewrite Ascii.eqb_refl. reflexivity.
  - intros Hc. apply orb_false_iff in Hc as [Ha Hs].
    rewrite Ha, (IH Hs). reflexivity.
Qed.

Lemma Split_three (sep : ascii) (a b c : string) :
  contains_byte sep a = false ->
  contains_byte sep b = false ->
  contains_byte sep c = false ->
  Split sep (a +:+ String sep (b +:+ String sep c)) = [a; b; c].
Proof.
  intros Ha Hb Hc.
  rewrite (Split_app sep a _ Ha), (Split_app sep b c Hb), (Split_no_sep sep c Hc).
  reflexivity.
Qed.

Lemma append_assoc (a b c : string) : (a +:+ b) +:+ c = a +:+ (b +:+ c).
Proof.
  induction a as [|x a IH]; [reflexivity |].
  change (String x ((a +:+ b) +:+ c) = String x (a +:+ (b +:+ c))).
  f_equal. exact IH.
Qed.

Lemma append_nil_r (a : string) : a +:+ EmptyString = a.
Proof.
  induction a as [|x a IH]; [reflexivity |].
  change (String x (a +:+ EmptyString) = String x a). f_equal. exact IH.
Qed.

End Strings.

(** ** Dynamically typed values ([any]) *)

Inductive Any : Type :=
| AnyString (s : string)
| AnyNumber (n : Z)
| AnyBool (b : bool)
| AnyNil.

(** ** The libraries behind pkg/utils

    golang-jwt/jwt/v5, encoding/json, encoding/base64, crypto/hmac and
    x/crypto/bcrypt are not part of the repository.  The control flow of
    the jwt parser and validator is written out below; the byte-level
    primitives they rest on are the operations of this class. *)

Inductive Hash : Type := SHA256 | SHA384 | SHA512.

(** A NumericDate: whole seconds since the epoch (jwt.TimePrecision is one
    second, and the JSON form of a date is a number of seconds). *)
Definition NumericDate := Z.

Module RegisteredClaims.
Record t : Type := mk {
  Issuer : string;
  Subject : string;
  Audience : list string;
  ExpiresAt : option NumericDate;
  NotBefore : option NumericDate;
  IssuedAt : option NumericDate;
  ID : string
}.
End RegisteredClaims.

(** pkg/utils, [type Claims struct]. *)
Module Claims.
Record t : Type := mk {
  UserID : string;
  Email : string;
  Role : string;
  Registered : RegisteredClaims.t
}.
End Claims.

Class Primitives : Type := {
  (** crypto/hmac: hash, key, message, tag *)
  hmac : Hash -> string -> string -> string;
  (** base64.RawURLEncoding, as jwt's EncodeSegment and DecodeSegment *)
  EncodeSegment : string -> string;
  DecodeSegment : string -> option string;
  (** encoding/json on a token header ([map[string]any]) *)
  json_Marshal_Header : gmap string Any -> string;
  json_Unmarshal_Header : string -> option (gmap string Any);
  (** encoding/json on [utils.Claims] *)
  json_Marshal_Claims : Claims.t -> string;
  json_Unmarshal_Claims : string -> option Claims.t;
  (** bcrypt.CompareHashAndPassword(hash, password) == nil *)
  bcrypt_Compare : string -> string -> bool
}.

(** What base64 guarantees: decoding undoes encoding, and the alphabet has
    no dot. *)
Class SegmentLaws (P : Primitives) : Prop := {
  decode_encode_segment : forall b, DecodeSegment (EncodeSegment b) = Some b;
  encode_segment_no_dot : forall b, Strings.contains_byte "." (EncodeSegment b) = false
}.

Module JWT.

Inductive SigningMethod : Type :=
| SigningMethodHMAC (h : Hash)
| SigningMethodRSA (h : Hash)
| SigningMethodRSAPSS (h : Hash)
| SigningMethodECDSA (h : Hash)
| SigningMethodEd25519
| SigningMethodNone.

Definition SigningMethodHS256 : SigningMethod := SigningMethodHMAC SHA256.

Definition bits (h : Hash) : string :=
  match h with SHA256 => "256" | SHA384 => "384" | SHA512 => "512" end.

(** [method.Alg()] *)
Definition Alg (m : SigningMethod) : string :=
  match m with
  | SigningMethodHMAC h => "HS" +:+ bits h
  | SigningMethodRSA h => "RS" +:+ bits h
  | SigningMethodRSAPSS h => "PS" +:+ bits h
  | SigningMethodECDSA h => "ES" +:+ bits h
  | SigningMethodEd25519 => "EdDSA"
  | SigningMethodNone => "none"
  end.

Definition registered : list SigningMethod :=
  [SigningMethodHMAC SHA256; SigningMethodHMAC SHA384; SigningMethodHMAC SHA512;
   SigningMethodRSA SHA256; SigningMethodRSA SHA384; SigningMethodRSA SHA512;
   SigningMethodRSAPSS SHA256; SigningMethodRSAPSS SHA384; SigningMethodRSAPSS SHA512;
   SigningMethodECDSA SHA256; SigningMethodECDSA SHA384; SigningMethodECDSA SHA512;
   SigningMethodEd25519; SigningMethodNone].

(** [jwt.GetSigningMethod(alg)]: the registered method of that name. *)
Definition GetSigningMethod (alg : string) : option SigningMethod :=
  List.find (fun m => String.eqb (Alg m) alg) registered.

Record Token : Type := mkToken {
  Raw : string;
  Method : SigningMethod;
  Header : gmap string Any;
  TokenClaims : Claims.t;
  Signature : string;
  Valid : bool
}.

Definition set_Signature (sig : string) (t : Token) : Token :=
  mkToken (Raw t) (Method t) (Header t) (TokenClaims t) sig (Valid t).
Definition set_Valid (v : bool) (t : Token) : Token :=
  mkToken (Raw t) (Method t) (Header t) (TokenClaims t) (Signature t) v.

(** [jwt.NewNumericDate(t)]: [t.Truncate(TimePrecision)]. *)
Definition NewNumericDate (t : Time) : NumericDate := t / Second.
(** The instant a NumericDate names. *)
Definition instant (d : NumericDate) : Time := d * Second.

(** [now.Before(u)] *)
Definition Before (t u : Time) : bool := t <? u.

Definition ErrTokenMalformed : string := "token is malformed".
Definition ErrTokenUnverifiable : string := "token is unverifiable".
Definition ErrTokenSignatureInvalid : string := "token signature is invalid".
Definition ErrTokenInvalidClaims : string := "token has invalid claims".
Definition ErrTokenExpired : string := "token is expired".
Definition ErrTokenNotValidYet : string := "token is not valid yet".
Definition ErrInvalidKeyType : string := "key is of invalid type".
Definition ErrSignatureInvalid : string := "signature is invalid".

Section Library.
Context {P : Primitives}.

(** [jwt.NewWithClaims(method, claims)] *)
Definition NewWithClaims (method : SigningMethod) (claims : Claims.t) : Token :=
  mkToken EmptyString method
    (<["typ" := AnyString "JWT"]> (<["alg" := AnyString (Alg method)]> ∅))
    claims EmptyString false.

(** [method.Sign(signingString, key)] with a [[]byte] key: only the HMAC
    methods take one. *)
Definition Sign (m : SigningMethod) (signingString key : string) : result string :=
  match m with
  | SigningMethodHMAC h => Ok (hmac h key signingString)
  | _ => Err ErrInvalidKeyType
  end.

(** [method.Verify(signingString, sig, key)] with a [[]byte] key:
    [hmac.Equal] of the tag against the recomputed one. *)
Definition Verify (m : SigningMethod) (signingString sig key : string) : option string :=
  match m with
  | SigningMethodHMAC h =>
      if String.eqb sig (hmac h key signingString) then None
      else Some ErrSignatureInvalid
  | _ => Some ErrInvalidKeyType
  end.

(** [token.SigningString()] *)
Definition SigningString (t : Token) : string :=
  EncodeSegment (json_Marshal_Header (Header t)) +:+ "." +:+
  EncodeSegment (json_Marshal_Claims (TokenClaims t)).

(** [token.SignedString(key)] *)
Definition SignedString (t : Token) (key : string) : result string :=
  let sstr := SigningString t in
  match Sign (Method t) sstr key with
  | Err e => Err e
  | Ok sig => Ok (sstr +:+ "." +:+ EncodeSegment sig)
  end.

(** [parser.ParseUnverified]: three segments, the header and the claims
    decoded, the method looked up from the header's alg. *)
Definition ParseUnverified (tokenString : string) : result (Token * list string) :=
  match Strings.Split "." tokenString with
  | [p0; p1; p2] =>
      match DecodeSegment p0 with
      | None => Err ErrTokenMalformed
      | Some headerBytes =>
      match json_Unmarshal_Header headerBytes with
      | None => Err ErrTokenMalformed
      | Some header =>
      match DecodeSegment p1 with
      | None => Err ErrTokenMalformed
      | Some claimBytes =>
      match json_Unmarshal_Claims claimBytes with
      | None => Err ErrTokenMalformed
      | Some claims =>
      match header !! "alg" with
      | Some (AnyString alg) =>
          match GetSigningMethod alg with
          | Some method =>
              Ok (mkToken tokenString method header claims EmptyString false,
                  [p0; p1; p2])
          | None => Err ErrTokenUnverifiable
          end
      | _ => Err ErrTokenUnverifiable
      end end end end end
  | _ => Err ErrTokenMalformed
  end.

(** [validator.Validate(claims)] with the default options, as
    [ParseWithClaims] runs it: the expiry is checked when the claims carry
    one ([verifyExpiresAt], not required), the not-before instant is checked
    when they carry one ([verifyNotBefore], not required), the issue date is
    not checked (that needs [WithIssuedAt]), and no issuer, subject or
    audience is expected.  The leeway is zero. *)
Definition verifyExpiresAt (c : Claims.t) (now : Time) : bool :=
  match RegisteredClaims.ExpiresAt (Claims.Registered c) with
  | None => true
  | Some exp => Before now (instant exp)
  end.

Definition verifyNotBefore (c : Claims.t) (now : Time) : bool :=
  match RegisteredClaims.NotBefore (Claims.Registered c) with
  | None => true
  | Some nbf => negb (Before now (instant nbf))
  end.

Definition Validate (c : Claims.t) : M (option string) :=
  now <- time_Now ;;
  ret (if negb (verifyExpiresAt c now) then Some ErrTokenExpired
       else if negb (verifyNotBefore c now) then Some ErrTokenNotValidYet
       else None).

(** [jwt.ParseWithClaims(tokenString, claims, keyFunc)] *)
Definition ParseWithClaims (tokenString : string)
    (keyFunc : Token -> result string) : M (result Token) :=
  match ParseUnverified tokenString with
  | Err e => ret (Err e)
  | Ok (token, parts) =>
      match DecodeSegment (nth 2 parts EmptyString) with
      | None => ret (Err ErrTokenMalformed)
      | Some sig =>
          let token := set_Signature sig token in
          let text := nth 0 parts EmptyString +:+ "." +:+ nth 1 parts EmptyString in
          match keyFunc token with
          | Err e => ret (Err (wrap ErrTokenUnverifiable e))
          | Ok key =>
              match Verify (Method token) text (Signature token) key with
              | Some e => ret (Err (wrap ErrTokenSignatureInvalid e))
              | None =>
                  verr <- Validate (TokenClaims token) ;;
                  match verr with
                  | Some e => ret (Err (wrap ErrTokenInvalidClaims e))
                  | None => ret (Ok (set_Valid true token))
                  end
              end
          end
      end
  end.

(** *** Facts about the library *)

Lemma GetSigningMethod_Alg (m : SigningMethod) : GetSigningMethod (Alg m) = Some m.
Proof. destruct m as [[] | [] | [] | [] | |]; reflexivity. Qed.

Lemma GetSigningMethod_sound (alg : string) (m : SigningMethod) :
  GetSigningMethod alg = Some m -> Alg m = alg.
Proof.
  unfold GetSigningMethod. intros Hfind.
  apply List.find_some in Hfind as [_ Heq].
  apply String.eqb_eq in Heq. exact Heq.
Qed.

Lemma Validate_clock (c : Claims.t) (w : World) :
  snd (Validate c w) = mkWorld (db w) (fault w) (stmts w) (now w) (S (ticks w)).
Proof. reflexivity. Qed.

Lemma Validate_None (c : Claims.t) (w : World) :
  fst (Validate c w) = None <->
  verifyExpiresAt c (now w (ticks w)) = true /\
  verifyNotBefore c (now w (ticks w)) = true.
Proof.
  unfold Validate, bind, time_Now, ret. simpl.
  destruct (verifyExpiresAt c _), (verifyNotBefore c _); simpl;
    split; try discriminate; try tauto; intros [? ?]; discriminate.
Qed.

End Library.
End JWT.

(** ** pkg/utils/auth.go *)

Module Utils.
Import JWT.

Section Auth.
Context {P : Primitives}.

(** [CheckPassword(password, hash)] *)
Definition CheckPassword (password hash : string) : bool :=
  bcrypt_Compare hash password.

(** The [&Claims{...}] literal of [GenerateToken]: the identity, an expiry
    and an issue date; every other registered claim is left at its zero. *)
Definition newClaims (user : User.t) (expiresAt issuedAt : NumericDate) : Claims.t :=
  Claims.mk (User.ID user) (User.Email user) (User.Role user)
    (RegisteredClaims.mk EmptyString EmptyString []
       (Some expiresAt) None (Some issuedAt) EmptyString).

(** [GenerateToken(user, secret, ttl)] *)
Definition GenerateToken (user : User.t) (secret : string) (ttl : Duration)
  : M (result string) :=
  t1 <- time_Now ;;
  t2 <- time_Now ;;
  let claims := newClaims user (NewNumericDate (t1 + ttl)) (NewNumericDate t2) in
  let token := NewWithClaims SigningMethodHS256 claims in
  ret (SignedString token secret).

(** The key function [ValidateToken] hands to the parser. *)
Definition keyFunc (secret : string) (token : Token) : result string :=
  match Method token with
  | SigningMethodHMAC _ => Ok secret
  | _ =>
      Err ("unexpected signing method: " +:+
           match Header token !! "alg" with
           | Some (AnyString alg) => alg
           | _ => EmptyString
           end)
  end.

(** [ValidateToken(tokenString, secret)] *)
Definition ValidateToken (tokenString secret : string) : M (result Claims.t) :=
  r <- ParseWithClaims tokenString (keyFunc secret) ;;
  match r with
  | Err e => ret (Err e)
  | Ok token =>
      if Valid token then ret (Ok (TokenClaims token))
      else ret (Err "invalid token")
  end.

(** *** The conditions of the specification, in its words *)

(** Well-formed structure: three dot-separated segments, of which the first
    decodes to a header, the second to claims and the third to a tag. *)
Definition well_formed (tokenString p0 p1 : string)
    (header : gmap string Any) (claims : Claims.t) (sig : string) : Prop :=
  exists p2 headerBytes claimBytes,
    Strings.Split "." tokenString = [p0; p1; p2] /\
    DecodeSegment p0 = Some headerBytes /\
    json_Unmarshal_Header headerBytes = Some header /\
    DecodeSegment p1 = Some claimBytes /\
    json_Unmarshal_Claims claimBytes = Some claims /\
    DecodeSegment p2 = Some sig.

(** The declared algorithm is one of the HMAC family (HS256, HS384, HS512). *)
Definition declares_HMAC (header : gmap string Any) (h : Hash) : Prop :=
  header !! "alg" = Some (AnyString ("HS" +:+ bits h)).

(** The tag is the HMAC of the first two segments under the secret. *)
Definition signature_verifies (h : Hash) (secret p0 p1 sig : string) : Prop :=
  sig = hmac h secret (p0 +:+ "." +:+ p1).

(** The expiry instant has not passed (a token without one never expires). *)
Definition not_expired (claims : Claims.t) (now : Time) : Prop :=
  forall exp, RegisteredClaims.ExpiresAt (Claims.Registered claims) = Some exp ->
              now < instant exp.

(** The not-before instant, when the token carries one, has been reached. *)
Definition not_before_reached (claims : Claims.t) (now : Time) : Prop :=
  forall nbf, RegisteredClaims.NotBefore (Claims.Registered claims) = Some nbf ->
              instant nbf <= now.

(** Acceptance as the specification words it. *)
Definition accepted_as_specified (tokenString secret : string) (now : Time)
    (claims : Claims.t) : Prop :=
  exists p0 p1 header sig h,
    well_formed tokenString p0 p1 header claims sig /\
    declares_HMAC header h /\
    signature_verifies h secret p0 p1 sig /\
    not_expired claims now.

(** Acceptance as the parser decides it: the same, and not before nbf. *)
Definition accepted (tokenString secret : string) (now : Time)
    (claims : Claims.t) : Prop :=
  accepted_as_specified tokenString secret now claims /\
  not_before_reached claims now.


Lemma not_expired_iff (c : Claims.t) (t : Time) :
  verifyExpiresAt c t = true <-> not_expired c t.
Proof.
  unfold verifyExpiresAt, not_expired, Before.
  destruct (RegisteredClaims.ExpiresAt (Claims.Registered c)) as [e|].
  - rewrite Z.ltb_lt. split; [intros H x [= <-]; exact H | intros H; apply H; reflexivity].
  - split; [intros _ x [=] | reflexivity].
Qed.

Lemma not_before_iff (c : Claims.t) (t : Time) :
  verifyNotBefore c t = true <-> not_before_reached c t.
Proof.
  unfold verifyNotBefore, not_before_reached, Before.
  destruct (RegisteredClaims.NotBefore (Claims.Registered c)) as [n|].
  - rewrite negb_true_iff, Z.ltb_ge.
    split; [intros H x [= <-]; exact H | intros H; apply H; reflexivity].
  - split; [intros _ x [=] | reflexivity].
Qed.

Lemma ValidateToken_Ok (tokenString secret : string) (w : World) (c : Claims.t) :
  fst (ValidateToken tokenString secret w) = Ok c <->
  accepted tokenString secret (now w (ticks w)) c.
Proof.
  unfold accepted, accepted_as_specified, well_formed, declares_HMAC, signature_verifies.
  unfold ValidateToken, ParseWithClaims, ParseUnverified, bind.
  split.
  - destruct (Strings.Split "." tokenString) as [|p0 [|p1 [|p2 [|? ?]]]] eqn:Hsplit;
      try (simpl; discriminate).
    destruct (DecodeSegment p0) as [hb|] eqn:Hp0; [| simpl; discriminate].
    destruct (json_Unmarshal_Header hb) as [header|] eqn:Hhdr; [| simpl; discriminate].
    destruct (DecodeSegment p1) as [cb|] eqn:Hp1; [| simpl; discriminate].
    destruct (json_Unmarshal_Claims cb) as [claims|] eqn:Hcl; [| simpl; discriminate].
    destruct (header !! "alg") as [[alg| | |]|] eqn:Halg; try (simpl; discriminate).
    destruct (GetSigningMethod alg) as [m|] eqn:Hm; [| simpl; discriminate].
    change (nth 2 [p0; p1; p2] "") with p2.
    change (nth 1 [p0; p1; p2] "") with p1.
    change (nth 0 [p0; p1; p2] "") with p0.
    destruct (DecodeSegment p2) as [sig|] eqn:Hp2; [| simpl; discriminate].
    unfold keyFunc, Verify. cbn [Method Signature TokenClaims Header Valid set_Signature set_Valid].
    destruct m as [h | | | | |]; try (simpl; discriminate).
    destruct (String.eqb sig (hmac h secret (p0 +:+ "." +:+ p1))) eqn:Hsig;
      [| simpl; discriminate].
    pose proof (Validate_None claims w) as HV.
    destruct (Validate claims w) as [[e|] w'] eqn:Hval; simpl in HV |- *; [discriminate |].
    intros [= <-].
    destruct HV as [[Hexp Hnbf] _]; [reflexivity |].
    apply GetSigningMethod_sound in Hm. simpl in Hm. subst alg.
    apply String.eqb_eq in Hsig.
    apply not_expired_iff in Hexp. apply not_before_iff in Hnbf.
    split; [| exact Hnbf].
    exists p0, p1, header, sig, h.
    split; [exists p2, hb, cb; repeat split; assumption |].
    split; [exact Halg |]. split; [exact Hsig | exact Hexp].
  - intros [(p0 & p1 & header & sig & h & (p2 & hb & cb & Hsplit & Hp0 & Hhdr & Hp1 & Hcl & Hp2)
              & Halg & Hsig & Hexp) Hnbf].
    rewrite Hsplit, Hp0, Hhdr, Hp1, Hcl, Halg.
    rewrite (GetSigningMethod_Alg (SigningMethodHMAC h)
             : GetSigningMethod ("HS" +:+ bits h) = Some (SigningMethodHMAC h)).
    change (nth 2 [p0; p1; p2] "") with p2.
    change (nth 1 [p0; p1; p2] "") with p1.
    change (nth 0 [p0; p1; p2] "") with p0.
    rewrite Hp2. unfold keyFunc, Verify. cbn [Method Signature TokenClaims Header Valid set_Signature set_Valid].
    rewrite <- Hsig, String.eqb_refl.
    pose proof (Validate_None c w) as HV.
    destruct (Validate c w) as [[e|] w'] eqn:Hval; simpl in HV |- *.
    + destruct HV as [_ HV]. discriminate HV.
      split; [apply not_expired_iff | apply not_before_iff]; assumption.
    + reflexivity.
Qed.


(** A token signed by the library is well formed, whatever the tag. *)
Lemma signed_well_formed `{!SegmentLaws P}
    (header : gmap string Any) (claims : Claims.t) (sig : string) :
  json_Unmarshal_Header (json_Marshal_Header header) = Some header ->
  json_Unmarshal_Claims (json_Marshal_Claims claims) = Some claims ->
  well_formed
    ((EncodeSegment (json_Marshal_Header header) +:+ "." +:+
      EncodeSegment (json_Marshal_Claims claims)) +:+ "." +:+ EncodeSegment sig)
    (EncodeSegment (json_Marshal_Header header))
    (EncodeSegment (json_Marshal_Claims claims))
    header claims sig.
Proof.
  intros Hh Hc.
  exists (EncodeSegment sig), (json_Marshal_Header header), (json_Marshal_Claims claims).
  rewrite !decode_encode_segment. repeat split; try assumption.
  rewrite Strings.append_assoc.
  apply Strings.Split_three; apply encode_segment_no_dot.
Qed.

(** The header [NewWithClaims] builds for HS256. *)
Definition HS256Header : gmap string Any :=
  <["typ" := AnyString "JWT"]> (<["alg" := AnyString "HS256"]> ∅).

(** The claims [GenerateToken] signs when it runs in the world [w]: the
    expiry is the first clock reading plus the ttl, the issue date the
    second reading, both cut to whole seconds. *)
Definition issuedClaims (user : User.t) (ttl : Duration) (w : World) : Claims.t :=
  newClaims user (NewNumericDate (now w (ticks w) + ttl))
                 (NewNumericDate (now w (S (ticks w)))).

Lemma GenerateToken_eq (user : User.t) (secret : string) (ttl : Duration) (w : World) :
  fst (GenerateToken user secret ttl w) =
  SignedString (NewWithClaims SigningMethodHS256 (issuedClaims user ttl w)) secret.
Proof. reflexivity. Qed.

(** C1.  A token issued for a user with a positive ttl, validated under
    the same secret at any instant before its expiry (the exp claim: issue
    time plus ttl, in whole seconds), is accepted, and the claims returned
    are the ones issued: subject id, email and role are the user's.  The
    JSON codec is assumed to round-trip the header and the claims signed. *)
Theorem token_round_trip `{!SegmentLaws P}
    (user : User.t) (secret : string) (ttl : Duration) (w w' : World) :
  0 < ttl ->
  json_Unmarshal_Header (json_Marshal_Header HS256Header) = Some HS256Header ->
  json_Unmarshal_Claims (json_Marshal_Claims (issuedClaims user ttl w))
    = Some (issuedClaims user ttl w) ->
  now w' (ticks w') < instant (NewNumericDate (now w (ticks w) + ttl)) ->
  exists tok c,
    fst (GenerateToken user secret ttl w) = Ok tok /\
    fst (ValidateToken tok secret w') = Ok c /\
    c = issuedClaims user ttl w /\
    Claims.UserID c = User.ID user /\
    Claims.Email c = User.Email user /\
    Claims.Role c = User.Role user.
Proof.
  intros _ Hh Hc Hnow.
  rewrite GenerateToken_eq. unfold SignedString, Sign, SigningString.
  cbn [Method NewWithClaims SigningMethodHS256 Header TokenClaims].
  eexists. exists (issuedClaims user ttl w).
  split; [reflexivity |].
  split; [| repeat split].
  apply ValidateToken_Ok. split.
  - eexists _, _, HS256Header, _, SHA256.
    split; [apply (signed_well_formed HS256Header _ _ Hh Hc) |].
    split; [reflexivity |]. split; [reflexivity |].
    intros exp [= <-]. exact Hnow.
  - intros nbf [=].
Qed.

(** The expiry a token carries is the issue instant plus the ttl cut down
    to a whole second, so it lies within the last second before that sum. *)
Lemma issued_expiry (user : User.t) (ttl : Duration) (w : World) :
  exists exp,
    RegisteredClaims.ExpiresAt (Claims.Registered (issuedClaims user ttl w)) = Some exp /\
    instant exp <= now w (ticks w) + ttl < instant exp + Second.
Proof.
  eexists. split; [reflexivity |].
  unfold instant, NewNumericDate, Second.
  pose proof (Z.div_mod (now w (ticks w) + ttl) 1000000000 ltac:(lia)) as Hdm.
  pose proof (Z.mod_pos_bound (now w (ticks w) + ttl) 1000000000 ltac:(lia)) as Hb.
  lia.
Qed.


(** Whatever is not accepted is answered with an error. *)
Lemma ValidateToken_Err (tokenString secret : string) (w : World) :
  (forall c, ~ accepted tokenString secret (now w (ticks w)) c) ->
  exists e, fst (ValidateToken tokenString secret w) = Err e.
Proof.
  intros Hrej.
  destruct (fst (ValidateToken tokenString secret w)) as [c | e] eqn:Hres.
  - apply ValidateToken_Ok in Hres. destruct (Hrej c Hres).
  - exists e. reflexivity.
Qed.

(** A token that misses one of the four conditions the specification
    names is refused. *)
Lemma ValidateToken_rejects (tokenString secret : string) (w : World) :
  (forall c, accepted_as_specified tokenString secret (now w (ticks w)) c -> False) ->
  exists e, fst (ValidateToken tokenString secret w) = Err e.
Proof.
  intros Hrej. apply ValidateToken_Err.
  intros c [Hc _]. exact (Hrej c Hc).
Qed.

(** C2 (as amended).  [ValidateToken] returns the embedded claims exactly
    when the token is well formed, declares an HMAC algorithm, carries the
    HMAC of its first two segments under the secret, has not reached its
    expiry and, when it carries a not-before instant, has reached it; in
    every other case it returns an error. *)
Theorem ValidateToken_accepts_iff (tokenString secret : string) (w : World) :
  (forall c, fst (ValidateToken tokenString secret w) = Ok c <->
             accepted tokenString secret (now w (ticks w)) c) /\
  ((forall c, ~ accepted tokenString secret (now w (ticks w)) c) ->
   exists e, fst (ValidateToken tokenString secret w) = Err e).
Proof.
  split.
  - intro c. split.
    + intros Hok. apply ValidateToken_Ok. exact Hok.
    + intros Hacc. apply ValidateToken_Ok. exact Hacc.
  - apply ValidateToken_Err.
Qed.

(** The segments of a token determine what it decodes to. *)
Lemma well_formed_functional (tokenString p0 p1 q0 q1 : string)
    (h h' : gmap string Any) (c c' : Claims.t) (sig sig' : string) :
  well_formed tokenString p0 p1 h c sig ->
  well_formed tokenString q0 q1 h' c' sig' ->
  p0 = q0 /\ p1 = q1 /\ h = h' /\ c = c' /\ sig = sig'.
Proof.
  intros (p2 & hb & cb & Hs & Hp0 & Hh & Hp1 & Hc & Hp2)
         (q2 & hb' & cb' & Hs' & Hq0 & Hh' & Hq1 & Hc' & Hq2).
  rewrite Hs in Hs'. injection Hs' as <- <- <-.
  rewrite Hp0 in Hq0. injection Hq0 as <-.
  rewrite Hp1 in Hq1. injection Hq1 as <-.
  rewrite Hh in Hh'. injection Hh' as <-.
  rewrite Hc in Hc'. injection Hc' as <-.
  rewrite Hp2 in Hq2. injection Hq2 as <-.
  repeat split.
Qed.

End Auth.
End Utils.

(** ** A concrete instance of the primitives

    Used to run the service on explicit inputs: every value is written as
    the bits of the positive number stdpp's [encode] assigns to it, which
    gives codecs that round-trip and never produce a dot.  The tag is the
    key followed by the message, and a password's hash is the password. *)

Module Sample.

Fixpoint pos_to_bits (p : positive) : string :=
  match p with
  | xH => "1"
  | xO q => String "0" (pos_to_bits q)
  | xI q => String "1" (pos_to_bits q)
  end.

Fixpoint bits_to_pos (s : string) : option positive :=
  match s with
  | EmptyString => None
  | String c rest =>
      match rest with
      | EmptyString => if Ascii.eqb c "1" then Some xH else None
      | _ =>
          match bits_to_pos rest with
          | None => None
          | Some q =>
              if Ascii.eqb c "0" then Some (xO q)
              else if Ascii.eqb c "1" then Some (xI q)
              else None
          end
      end
  end.

Definition marshal {A} `{Countable A} (a : A) : string := pos_to_bits (encode a).
Definition unmarshal {A} `{Countable A} (s : string) : option A :=
  match bits_to_pos s with
  | Some p => decode p
  | None => None
  end.

#[global] Instance Any_eq_dec : EqDecision Any.
Proof. solve_decision. Defined.

#[global] Instance Any_countable : Countable Any.
Proof.
  refine (inj_countable'
    (fun a => match a with
              | AnyString s => inl (inl s)
              | AnyNumber n => inl (inr n)
              | AnyBool b => inr (inl b)
              | AnyNil => inr (inr tt)
              end)
    (fun x => match x with
              | inl (inl s) => AnyString s
              | inl (inr n) => AnyNumber n
              | inr (inl b) => AnyBool b
              | inr (inr _) => AnyNil
              end) _).
  intros []; reflexivity.
Defined.

#[global] Instance RegisteredClaims_eq_dec : EqDecision RegisteredClaims.t.
Proof. solve_decision. Defined.

#[global] Instance RegisteredClaims_countable : Countable RegisteredClaims.t.
Proof.
  refine (inj_countable'
    (fun r => (RegisteredClaims.Issuer r, RegisteredClaims.Subject r,
               RegisteredClaims.Audience r, RegisteredClaims.ExpiresAt r,
               RegisteredClaims.NotBefore r, RegisteredClaims.IssuedAt r,
               RegisteredClaims.ID r))
    (fun x => let '(i, s, a, e, n, t, d) := x in RegisteredClaims.mk i s a e n t d) _).
  intros []; reflexivity.
Defined.

#[global] Instance Claims_eq_dec : EqDecision Claims.t.
Proof. solve_decision. Defined.

#[global] Instance Claims_countable : Countable Claims.t.
Proof.
  refine (inj_countable'
    (fun c => (Claims.UserID c, Claims.Email c, Claims.Role c, Claims.Registered c))
    (fun x => let '(u, e, r, g) := x in Claims.mk u e r g) _).
  intros []; reflexivity.
Defined.

Definition prims : Primitives := {|
  hmac := fun _ key msg => key +:+ msg;
  EncodeSegment := marshal;
  DecodeSegment := unmarshal;
  json_Marshal_Header := marshal;
  json_Unmarshal_Header := unmarshal;
  json_Marshal_Claims := marshal;
  json_Unmarshal_Claims := unmarshal;
  bcrypt_Compare := String.eqb
|}.

Lemma pos_to_bits_nonempty (p : positive) : pos_to_bits p <> EmptyString.
Proof. destruct p; discriminate. Qed.

Lemma bits_to_pos_to_bits (p : positive) : bits_to_pos (pos_to_bits p) = Some p.
Proof.
  induction p as [q IH | q IH |]; [| | reflexivity].
  - change (pos_to_bits q~1) with (String "1" (pos_to_bits q)).
    cbn [bits_to_pos]. fold bits_to_pos. rewrite IH.
    destruct (pos_to_bits q) eqn:E; [destruct (pos_to_bits_nonempty q E) | reflexivity].
  - change (pos_to_bits q~0) with (String "0" (pos_to_bits q)).
    cbn [bits_to_pos]. fold bits_to_pos. rewrite IH.
    destruct (pos_to_bits q) eqn:E; [destruct (pos_to_bits_nonempty q E) | reflexivity].
Qed.

Lemma pos_to_bits_no_dot (p : positive) :
  Strings.contains_byte "." (pos_to_bits p) = false.
Proof. induction p as [q IH | q IH |]; simpl; auto. Qed.

Lemma unmarshal_marshal {A} `{Countable A} (a : A) : unmarshal (marshal a) = Some a.
Proof. unfold unmarshal, marshal. rewrite bits_to_pos_to_bits. apply decode_encode. Qed.

#[global] Instance prims_laws : SegmentLaws prims.
Proof.
  split; intro b.
  - apply (unmarshal_marshal (A := string)).
  - apply pos_to_bits_no_dot.
Qed.

End Sample.

(** ** Runs of the credential service on explicit inputs *)

Module UtilsRuns.
Import JWT Utils.

Definition emptyDB : DB := mkDB [] [] [] [].

(** A world whose store is empty and never fails, and whose clock stands
    at [t]. *)
Definition clockAt (t : Time) : World :=
  mkWorld emptyDB (fun _ => None) 0%nat (fun _ => t) 0%nat.

Definition alice : User.t :=
  User.mk "u-1" "Alice" "a@x.com" "Secret!1" RoleEngineer 0 0.

Definition day : Duration := 24 * 3600 * Second.

(** Claims that are not valid before second 1000 and expire at second 2000. *)
Definition earlyClaims : Claims.t :=
  Claims.mk "u-1" "a@x.com" "engineer"
    (RegisteredClaims.mk EmptyString EmptyString [] (Some 2000) (Some 1000) None EmptyString).

(** The HS256 token for [earlyClaims] under the key [secret], built as
    [SignedString] builds it. *)
Definition earlySigningString : string :=
  SigningString (P := Sample.prims) (NewWithClaims SigningMethodHS256 earlyClaims).
Definition earlyToken : string :=
  earlySigningString +:+ "." +:+
  EncodeSegment (Primitives := Sample.prims)
    (hmac (Primitives := Sample.prims) SHA256 "secret" earlySigningString).

Lemma earlyToken_signed :
  SignedString (P := Sample.prims) (NewWithClaims SigningMethodHS256 earlyClaims) "secret"
  = Ok earlyToken.
Proof. reflexivity. Qed.

Lemma earlyToken_well_formed :
  well_formed (P := Sample.prims) earlyToken
    (EncodeSegment (Primitives := Sample.prims) (Sample.marshal HS256Header))
    (EncodeSegment (Primitives := Sample.prims) (Sample.marshal earlyClaims))
    HS256Header earlyClaims
    (hmac (Primitives := Sample.prims) SHA256 "secret" earlySigningString).
Proof.
  apply (signed_well_formed (P := Sample.prims) HS256Header earlyClaims);
    apply Sample.unmarshal_marshal.
Qed.

(** C1, witness: a one-day token for Alice, issued at second 1000 and
    validated half a day later. *)
Lemma token_round_trip_witness :
  exists tok c,
    fst (GenerateToken (P := Sample.prims) alice "secret" day (clockAt (1000 * Second))) = Ok tok /\
    fst (ValidateToken (P := Sample.prims) tok "secret" (clockAt (44200 * Second))) = Ok c /\
    c = issuedClaims alice day (clockAt (1000 * Second)) /\
    Claims.UserID c = "u-1" /\ Claims.Email c = "a@x.com" /\ Claims.Role c = "engineer".
Proof.
  apply (token_round_trip (P := Sample.prims) alice "secret" day
           (clockAt (1000 * Second)) (clockAt (44200 * Second))).
  - reflexivity.
  - apply Sample.unmarshal_marshal.
  - apply Sample.unmarshal_marshal.
  - reflexivity.
Defined.

(** At second 500 the token [earlyToken] meets the four conditions the
    specification names: it is well formed, declares HS256, carries the
    right tag and has not expired. *)
Lemma earlyToken_meets_stated_conditions :
  accepted_as_specified (P := Sample.prims) earlyToken "secret" (500 * Second) earlyClaims.
Proof.
  eexists _, _, HS256Header, _, SHA256.
  split; [exact earlyToken_well_formed |].
  split; [reflexivity |]. split; [reflexivity |].
  intros exp [= <-]. reflexivity.
Qed.

(** And yet it is refused then, because its not-before instant (second
    1000) has not been reached. *)
Lemma earlyToken_refused :
  exists e,
    fst (ValidateToken (P := Sample.prims) earlyToken "secret" (clockAt (500 * Second))) = Err e.
Proof.
  apply ValidateToken_Err.
  intros c [(p0 & p1 & h & sig & hh & Hwf & _) Hnbf].
  destruct (well_formed_functional _ _ _ _ _ _ _ _ _ _ _ Hwf earlyToken_well_formed)
    as (_ & _ & _ & -> & _).
  specialize (Hnbf 1000 eq_refl). vm_compute in Hnbf. exact (Hnbf eq_refl).
Qed.

(** C2, counterexample to the claim as stated: for [earlyToken] at second
    500, validation succeeding is not equivalent to the four stated
    conditions holding; they hold and validation fails. *)
Lemma ValidateToken_refuses_not_yet_valid :
  ~ ((exists c, fst (ValidateToken (P := Sample.prims) earlyToken "secret"
                       (clockAt (500 * Second))) = Ok c)
     <->
     (exists c, accepted_as_specified (P := Sample.prims) earlyToken "secret"
                  (now (clockAt (500 * Second)) (ticks (clockAt (500 * Second)))) c)).
Proof.
  intros [_ Hif].
  destruct Hif as [c Hok]; [exists earlyClaims; exact earlyToken_meets_stated_conditions |].
  destruct earlyToken_refused as [e Herr].
  rewrite Herr in Hok. discriminate Hok.
Qed.

End UtilsRuns.

(** ** Go's strconv.Atoi *)

Module Strconv.

Inductive NumError : Type := ErrSyntax | ErrRange.

(** [ch -= '0'; if ch > 9] on a byte: the decimal digits only. *)
Definition digit (c : ascii) : option Z :=
  let n := Z.of_nat (nat_of_ascii c) in
  if (48 <=? n) && (n <=? 57) then Some (n - 48) else None.

(** [n = n*10 + int(ch)] over the bytes; [None] at the first non-digit. *)
Fixpoint digits (s : string) (n : Z) : option Z :=
  match s with
  | EmptyString => Some n
  | String c rest =>
      match digit c with
      | Some d => digits rest (n * 10 + d)
      | None => None
      end
  end.

(** The range of a 64-bit [int]. *)
Definition maxInt : Z := 2 ^ 63 - 1.
Definition minInt : Z := - 2 ^ 63.

(** [strconv.Atoi(s)]: an optional sign, then one or more decimal digits,
    read in base ten; a value outside the range of [int] is a range error
    (and the nearest bound is returned with it).  The fast path for short
    strings and [ParseInt(s, 10, 0)] agree on this. *)
Definition Atoi (s : string) : Z * option NumError :=
  match s with
  | EmptyString => (0, Some ErrSyntax)
  | String c0 rest =>
      let neg := Ascii.eqb c0 "-" in
      let body := if neg || Ascii.eqb c0 "+" then rest else s in
      match body with
      | EmptyString => (0, Some ErrSyntax)
      | _ =>
          match digits body 0 with
          | None => (0, Some ErrSyntax)
          | Some n =>
              let v := if neg then - n else n in
              if v <? minInt then (minInt, Some ErrRange)
              else if maxInt <? v then (maxInt, Some ErrRange)
              else (v, None)
          end
      end
  end.

Example Atoi_25 : Atoi "25" = (25, None).
Proof. reflexivity. Qed.
Example Atoi_plus7 : Atoi "+7" = (7, None).
Proof. reflexivity. Qed.
Example Atoi_minus5 : Atoi "-5" = (-5, None).
Proof. reflexivity. Qed.
Example Atoi_zero : Atoi "0" = (0, None).
Proof. reflexivity. Qed.
Example Atoi_abc : Atoi "abc" = (0, Some ErrSyntax).
Proof. reflexivity. Qed.
Example Atoi_1_5 : Atoi "1.5" = (0, Some ErrSyntax).
Proof. reflexivity. Qed.
Example Atoi_sign_only : Atoi "-" = (0, Some ErrSyntax).
Proof. reflexivity. Qed.
Example Atoi_huge : Atoi "9223372036854775808" = (maxInt, Some ErrRange).
Proof. reflexivity. Qed.

End Strconv.

(** ** gin: the request context and the handler chain

    A handler is a function of the context.  Where gin's handlers reach the
    rest of the chain through [c.Next()], a handler here is handed that
    continuation as its first argument; [c.Abort()] is gin's own: it moves
    the index past every handler. *)

Module Gin.

Definition MethodOptions : string := "OPTIONS".
Definition StatusOK : Z := 200.
Definition StatusUnauthorized : Z := 401.
Definition StatusForbidden : Z := 403.
Definition StatusInternalServerError : Z := 500.

Record Request : Type := mkRequest {
  Method : string;
  Header : gmap string (list string);
  URLQuery : gmap string (list string);
  Params : gmap string string
}.

(** What [c.JSON] serialises: a [gin.H] of strings, a list of records, or
    an authentication response. *)
Inductive Body : Type :=
| H (fields : list (string * string))
| Records (records : list OperationRecord.t)
| Auth (resp : AuthResponse.t).

Record Response : Type := mkResponse { Status : Z; Payload : Body }.

Record Context : Type := mkContext {
  Req : Request;
  Keys : gmap string Any;
  index : Z;
  nhandlers : Z;
  Written : list Response
}.

Definition HandlerFunc : Type := (Context -> M Context) -> Context -> M Context.

Definition abortIndex : Z := 63.

Definition set_index (i : Z) (c : Context) : Context :=
  mkContext (Req c) (Keys c) i (nhandlers c) (Written c).

(** [c.Abort()] *)
Definition Abort (c : Context) : Context := set_index abortIndex c.

(** [c.IsAborted()] *)
Definition IsAborted (c : Context) : bool := abortIndex <=? index c.

(** [c.JSON(code, obj)] *)
Definition JSON (code : Z) (obj : Body) (c : Context) : Context :=
  mkContext (Req c) (Keys c) (index c) (nhandlers c)
            (Written c ++ [mkResponse code obj]).

(** [c.Set(key, value)] *)
Definition Set_ (key : string) (value : Any) (c : Context) : Context :=
  mkContext (Req c) (<[key := value]> (Keys c)) (index c) (nhandlers c) (Written c).

(** [c.Get(key)] *)
Definition Get (key : string) (c : Context) : option Any := Keys c !! key.

(** [c.GetHeader(key)]: the first value, or the empty string. *)
Definition GetHeader (key : string) (c : Context) : string :=
  match Header (Req c) !! key with
  | Some (v :: _) => v
  | _ => EmptyString
  end.

(** [c.Query(key)]: the first value, or the empty string. *)
Definition Query (key : string) (c : Context) : string :=
  match URLQuery (Req c) !! key with
  | Some (v :: _) => v
  | _ => EmptyString
  end.

(** [c.Param(key)] *)
Definition Param (key : string) (c : Context) : string :=
  default EmptyString (Params (Req c) !! key).

(** [c.Next()], with [rest] the handlers after the current one:
    [c.index++], then run the handlers while [c.index < len(c.handlers)].
    A handler that neither called [Next] nor [Abort] leaves the index where
    it was, and the loop goes on to the following handler; otherwise the
    index is already past the end and the loop stops. *)
Fixpoint Next (rest : list HandlerFunc) (c : Context) : M Context :=
  let c0 := set_index (index c + 1) c in
  match rest with
  | [] => ret c0
  | h :: rest' =>
      if index c0 <? nhandlers c0 then
        c1 <- h (Next rest') c0 ;;
        if index c1 =? index c0 then Next rest' c1
        else ret (set_index (index c1 + 1) c1)
      else ret c0
  end.

(** A fresh context for a request: no key, nothing written, and the index
    before the first handler. *)
Definition NewContext (r : Request) (handlers : list HandlerFunc) : Context :=
  mkContext r ∅ (-1) (Z.of_nat (length handlers)) [].

(** Serving a request with a chain of handlers. *)
Definition ServeHTTP (handlers : list HandlerFunc) (r : Request) : M Context :=
  Next handlers (NewContext r handlers).

(** A final handler, which does not call [Next]. *)
Definition final (h : Context -> M Context) : HandlerFunc := fun _ c => h c.

End Gin.

(** ** internal/middleware/auth.go *)

Module Middleware.
Import Gin.

Section Gate.
Context {P : Primitives}.

Definition abortWith (code : Z) (message : string) (c : Context) : M Context :=
  ret (Abort (JSON code (H [("error", message)]) c)).

(** [AuthMiddleware(jwtSecret)] *)
Definition AuthMiddleware (jwtSecret : string) : HandlerFunc :=
  fun next c =>
    if String.eqb (Method (Req c)) MethodOptions then next c
    else
      let authHeader := GetHeader "Authorization" c in
      if String.eqb authHeader EmptyString then
        abortWith StatusUnauthorized "authorization header is required" c
      else
        let parts := Strings.SplitN2 " " authHeader in
        if negb (length parts =? 2)%nat
           || negb (String.eqb (nth 0 parts EmptyString) "Bearer") then
          abortWith StatusUnauthorized "invalid authorization header format" c
        else
          r <- Utils.ValidateToken (nth 1 parts EmptyString) jwtSecret ;;
          match r with
          | Err _ => abortWith StatusUnauthorized "invalid or expired token" c
          | Ok claims =>
              next (Set_ "user_role" (AnyString (Claims.Role claims))
                     (Set_ "user_email" (AnyString (Claims.Email claims))
                       (Set_ "user_id" (AnyString (Claims.UserID claims)) c)))
          end.

(** The loop of [RoleMiddleware]: [hasAccess] after it. *)
Fixpoint hasAccess (roleStr : string) (allowedRoles : list string) : bool :=
  match allowedRoles with
  | [] => false
  | allowedRole :: others =>
      if String.eqb roleStr allowedRole then true else hasAccess roleStr others
  end.

(** [RoleMiddleware(allowedRoles...)] *)
Definition RoleMiddleware (allowedRoles : list string) : HandlerFunc :=
  fun next c =>
    match Get "user_role" c with
    | None => abortWith StatusUnauthorized "user role not found" c
    | Some userRole =>
        match userRole with
        | AnyString roleStr =>
            if negb (hasAccess roleStr allowedRoles) then
              abortWith StatusForbidden "insufficient permissions" c
            else next c
        | _ => abortWith StatusUnauthorized "invalid role type" c
        end
    end.

(** The role stage admits a request when it hands it on unchanged to
    whatever follows. *)
Definition admits (allowedRoles : list string) (c : Context) : Prop :=
  forall next, RoleMiddleware allowedRoles next c = next c.

(** *** Properties *)

Lemma hasAccess_In (roleStr : string) (allowedRoles : list string) :
  hasAccess roleStr allowedRoles = true <-> In roleStr allowedRoles.
Proof.
  induction allowedRoles as [|r rs IH]; simpl.
  - split; [discriminate | intros []].
  - destruct (String.eqb_spec roleStr r) as [-> | Hne].
    + split; auto.
    + rewrite IH. split; [auto | intros [Heq | Hin]; [congruence | exact Hin]].
Qed.

Lemma abortWith_not_identity (code : Z) (message : string) (c : Context) (w : World) :
  abortWith code message c w <> ret c w.
Proof.
  unfold abortWith, ret, Abort, JSON, set_index. intros Heq.
  injection Heq as Heq. apply (f_equal Written) in Heq. simpl in Heq.
  apply (f_equal (@length _)) in Heq. rewrite length_app in Heq. simpl in Heq. lia.
Qed.

Lemma RoleMiddleware_bound (allowedRoles : list string) (R : string) (c : Context)
    (next : Context -> M Context) :
  Get "user_role" c = Some (AnyString R) ->
  RoleMiddleware allowedRoles next c =
  if hasAccess R allowedRoles then next c
  else abortWith StatusForbidden "insufficient permissions" c.
Proof.
  intros Hrole. unfold RoleMiddleware. rewrite Hrole.
  destruct (hasAccess R allowedRoles); reflexivity.
Qed.

(** C4.  For a request bound to the role string R, the role stage admits
    it exactly when R is a member of the endpoint's list of accepted roles,
    and otherwise answers 403 without running what follows; an engineer is
    not admitted where only admin is accepted. *)
Theorem role_gate_membership (allowedRoles : list string) (R : string) (c : Context) :
  Get "user_role" c = Some (AnyString R) ->
  (admits allowedRoles c <-> In R allowedRoles) /\
  (~ In R allowedRoles ->
   forall next, RoleMiddleware allowedRoles next c =
                abortWith StatusForbidden "insufficient permissions" c) /\
  (R = RoleEngineer -> ~ admits [RoleAdmin] c).
Proof.
  intros Hrole.
  assert (Hrej : forall roles, ~ In R roles ->
             forall next, RoleMiddleware roles next c =
                          abortWith StatusForbidden "insufficient permissions" c).
  { intros roles Hnot next. rewrite (RoleMiddleware_bound roles R c next Hrole).
    destruct (hasAccess R roles) eqn:Hacc; [| reflexivity].
    apply hasAccess_In in Hacc. contradiction. }
  assert (Hadm : forall roles, admits roles c <-> In R roles).
  { intros roles. split.
    - intros Hadm. apply hasAccess_In.
      destruct (hasAccess R roles) eqn:Hacc; [reflexivity | exfalso].
      specialize (Hadm ret).
      rewrite (RoleMiddleware_bound roles R c ret Hrole), Hacc in Hadm.
      apply (abortWith_not_identity StatusForbidden "insufficient permissions" c
               (mkWorld (mkDB [] [] [] []) (fun _ => None) 0%nat (fun _ => 0) 0%nat)).
      rewrite Hadm. reflexivity.
    - intros Hin next. rewrite (RoleMiddleware_bound roles R c next Hrole).
      apply hasAccess_In in Hin. rewrite Hin. reflexivity. }
  split; [apply Hadm |]. split; [apply Hrej |].
  intros -> Hadmin. apply Hadm in Hadmin.
  destruct Hadmin as [Heq | []]. discriminate Heq.
Qed.

(** A request that carries a valid token whose role is engineer is
    answered 403 by an endpoint that accepts admin only. *)
Lemma engineer_token_rejected_by_admin_gate
    (jwtSecret tokenString : string) (claims : Claims.t) (c : Context) (w : World)
    (next : Context -> M Context) :
  Method (Req c) <> MethodOptions ->
  GetHeader "Authorization" c = "Bearer " +:+ tokenString ->
  fst (Utils.ValidateToken tokenString jwtSecret w) = Ok claims ->
  Claims.Role claims = RoleEngineer ->
  exists c', fst (AuthMiddleware jwtSecret (RoleMiddleware [RoleAdmin] next) c w)
             = Abort (JSON StatusForbidden (H [("error", "insufficient permissions")]) c')
             /\ Get "user_role" c' = Some (AnyString RoleEngineer).
Proof.
  intros Hm Hhdr Hval Hrole. unfold AuthMiddleware.
  destruct (String.eqb_spec (Method (Req c)) MethodOptions) as [Heq | _]; [contradiction |].
  rewrite Hhdr.
  change (Strings.SplitN2 " " ("Bearer " +:+ tokenString)) with ["Bearer"; tokenString].
  cbn [length nth]. change ("Bearer " +:+ tokenString =? "")%string with false.
  cbn [negb orb Nat.eqb String.eqb Ascii.eqb Bool.eqb].
  unfold bind. destruct (Utils.ValidateToken tokenString jwtSecret w) as [r w'].
  simpl in Hval. subst r. rewrite Hrole.
  set (c' := Set_ "user_role" (AnyString RoleEngineer) _).
  assert (Hbound : Get "user_role" c' = Some (AnyString RoleEngineer))
    by apply lookup_insert_eq.
  exists c'. split; [| exact Hbound].
  rewrite (RoleMiddleware_bound [RoleAdmin] RoleEngineer c' next Hbound).
  reflexivity.
Qed.

(** The authentication stage lets a pre-flight request through untouched. *)
Lemma AuthMiddleware_preflight (jwtSecret : string) (c : Context)
    (next : Context -> M Context) :
  Method (Req c) = MethodOptions -> AuthMiddleware jwtSecret next c = next c.
Proof. intros Hm. unfold AuthMiddleware. rewrite Hm. reflexivity. Qed.

(** The role stage has no such exception: without a bound role it answers
    401, whatever the method. *)
Lemma RoleMiddleware_unbound (allowedRoles : list string) (c : Context)
    (next : Context -> M Context) :
  Get "user_role" c = None ->
  RoleMiddleware allowedRoles next c =
  abortWith StatusUnauthorized "user role not found" c.
Proof. intros Hnone. unfold RoleMiddleware. rewrite Hnone. reflexivity. Qed.

End Gate.
End Middleware.

(** ** gin: groups, routes, and the handlers that serve a request

    A group hands its handlers and its base path on to the groups made from
    it; a route gets the handlers its group holds when it is registered,
    followed by its own.  The engine keeps the routes of each HTTP method
    apart and looks a request up among the routes of its own method only. *)

Module GinEngine.

(** [path.Clean] on a rooted path none of whose elements is a dot or two
    dots: a run of slashes becomes one slash, and the slash at the end goes,
    unless the path is the root. *)
Fixpoint squeeze (s : string) : string :=
  match s with
  | EmptyString => EmptyString
  | String c rest =>
      match rest with
      | String c' _ =>
          if Ascii.eqb c "/" && Ascii.eqb c' "/" then squeeze rest
          else String c (squeeze rest)
      | EmptyString => String c EmptyString
      end
  end.

Fixpoint lastChar (s : string) : option ascii :=
  match s with
  | EmptyString => None
  | String c EmptyString => Some c
  | String _ rest => lastChar rest
  end.

Fixpoint dropLast (s : string) : string :=
  match s with
  | EmptyString => EmptyString
  | String _ EmptyString => EmptyString
  | String c rest => String c (dropLast rest)
  end.

Definition endsWithSlash (s : string) : bool :=
  match lastChar s with
  | Some c => Ascii.eqb c "/"
  | None => false
  end.

Definition Clean (p : string) : string :=
  let q := squeeze p in
  if String.eqb q "/" then q
  else if endsWithSlash q then dropLast q else q.

(** [path.Join(a, b)]: the elements that are not empty, with a slash
    between them, cleaned. *)
Definition Join (a b : string) : string :=
  if String.eqb a EmptyString then
    if String.eqb b EmptyString then EmptyString else Clean b
  else if String.eqb b EmptyString then Clean a
  else Clean (a +:+ "/" +:+ b).

(** [joinPaths(absolutePath, relativePath)] *)
Definition joinPaths (absolutePath relativePath : string) : string :=
  if String.eqb relativePath EmptyString then absolutePath
  else
    let finalPath := Join absolutePath relativePath in
    if endsWithSlash relativePath && negb (endsWithSlash finalPath)
    then finalPath +:+ "/"
    else finalPath.

Section Routes.
Variable HandlerT : Type.

Record RouterGroup : Type := mkRouterGroup {
  Handlers : list HandlerT;
  basePath : string
}.

(** What [addRoute] stores: the method, the full path, and the handlers. *)
Record Route : Type := mkRoute {
  method : string;
  fullPath : string;
  handlers : list HandlerT
}.

(** [group.Use(middleware...)] *)
Definition Use (group : RouterGroup) (middleware : list HandlerT) : RouterGroup :=
  mkRouterGroup (Handlers group ++ middleware) (basePath group).

(** [group.Group(relativePath)] *)
Definition Group (group : RouterGroup) (relativePath : string) : RouterGroup :=
  mkRouterGroup (Handlers group) (joinPaths (basePath group) relativePath).

(** [group.handle(httpMethod, relativePath, handlers)]: the route added. *)
Definition handle (httpMethod : string) (group : RouterGroup) (relativePath : string)
    (handler : HandlerT) : Route :=
  mkRoute httpMethod (joinPaths (basePath group) relativePath)
          (Handlers group ++ [handler]).

Definition GET := handle "GET".
Definition POST := handle "POST".
Definition PUT := handle "PUT".
Definition PATCH := handle "PATCH".
Definition DELETE := handle "DELETE".

(** The engine: its own group, the routes in the order of their
    registration, and the handlers of [NoRoute]. *)
Record Engine : Type := mkEngine {
  RouterGroup_ : RouterGroup;
  trees : list Route;
  noRoute : list HandlerT
}.

(** [engine.allNoRoute], as [rebuild404Handlers] combines it. *)
Definition allNoRoute (engine : Engine) : list HandlerT :=
  Handlers (RouterGroup_ engine) ++ noRoute engine.

(** The tree of one method: the routes registered with it. *)
Definition tree (engine : Engine) (httpMethod : string) : list Route :=
  List.filter (fun route => String.eqb (method route) httpMethod) (trees engine).

(** What the lookup of a path in the tree of a method answers: the route
    that holds the path, if one does, and otherwise whether the path with
    its last slash added or taken away is held. *)
Record nodeValue : Type := mkNodeValue {
  found : option Route;
  tsr : bool
}.

(** How a request is served: by a chain of handlers, or by a redirection to
    the other spelling of its path, which runs no handler. *)
Inductive Served : Type :=
| Chain (c_handlers : list HandlerT)
| RedirectTrailingSlash.

Section Lookup.
(** [root.getValue(rPath, ...)] is gin's. *)
Variable getValue : list Route -> string -> nodeValue.

(** [engine.handleHTTPRequest(c)], with [RedirectTrailingSlash] set, and
    [RedirectFixedPath] and [HandleMethodNotAllowed] unset, as [gin.New]
    leaves them: a method with no tree, and a path the tree of its method
    does not hold, are served by [allNoRoute]. *)
Definition handleHTTPRequest (engine : Engine) (httpMethod rPath : string) : Served :=
  match tree engine httpMethod with
  | [] => Chain (allNoRoute engine)
  | root =>
      let value := getValue root rPath in
      match found value with
      | Some route => Chain (handlers route)
      | None =>
          if negb (String.eqb httpMethod "CONNECT") && negb (String.eqb rPath "/")
             && tsr value
          then RedirectTrailingSlash
          else Chain (allNoRoute engine)
      end
  end.

End Lookup.
End Routes.

Arguments mkRouterGroup {HandlerT}.
Arguments Handlers {HandlerT}.
Arguments basePath {HandlerT}.
Arguments mkRoute {HandlerT}.
Arguments method {HandlerT}.
Arguments fullPath {HandlerT}.
Arguments handlers {HandlerT}.
Arguments Use {HandlerT}.
Arguments Group {HandlerT}.
Arguments handle {HandlerT}.
Arguments GET {HandlerT}.
Arguments POST {HandlerT}.
Arguments PUT {HandlerT}.
Arguments PATCH {HandlerT}.
Arguments DELETE {HandlerT}.
Arguments mkEngine {HandlerT}.
Arguments RouterGroup_ {HandlerT}.
Arguments trees {HandlerT}.
Arguments noRoute {HandlerT}.
Arguments allNoRoute {HandlerT}.
Arguments tree {HandlerT}.
Arguments mkNodeValue {HandlerT}.
Arguments found {HandlerT}.
Arguments tsr {HandlerT}.
Arguments Chain {HandlerT}.
Arguments RedirectTrailingSlash {HandlerT}.
Arguments handleHTTPRequest {HandlerT}.

(** A method with which no route is registered is served by [allNoRoute],
    whatever the path and whatever the lookup. *)
Lemma handleHTTPRequest_no_tree {HandlerT : Type}
    (getValue : list (Route HandlerT) -> string -> nodeValue HandlerT)
    (engine : Engine HandlerT) (httpMethod rPath : string) :
  tree engine httpMethod = [] ->
  handleHTTPRequest getValue engine httpMethod rPath = Chain (allNoRoute engine).
Proof. intros Hnone. unfold handleHTTPRequest. rewrite Hnone. reflexivity. Qed.

End GinEngine.

(** ** cmd/api/main.go: the router *)

Module Main.
Import GinEngine.

(** The handlers [main] installs. *)
Inductive Handler : Type :=
| Logger                                   (* gin.Default() *)
| Recovery                                 (* gin.Default() *)
| CORS                                     (* cors.New(cors.Config{...}) *)
| AuthMiddleware                           (* middleware.AuthMiddleware(cfg.JWTSecret) *)
| RoleMiddleware (allowedRoles : list string)
| Endpoint (name : string)                 (* a handler method, or a closure of main *)
| NotFound.                                (* the closure given to router.NoRoute *)

(** [gin.Default()] and [router.Use(cors.New(...))] *)
Definition router : RouterGroup Handler :=
  Use (Use (mkRouterGroup [] "/") [Logger; Recovery]) [CORS].

Definition public : RouterGroup Handler := Group router "/api/auth".

Definition protected : RouterGroup Handler := Use (Group router "/api") [AuthMiddleware].

Definition auth : RouterGroup Handler := Group protected "/auth".

Definition rus : RouterGroup Handler := Group protected "/rus".

Definition admin : RouterGroup Handler :=
  Use (Group protected "/admin") [RoleMiddleware ["admin"]].

Definition engineer : RouterGroup Handler :=
  Use (Group protected "/engineer") [RoleMiddleware ["engineer"; "admin"]].

Definition dispatcher : RouterGroup Handler :=
  Use (Group protected "/dispatcher") [RoleMiddleware ["dispatcher"; "engineer"; "admin"]].

(** The routes, in the order in which [main] registers them. *)
Definition routes : list (Route Handler) :=
  [ GET router "/api/substations/:id" (Endpoint "ruHandler.GetSubstationPublic");
    POST public "/register" (Endpoint "authHandler.Register");
    POST public "/login" (Endpoint "authHandler.Login");
    GET public "/health" (Endpoint "auth health");
    GET auth "/me" (Endpoint "authHandler.GetMe");
    GET rus "/" (Endpoint "ruHandler.GetAllRUs");
    GET rus "/:id" (Endpoint "ruHandler.GetRu");
    GET rus "/:id/history" (Endpoint "ruHandler.GetHistory");
    PUT rus "/:id/cells/:cellId/status" (Endpoint "ruHandler.UpdateCellStatus");
    POST rus "/:id/history" (Endpoint "ruHandler.AddHistory");
    PATCH rus "/:id/cells/:cellId/info" (Endpoint "ruHandler.UpdateCellInfo");
    PUT rus "/:id/status" (Endpoint "ruHandler.UpdateRuStatus");
    PUT rus "/substations/:id/rus" (Endpoint "ruHandler.UpdateSubstationRUs");
    GET admin "/users" (Endpoint "adminHandler.GetUsers");
    POST admin "/users" (Endpoint "adminHandler.CreateUser");
    PUT admin "/users/:id" (Endpoint "adminHandler.UpdateUser");
    DELETE admin "/users/:id" (Endpoint "adminHandler.DeleteUser");
    PUT admin "/users/:id/password" (Endpoint "adminHandler.ChangePassword");
    POST admin "/rus" (Endpoint "adminRuHandler.CreateRU");
    POST admin "/rus/:id/cells" (Endpoint "adminRuHandler.CreateCells");
    GET engineer "/test" (Endpoint "engineer test");
    GET dispatcher "/test" (Endpoint "dispatcher test");
    GET router "/health" (Endpoint "health");
    GET router "/" (Endpoint "root") ].

(** [router], once [main] has registered its routes and its [NoRoute]. *)
Definition engine : Engine Handler := mkEngine router routes [NotFound].

(** The route of [admin.GET] for the users. *)
Definition adminUsers : Route Handler :=
  GET admin "/users" (Endpoint "adminHandler.GetUsers").

(** The two stages of the access-control gate. *)
Definition gate (h : Handler) : bool :=
  match h with
  | AuthMiddleware | RoleMiddleware _ => true
  | _ => false
  end.

(** A route is behind the gate when the token check is among its handlers,
    and behind a role gate when a role stage is. *)
Definition behind_gate (route : Route Handler) : bool :=
  existsb (fun h => match h with AuthMiddleware => true | _ => false end) (handlers route).

Definition behind_role_gate (route : Route Handler) : bool :=
  existsb (fun h => match h with RoleMiddleware _ => true | _ => false end) (handlers route).

(** The claim of a bypass, as the specification words it, on one route: an
    OPTIONS request for the path of the route is passed through to the
    handlers of the route, which are, the stages of the gate apart, all
    among the handlers that serve it. *)
Definition passes_to_handlers
    (getValue : list (Route Handler) -> string -> nodeValue Handler)
    (route : Route Handler) : Prop :=
  exists hs,
    handleHTTPRequest getValue engine Gin.MethodOptions (fullPath route) = Chain hs /\
    incl (List.filter (fun h => negb (gate h)) (handlers route)) hs.

Definition StatusNotFound : Z := 404.

(** A pre-flight request: its method is OPTIONS, whatever else it carries. *)
Definition preflight (header query : gmap string (list string))
    (params : gmap string string) : Gin.Request :=
  Gin.mkRequest Gin.MethodOptions header query params.

Section Serve.
Context {P : Primitives}.
Variable jwtSecret : string.                         (* cfg.JWTSecret *)
Variables logger recovery cors : Gin.HandlerFunc.    (* gin's and gin-contrib's *)
Variable endpoint : string -> Gin.HandlerFunc.       (* the handlers of the routes *)
Variable getValue : list (Route Handler) -> string -> nodeValue Handler.

(** The closure given to [router.NoRoute]. *)
Definition notFound (rPath : string) : Gin.HandlerFunc :=
  Gin.final (fun c =>
    ret (Gin.JSON StatusNotFound
           (Gin.H [("error", "Not Found");
                   ("message", "The requested endpoint does not exist");
                   ("path", rPath)]) c)).

(** What each handler of the router is. *)
Definition handlerFunc (rPath : string) (h : Handler) : Gin.HandlerFunc :=
  match h with
  | Logger => logger
  | Recovery => recovery
  | CORS => cors
  | AuthMiddleware => Middleware.AuthMiddleware jwtSecret
  | RoleMiddleware allowedRoles => Middleware.RoleMiddleware allowedRoles
  | Endpoint name => endpoint name
  | NotFound => notFound rPath
  end.

(** [engine.ServeHTTP]: the request, whose path is [rPath] and whose path
    parameters are in [Params], is served by the handlers chosen for its
    method and path; a redirection runs none. *)
Definition ServeHTTP (rPath : string) (r : Gin.Request) : option (M Gin.Context) :=
  match handleHTTPRequest getValue engine (Gin.Method r) rPath with
  | Chain hs => Some (Gin.ServeHTTP (map (handlerFunc rPath) hs) r)
  | RedirectTrailingSlash => None
  end.

(** *** Properties *)

(** The methods and paths [main] registers. *)
Example routes_registered :
  map (fun route => (method route, fullPath route)) routes =
  [ ("GET", "/api/substations/:id");
    ("POST", "/api/auth/register");
    ("POST", "/api/auth/login");
    ("GET", "/api/auth/health");
    ("GET", "/api/auth/me");
    ("GET", "/api/rus/");
    ("GET", "/api/rus/:id");
    ("GET", "/api/rus/:id/history");
    ("PUT", "/api/rus/:id/cells/:cellId/status");
    ("POST", "/api/rus/:id/history");
    ("PATCH", "/api/rus/:id/cells/:cellId/info");
    ("PUT", "/api/rus/:id/status");
    ("PUT", "/api/rus/substations/:id/rus");
    ("GET", "/api/admin/users");
    ("POST", "/api/admin/users");
    ("PUT", "/api/admin/users/:id");
    ("DELETE", "/api/admin/users/:id");
    ("PUT", "/api/admin/users/:id/password");
    ("POST", "/api/admin/rus");
    ("POST", "/api/admin/rus/:id/cells");
    ("GET", "/api/engineer/test");
    ("GET", "/api/dispatcher/test");
    ("GET", "/health");
    ("GET", "/") ].
Proof. reflexivity. Qed.

(** The handlers of a route of the admin group: the engine's, the token
    check, the role stage, and the route's own. *)
Example handlers_of_delete_user :
  tree engine "DELETE" =
  [ mkRoute "DELETE" "/api/admin/users/:id"
      [Logger; Recovery; CORS; AuthMiddleware; RoleMiddleware ["admin"];
       Endpoint "adminHandler.DeleteUser"] ].
Proof. reflexivity. Qed.

(** No route is registered with the method OPTIONS. *)
Lemma no_preflight_route : tree engine Gin.MethodOptions = [].
Proof. reflexivity. Qed.

(** C3.  An OPTIONS request bypasses the token check, and the token check
    only.  The token check hands it to what follows, untouched, whatever it
    carries.  The role stage has no exception for the method: a pre-flight
    to which no role is bound, as the token check hands it on from a fresh
    context, is answered 401 there, and what follows is not run.  And as
    the routes are registered, no route accepts the method: an OPTIONS
    request, whatever its path, is served by the handlers of the engine and
    the not-found handler alone, so that neither stage of the gate is run
    for it, and no handler of a route. *)
Theorem preflight_bypasses_token_check_only
    (rPath : string) (header query : gmap string (list string))
    (params : gmap string string) :
  (forall keys i n written next,
     Middleware.AuthMiddleware jwtSecret next
       (Gin.mkContext (preflight header query params) keys i n written)
     = next (Gin.mkContext (preflight header query params) keys i n written)) /\
  (forall allowedRoles i n written next,
     Middleware.AuthMiddleware jwtSecret (Middleware.RoleMiddleware allowedRoles next)
       (Gin.mkContext (preflight header query params) ∅ i n written)
     = Middleware.abortWith Gin.StatusUnauthorized "user role not found"
         (Gin.mkContext (preflight header query params) ∅ i n written)) /\
  handleHTTPRequest getValue engine Gin.MethodOptions rPath
    = Chain [Logger; Recovery; CORS; NotFound] /\
  ServeHTTP rPath (preflight header query params)
    = Some (Gin.ServeHTTP [logger; recovery; cors; notFound rPath]
              (preflight header query params)).
Proof.
  split; [| split; [| split]].
  - intros keys i n written next.
    apply Middleware.AuthMiddleware_preflight. reflexivity.
  - intros allowedRoles i n written next.
    rewrite Middleware.AuthMiddleware_preflight by reflexivity.
    apply Middleware.RoleMiddleware_unbound. apply lookup_empty.
  - apply (handleHTTPRequest_no_tree getValue engine). exact no_preflight_route.
  - unfold ServeHTTP, preflight. cbn [Gin.Method].
    rewrite (handleHTTPRequest_no_tree getValue engine) by exact no_preflight_route.
    reflexivity.
Qed.

End Serve.

(** *** The claim of a bypass, at a route behind a role gate *)

Example adminUsers_registered :
  In adminUsers routes /\
  handlers adminUsers =
  [Logger; Recovery; CORS; AuthMiddleware; RoleMiddleware ["admin"];
   Endpoint "adminHandler.GetUsers"].
Proof. split; [| reflexivity]. do 13 right. left. reflexivity. Qed.

(** C3, counterexample to the claim as stated.  The route GET
    /api/admin/users is registered behind the token check and the admin role
    stage; an OPTIONS request for its path is not passed through to its
    handlers, whatever the lookup of paths: the handler of the route is not
    among those that serve the request. *)
Lemma preflight_not_passed_to_admin_handler :
  behind_gate adminUsers = true /\ behind_role_gate adminUsers = true /\
  ~ (exists getValue, passes_to_handlers getValue adminUsers).
Proof.
  split; [reflexivity |]. split; [reflexivity |].
  intros [getValue [hs [Hserved Hincl]]].
  rewrite (handleHTTPRequest_no_tree getValue engine) in Hserved
    by (vm_compute; reflexivity).
  injection Hserved as <-.
  specialize (Hincl (Endpoint "adminHandler.GetUsers")).
  cbn in Hincl. 
  assert (Hin : In (Endpoint "adminHandler.GetUsers") [Logger; Recovery; CORS; NotFound]).
  { apply Hincl. do 3 right. left. reflexivity. }
  cbn in Hin. intuition discriminate.
Qed.

(** It is so on every route [main] registers, behind the gate or not: each
    has a handler of its own, and none of them serves an OPTIONS request. *)
Lemma preflight_passed_to_no_route
    (getValue : list (Route Handler) -> string -> nodeValue Handler)
    (route : Route Handler) :
  In route routes -> ~ passes_to_handlers getValue route.
Proof.
  intros Hin [hs [Hserved Hincl]].
  rewrite (handleHTTPRequest_no_tree getValue engine) in Hserved
    by (vm_compute; reflexivity).
  injection Hserved as <-.
  set (own := fun h : Handler => match h with Endpoint _ => true | _ => false end).
  assert (Hall : forallb (fun r => existsb own
                    (List.filter (fun h => negb (gate h)) (handlers r))) routes = true)
    by reflexivity.
  rewrite forallb_forall in Hall. specialize (Hall route Hin).
  apply existsb_exists in Hall as [h [Hh Hown]].
  apply Hincl in Hh. cbn in Hh.
  destruct Hh as [<- | [<- | [<- | [<- | []]]]]; discriminate Hown.
Qed.

End Main.

(** ** Go's time.Format, for layouts made of numeric chunks

    [Date] and [Clock] are [t.Date()] and [t.Clock()]: the calendar reading
    of an instant in the process's local zone, which lies outside the
    repository. *)

Class Calendar : Type := {
  Date : Time -> Z * Z * Z;
  Clock : Time -> Z * Z * Z
}.

Module TimeFormat.

Inductive chunk : Type :=
| stdZeroMonth     (* 01 *)
| stdZeroDay       (* 02 *)
| stdZeroMinute    (* 04 *)
| stdZeroSecond    (* 05 *)
| stdHour          (* 15 *)
| stdLongYear      (* 2006 *)
| literal (c : ascii).

Definition byte_is (c : ascii) (x : ascii) : bool := Ascii.eqb x c.

(** The scan of [nextStdChunk], restricted to the chunks above: 01, 02,
    04, 05, 15 and 2006 are read as chunks and every other byte stands for
    itself.  (The textual chunks, the zones, the unpadded and 12-hour forms
    and the fractional seconds are left out; the layout of this service is
    made of the six chunks above, dots, a space and colons, and in it no
    dot is followed by a run of 0s or 9s that ends the digits.) *)
Fixpoint chunks (layout : string) : list chunk :=
  match layout with
  | EmptyString => []
  | String a r1 =>
      match r1 with
      | EmptyString => [literal a]
      | String b r2 =>
          if byte_is "0" a && byte_is "1" b then stdZeroMonth :: chunks r2
          else if byte_is "0" a && byte_is "2" b then stdZeroDay :: chunks r2
          else if byte_is "0" a && byte_is "4" b then stdZeroMinute :: chunks r2
          else if byte_is "0" a && byte_is "5" b then stdZeroSecond :: chunks r2
          else if byte_is "1" a && byte_is "5" b then stdHour :: chunks r2
          else
            match r2 with
            | String c (String d r4) =>
                if byte_is "2" a && byte_is "0" b && byte_is "0" c && byte_is "6" d
                then stdLongYear :: chunks r4
                else literal a :: chunks r1
            | _ => literal a :: chunks r1
            end
      end
  end.

Definition utod (u : Z) : ascii := ascii_of_nat (48 + Z.to_nat u).

(** The decimal digits of [u], most significant first; a 64-bit number has
    at most twenty. *)
Fixpoint decimal (fuel : nat) (u : Z) : string :=
  match fuel with
  | O => EmptyString
  | S k =>
      if u <? 10 then String (utod u) EmptyString
      else decimal k (u / 10) +:+ String (utod (u mod 10)) EmptyString
  end.

Fixpoint zeros (n : nat) : string :=
  match n with O => EmptyString | S k => String "0" (zeros k) end.

(** [appendInt(b, x, width)]: [x] in decimal, padded with zeros on the left
    up to [width] digits. *)
Definition appendInt (x : Z) (width : nat) : string :=
  let digits := decimal 20 (Z.abs x) in
  (if x <? 0 then "-" else EmptyString) +:+
  zeros (width - String.length digits) +:+ digits.

Section Format.
Context {C : Calendar}.

Definition render (t : Time) (k : chunk) : string :=
  let '(year, month, day) := Date t in
  let '(hour, min, sec) := Clock t in
  match k with
  | stdZeroMonth => appendInt month 2
  | stdZeroDay => appendInt day 2
  | stdZeroMinute => appendInt min 2
  | stdZeroSecond => appendInt sec 2
  | stdHour => appendInt hour 2
  | stdLongYear => appendInt year 4
  | literal c => String c EmptyString
  end.

(** [t.Format(layout)] *)
Definition Format (t : Time) (layout : string) : string :=
  fold_right (fun k out => render t k +:+ out) EmptyString (chunks layout).

(** DD.MM.YYYY HH:MM:SS, in words: the day and the month on two digits,
    the year on four, then the hour, the minute and the second on two digits
    each, with dots, a space and colons between them. *)
Definition DD_MM_YYYY_HH_MM_SS (t : Time) : string :=
  let '(year, month, day) := Date t in
  let '(hour, min, sec) := Clock t in
  appendInt day 2 +:+ "." +:+ appendInt month 2 +:+ "." +:+ appendInt year 4
  +:+ " " +:+
  appendInt hour 2 +:+ ":" +:+ appendInt min 2 +:+ ":" +:+ appendInt sec 2.

Lemma Format_layout (t : Time) :
  Format t "02.01.2006 15:04:05" = DD_MM_YYYY_HH_MM_SS t.
Proof.
  unfold Format, DD_MM_YYYY_HH_MM_SS.
  change (chunks "02.01.2006 15:04:05") with
    [stdZeroDay; literal "."; stdZeroMonth; literal "."; stdLongYear; literal " ";
     stdHour; literal ":"; stdZeroMinute; literal ":"; stdZeroSecond].
  cbn [fold_right]. unfold render.
  destruct (Date t) as [[year month] day], (Clock t) as [[hour min] sec].
  rewrite Strings.append_nil_r. reflexivity.
Qed.

End Format.
End TimeFormat.

(** ** internal/repository

    gorm's calls are read as statements on the tables: [Where(...).First]
    returns the first matching row or fails with record not found;
    [Save] updates the rows that carry the primary key and inserts the row
    when there is none; [Order("created_at DESC")] sorts, and [Limit(n)]
    keeps the first [n] rows.  Two rows created at the same instant come in
    the order the sort leaves them. *)

Definition ErrRecordNotFound : string := "record not found".

(** [db.Save(row)] on a table whose primary key is read by [pk]. *)
Definition save {A K} (pk : A -> K) (eqb : K -> K -> bool) (row : A) (table : list A)
  : list A :=
  if existsb (fun r => eqb (pk r) (pk row)) table
  then map (fun r => if eqb (pk r) (pk row) then row else r) table
  else table ++ [row].

(** [Where(...).First(&x)] *)
Definition first {A} (cond : A -> bool) (table : list A) : result A :=
  match List.find cond table with
  | Some r => Ok r
  | None => Err ErrRecordNotFound
  end.

(** Newest first by creation time. *)
Definition newest_first (a b : OperationRecord.t) : Prop :=
  OperationRecord.CreatedAt b <= OperationRecord.CreatedAt a.

#[global] Instance newest_first_dec : RelDecision newest_first.
Proof. intros a b. unfold newest_first. apply Z_le_dec. Defined.

Module RuRepository.

Definition set_ru_infos (t : list RUInfo.t) (d : DB) : DB :=
  mkDB (users d) t (cells d) (operation_records d).
Definition set_cells (t : list Cell.t) (d : DB) : DB :=
  mkDB (users d) (ru_infos d) t (operation_records d).

(** [GetRuByID(ruID)] *)
Definition GetRuByID (ruID : string) : M (result RUInfo.t) :=
  r <- statement (fun d =>
         (first (fun ru => String.eqb (RUInfo.ID ru) ruID) (ru_infos d), d)) ;;
  match r with
  | Err e => ret (Err (wrap "failed to get RU by ID" e))
  | Ok ruInfo => ret (Ok ruInfo)
  end.

(** [UpdateRu(ruInfo)] *)
Definition UpdateRu (ruInfo : RUInfo.t) : M (result unit) :=
  r <- statement (fun d =>
         (Ok tt, set_ru_infos (save RUInfo.ID String.eqb ruInfo (ru_infos d)) d)) ;;
  match r with
  | Err e => ret (Err (wrap "failed to update RU" e))
  | Ok _ => ret (Ok tt)
  end.

(** The condition [id = ? AND ru_id = ?]. *)
Definition cell_is (cellID : Z) (ruID : string) (c : Cell.t) : bool :=
  (Cell.ID c =? cellID) && String.eqb (Cell.RuID c) ruID.

(** [GetCellByID(cellID, ruID)] *)
Definition GetCellByID (cellID : Z) (ruID : string) : M (result Cell.t) :=
  r <- statement (fun d => (first (cell_is cellID ruID) (cells d), d)) ;;
  match r with
  | Err e => ret (Err (wrap "failed to get cell by ID" e))
  | Ok cell => ret (Ok cell)
  end.

(** [UpdateCell(cell)] *)
Definition UpdateCell (cell : Cell.t) : M (result unit) :=
  r <- statement (fun d =>
         (Ok tt, set_cells (save Cell.ID Z.eqb cell (cells d)) d)) ;;
  match r with
  | Err e => ret (Err (wrap "failed to update cell" e))
  | Ok _ => ret (Ok tt)
  end.

(** The rows of one unit, newest first: [Where("ru_id = ?", ruID)] and
    [Order("created_at DESC")]. *)
Definition history_of (ruID : string) (d : DB) : list OperationRecord.t :=
  merge_sort newest_first
    (List.filter (fun r => String.eqb (OperationRecord.RuID r) ruID)
                 (operation_records d)).

(** [GetHistoryByRuID(ruID, limit)] *)
Definition GetHistoryByRuID (ruID : string) (limit : Z)
  : M (result (list OperationRecord.t)) :=
  let query := history_of ruID in
  let query := if limit >? 0 then (fun d => take (Z.to_nat limit) (query d)) else query in
  r <- statement (fun d => (Ok (query d), d)) ;;
  match r with
  | Err e => ret (Err (wrap "failed to get history by RU ID" e))
  | Ok records => ret (Ok records)
  end.

(** The records of one unit, as the table holds them. *)
Definition records_of (ruID : string) (d : DB) : list OperationRecord.t :=
  List.filter (fun r => String.eqb (OperationRecord.RuID r) ruID) (operation_records d).

(** *** Properties *)

#[global] Instance newest_first_total : Total newest_first.
Proof. intros a b. unfold newest_first. lia. Qed.

#[global] Instance newest_first_trans : Transitive newest_first.
Proof. intros a b c. unfold newest_first. lia. Qed.

Lemma history_of_sorted (ruID : string) (d : DB) :
  StronglySorted newest_first (history_of ruID d).
Proof. apply StronglySorted_merge_sort; typeclasses eauto. Qed.

Lemma history_of_perm (ruID : string) (d : DB) :
  history_of ruID d ≡ₚ records_of ruID d.
Proof. apply merge_sort_Permutation. Qed.

Lemma records_of_spec (ruID : string) (d : DB) (r : OperationRecord.t) :
  r ∈ records_of ruID d <->
  r ∈ operation_records d /\ OperationRecord.RuID r = ruID.
Proof.
  unfold records_of. rewrite !list_elem_of_In, List.filter_In, String.eqb_eq.
  reflexivity.
Qed.

Lemma GetHistoryByRuID_run (ruID : string) (limit : Z) (w : World) :
  GetHistoryByRuID ruID limit w =
  (match fault w (stmts w) with
   | Some msg => Err (wrap "failed to get history by RU ID" msg)
   | None => Ok (if limit >? 0 then take (Z.to_nat limit) (history_of ruID (db w))
                 else history_of ruID (db w))
   end, sent (db w) w).
Proof.
  unfold GetHistoryByRuID, bind. rewrite statement_run.
  destruct (fault w (stmts w)); [reflexivity |].
  destruct (limit >? 0); reflexivity.
Qed.

Lemma GetRuByID_run (ruID : string) (w : World) :
  GetRuByID ruID w =
  (match fault w (stmts w) with
   | Some msg => Err (wrap "failed to get RU by ID" msg)
   | None =>
       match List.find (fun ru => String.eqb (RUInfo.ID ru) ruID) (ru_infos (db w)) with
       | Some ru => Ok ru
       | None => Err (wrap "failed to get RU by ID" ErrRecordNotFound)
       end
   end, sent (db w) w).
Proof.
  unfold GetRuByID, bind. rewrite statement_run.
  destruct (fault w (stmts w)); [reflexivity |].
  unfold first. cbn [fst snd]. destruct (List.find _ _); reflexivity.
Qed.

Lemma UpdateRu_run (ruInfo : RUInfo.t) (w : World) :
  UpdateRu ruInfo w =
  match fault w (stmts w) with
  | Some msg => (Err (wrap "failed to update RU" msg), sent (db w) w)
  | None => (Ok tt, sent (set_ru_infos (save RUInfo.ID String.eqb ruInfo (ru_infos (db w))) (db w)) w)
  end.
Proof.
  unfold UpdateRu, bind. rewrite statement_run.
  destruct (fault w (stmts w)); reflexivity.
Qed.

Lemma GetCellByID_run (cellID : Z) (ruID : string) (w : World) :
  GetCellByID cellID ruID w =
  (match fault w (stmts w) with
   | Some msg => Err (wrap "failed to get cell by ID" msg)
   | None =>
       match List.find (cell_is cellID ruID) (cells (db w)) with
       | Some cell => Ok cell
       | None => Err (wrap "failed to get cell by ID" ErrRecordNotFound)
       end
   end, sent (db w) w).
Proof.
  unfold GetCellByID, bind. rewrite statement_run.
  destruct (fault w (stmts w)); [reflexivity |].
  unfold first. cbn [fst snd]. destruct (List.find _ _); reflexivity.
Qed.

Lemma UpdateCell_run (cell : Cell.t) (w : World) :
  UpdateCell cell w =
  match fault w (stmts w) with
  | Some msg => (Err (wrap "failed to update cell" msg), sent (db w) w)
  | None => (Ok tt, sent (set_cells (save Cell.ID Z.eqb cell (cells (db w))) (db w)) w)
  end.
Proof.
  unfold UpdateCell, bind. rewrite statement_run.
  destruct (fault w (stmts w)); reflexivity.
Qed.

(** A pair that resolves names a row of the table with that id and unit. *)
Lemma GetCellByID_Ok (cellID : Z) (ruID : string) (w : World) (cell : Cell.t) :
  fst (GetCellByID cellID ruID w) = Ok cell ->
  fault w (stmts w) = None /\
  In cell (cells (db w)) /\ Cell.ID cell = cellID /\ Cell.RuID cell = ruID.
Proof.
  rewrite GetCellByID_run. cbn [fst].
  destruct (fault w (stmts w)); [discriminate |].
  destruct (List.find _ _) as [c|] eqn:Hfind; [| discriminate].
  intros [= ->]. apply List.find_some in Hfind as [Hin Hc].
  unfold cell_is in Hc. apply andb_true_iff in Hc as [Hid Hru].
  apply Z.eqb_eq in Hid. apply String.eqb_eq in Hru. auto.
Qed.

(** After [Save], the pair resolves to the saved row. *)
Lemma find_after_save (cellID : Z) (ruID : string) (cell : Cell.t) (table : list Cell.t) :
  Cell.ID cell = cellID -> Cell.RuID cell = ruID ->
  List.find (cell_is cellID ruID) (save Cell.ID Z.eqb cell table) = Some cell.
Proof.
  intros Hid Hru.
  assert (Hcell : cell_is cellID ruID cell = true).
  { unfold cell_is. rewrite Hid, Hru, Z.eqb_refl, String.eqb_refl. reflexivity. }
  unfold save. destruct (existsb _ table) eqn:Hex.
  - induction table as [|r table IH]; [discriminate |].
    cbn [existsb map List.find] in *.
    destruct (Z.eqb_spec (Cell.ID r) (Cell.ID cell)) as [Heq | Hne].
    + rewrite Hcell. reflexivity.
    + assert (Hr : cell_is cellID ruID r = false).
      { unfold cell_is. destruct (Z.eqb_spec (Cell.ID r) cellID); [congruence | reflexivity]. }
      rewrite Hr. apply IH. exact Hex.
  - induction table as [|r table IH].
    + cbn [app List.find]. rewrite Hcell. reflexivity.
    + cbn [existsb app List.find] in *. apply orb_false_iff in Hex as [Hne Hex].
      assert (Hr : cell_is cellID ruID r = false).
      { unfold cell_is. rewrite <- Hid, Hne. reflexivity. }
      rewrite Hr. apply IH. exact Hex.
Qed.

(** What a bounded query keeps and what it leaves out. *)
Lemma take_newest (n : nat) (l : list OperationRecord.t) :
  StronglySorted newest_first l ->
  StronglySorted newest_first (take n l) /\
  (forall a b, a ∈ take n l -> b ∈ drop n l -> newest_first a b).
Proof.
  intros Hs. rewrite <- (take_drop n l) in Hs. split.
  - exact (StronglySorted_app_1_l _ _ _ Hs).
  - intros a b Ha Hb. exact (StronglySorted_app_1_elem_of _ _ _ _ _ Hs Ha Hb).
Qed.

(** C7.  When the store answers, the history query returns records of
    the unit asked for, newest first; with a positive bound N it returns
    the N newest (fewer when the unit has fewer): at most N records, and
    every record left out is no newer than every record returned; with a
    bound of zero or less it returns all the unit's records.  The tables are
    left as they were. *)
Theorem history_query_bound (ruID : string) (N : Z) (w : World) :
  fault w (stmts w) = None ->
  exists rs,
    fst (GetHistoryByRuID ruID N w) = Ok rs /\
    db (snd (GetHistoryByRuID ruID N w)) = db w /\
    StronglySorted newest_first rs /\
    (forall r, r ∈ rs -> r ∈ operation_records (db w) /\ OperationRecord.RuID r = ruID) /\
    (0 < N ->
       Z.of_nat (length rs) <= N /\
       Z.of_nat (length rs) = Z.min N (Z.of_nat (length (records_of ruID (db w)))) /\
       exists older, rs ++ older ≡ₚ records_of ruID (db w) /\
                     forall a b, a ∈ rs -> b ∈ older -> newest_first a b) /\
    (N <= 0 -> rs ≡ₚ records_of ruID (db w)).
Proof.
  intros Hok. rewrite GetHistoryByRuID_run, Hok. cbn [fst snd sent db].
  pose proof (history_of_sorted ruID (db w)) as Hsorted.
  pose proof (history_of_perm ruID (db w)) as Hperm.
  destruct (Z.gtb_spec N 0) as [Hpos | Hnonpos].
  - destruct (take_newest (Z.to_nat N) _ Hsorted) as [Htake Hold].
    eexists. split; [reflexivity |]. split; [reflexivity |]. split; [exact Htake |].
    split; [| split; [| lia]].
    + intros r Hr. apply records_of_spec. rewrite <- Hperm.
      exact (subseteq_take _ _ r Hr).
    + intros _. rewrite length_take, <- (Permutation_length Hperm).
      split; [lia |]. split; [lia |].
      exists (drop (Z.to_nat N) (history_of ruID (db w))).
      split; [rewrite take_drop; exact Hperm | exact Hold].
  - eexists. split; [reflexivity |]. split; [reflexivity |]. split; [exact Hsorted |].
    split; [| split; [lia | intros _; exact Hperm]].
    intros r Hr. apply records_of_spec. rewrite <- Hperm. exact Hr.
Qed.

End RuRepository.

Module UserRepository.

(** [FindByEmail(email)]: [(nil, nil)] when the query finds no row
    ([gorm.ErrRecordNotFound]), the wrapped error when the statement fails. *)
Definition FindByEmail (email : string) : M (result (option User.t)) :=
  r <- statement (fun d =>
         (Ok (List.find (fun u => String.eqb (User.Email u) email) (users d)), d)) ;;
  match r with
  | Ok None => ret (Ok None)
  | Err e => ret (Err (wrap "failed to find user by email" e))
  | Ok (Some user) => ret (Ok (Some user))
  end.

End UserRepository.

(** ** internal/service *)

Module AuthService.
Section Service.
Context {P : Primitives}.

Record t : Type := mk { jwtSecret : string; jwtTTL : Duration }.

Definition invalidCredentials : string := "invalid email or password".

(** [Login(req)] *)
Definition Login (s : t) (req : LoginRequest.t) : M (result AuthResponse.t) :=
  r <- UserRepository.FindByEmail (LoginRequest.Email req) ;;
  match r with
  | Err e => ret (Err (wrap "failed to find user" e))
  | Ok None => ret (Err invalidCredentials)
  | Ok (Some user) =>
      if negb (Utils.CheckPassword (LoginRequest.Password req) (User.PasswordHash user))
      then ret (Err invalidCredentials)
      else
        tok <- Utils.GenerateToken user (jwtSecret s) (jwtTTL s) ;;
        match tok with
        | Err e => ret (Err (wrap "failed to generate token" e))
        | Ok token =>
            ret (Ok (AuthResponse.mk
                       (UserResponse.mk (User.ID user) (User.Name user)
                          (User.Email user) (User.Role user) (User.CreatedAt user))
                       token))
        end
  end.

(** *** Properties *)

Lemma FindByEmail_run (email : string) (w : World) :
  UserRepository.FindByEmail email w =
  (match fault w (stmts w) with
   | Some msg => Err (wrap "failed to find user by email" msg)
   | None => Ok (List.find (fun u => String.eqb (User.Email u) email) (users (db w)))
   end, sent (db w) w).
Proof.
  unfold UserRepository.FindByEmail, bind. rewrite statement_run.
  destruct (fault w (stmts w)); [reflexivity |].
  cbn [fst snd]. destruct (List.find _ _); reflexivity.
Qed.

Lemma Login_unknown_email (s : t) (req : LoginRequest.t) (w : World) :
  fault w (stmts w) = None ->
  List.find (fun u => String.eqb (User.Email u) (LoginRequest.Email req)) (users (db w)) = None ->
  Login s req w = (Err invalidCredentials, sent (db w) w).
Proof.
  intros Hok Hnone. unfold Login, bind. rewrite FindByEmail_run, Hok, Hnone. reflexivity.
Qed.

Lemma Login_wrong_password (s : t) (req : LoginRequest.t) (w : World) (user : User.t) :
  fault w (stmts w) = None ->
  List.find (fun u => String.eqb (User.Email u) (LoginRequest.Email req)) (users (db w))
    = Some user ->
  Utils.CheckPassword (LoginRequest.Password req) (User.PasswordHash user) = false ->
  Login s req w = (Err invalidCredentials, sent (db w) w).
Proof.
  intros Hok Hsome Hpw. unfold Login, bind.
  rewrite FindByEmail_run, Hok, Hsome, Hpw. reflexivity.
Qed.

End Service.
End AuthService.

Module RuService.
Section Service.
Context {C : Calendar}.

Definition layout : string := "02.01.2006 15:04:05".

(** [UpdateCellStatus(ruID, cellID, req)] *)
Definition UpdateCellStatus (ruID : string) (cellID : Z)
    (req : UpdateCellStatusRequest.t) : M (result Cell.t) :=
  r <- RuRepository.GetCellByID cellID ruID ;;
  match r with
  | Err e => ret (Err (wrap "cell not found" e))
  | Ok cell =>
      let cell := Cell.set_Status (UpdateCellStatusRequest.Status req) cell in
      cell <- match UpdateCellStatusRequest.IsGrounded req with
              | Some isGrounded =>
                  let cell := Cell.set_IsGrounded isGrounded cell in
                  t <- time_Now ;;
                  let now := TimeFormat.Format t layout in
                  ret (Cell.set_LastGroundedOperation (Some now) cell)
              | None => ret cell
              end ;;
      t <- time_Now ;;
      let now := TimeFormat.Format t layout in
      let cell := Cell.set_LastOperation (Some now) cell in
      t <- time_Now ;;
      let cell := Cell.set_UpdatedAt t cell in
      e <- RuRepository.UpdateCell cell ;;
      match e with
      | Err e => ret (Err (wrap "failed to update cell" e))
      | Ok _ => ret (Ok cell)
      end
  end.

(** [GetHistoryByRuID(ruID, limit)] *)
Definition GetHistoryByRuID (ruID : string) (limit : Z)
  : M (result (list OperationRecord.t)) :=
  r <- RuRepository.GetHistoryByRuID ruID limit ;;
  match r with
  | Err e => ret (Err (wrap "failed to get history" e))
  | Ok records => ret (Ok records)
  end.

(** The loop of [UpdateRUsSubstation], from the ids still to visit and the
    units updated so far. *)
Fixpoint updateEach (ruIDs : list string) (substationID : string)
    (updatedRUs : list RUInfo.t) : M (result (list RUInfo.t)) :=
  match ruIDs with
  | [] => ret (Ok updatedRUs)
  | ruID :: others =>
      r <- RuRepository.GetRuByID ruID ;;
      match r with
      | Err _ => updateEach others substationID updatedRUs
      | Ok ruInfo =>
          let ruInfo := RUInfo.set_SubstationID substationID ruInfo in
          t <- time_Now ;;
          let ruInfo := RUInfo.set_UpdatedAt t ruInfo in
          e <- RuRepository.UpdateRu ruInfo ;;
          match e with
          | Err e => ret (Err (wrap ("failed to update RU " +:+ ruID) e))
          | Ok _ => updateEach others substationID (updatedRUs ++ [ruInfo])
          end
      end
  end.

(** [UpdateRUsSubstation(ruIDs, substationID)] *)
Definition UpdateRUsSubstation (ruIDs : list string) (substationID : string)
  : M (result (list RUInfo.t)) :=
  updateEach ruIDs substationID [].

(** The fields of a cell that a status update has no business with. *)
Definition untouched (c : Cell.t) :=
  (Cell.ID c, Cell.Number c, Cell.Name c, Cell.Type_ c, Cell.Voltage c,
   Cell.VoltageLevel c, Cell.Power c, Cell.Description c,
   Cell.TransformerNumber c, Cell.BusSection c, Cell.Current c,
   Cell.Temperature c, Cell.Load_ c, Cell.RuID c, Cell.CreatedAt c).

(** *** Properties *)

(** C6.  For a pair (unit id, cell id) that resolves to a cell, and when
    the store accepts the write, the status update returns the cell with its
    status replaced by the caller's value.  If a grounding flag is supplied,
    isGrounded is that flag and lastGroundedOperation is the clock reading
    taken then, as DD.MM.YYYY HH:MM:SS; if none is supplied, both are left as
    they were.  In both cases lastOperation is the next clock reading in the
    same format and UpdatedAt the reading after that; no other field changes,
    and the row the pair resolves to afterwards is the cell returned. *)
Theorem cell_status_transition (ruID : string) (cellID : Z)
    (req : UpdateCellStatusRequest.t) (w : World) (cell : Cell.t) :
  fst (RuRepository.GetCellByID cellID ruID w) = Ok cell ->
  fault w (S (stmts w)) = None ->
  exists cell' w',
    UpdateCellStatus ruID cellID req w = (Ok cell', w') /\
    Cell.Status cell' = UpdateCellStatusRequest.Status req /\
    match UpdateCellStatusRequest.IsGrounded req with
    | Some isGrounded =>
        Cell.IsGrounded cell' = isGrounded /\
        Cell.LastGroundedOperation cell'
          = Some (TimeFormat.DD_MM_YYYY_HH_MM_SS (now w (ticks w))) /\
        Cell.LastOperation cell'
          = Some (TimeFormat.DD_MM_YYYY_HH_MM_SS (now w (S (ticks w)))) /\
        Cell.UpdatedAt cell' = now w (S (S (ticks w)))
    | None =>
        Cell.IsGrounded cell' = Cell.IsGrounded cell /\
        Cell.LastGroundedOperation cell' = Cell.LastGroundedOperation cell /\
        Cell.LastOperation cell'
          = Some (TimeFormat.DD_MM_YYYY_HH_MM_SS (now w (ticks w))) /\
        Cell.UpdatedAt cell' = now w (S (ticks w))
    end /\
    untouched cell' = untouched cell /\
    List.find (RuRepository.cell_is cellID ruID) (cells (db w')) = Some cell'.
Proof.
  intros Hget Hwrite.
  destruct (RuRepository.GetCellByID_Ok _ _ _ _ Hget) as (Hread & _ & Hid & Hru).
  rewrite RuRepository.GetCellByID_run, Hread in Hget. cbn [fst] in Hget.
  destruct (List.find _ _) as [c|] eqn:Hfind; [| discriminate]. injection Hget as ->.
  unfold UpdateCellStatus, bind.
  rewrite RuRepository.GetCellByID_run, Hread, Hfind. unfold layout.
  destruct (UpdateCellStatusRequest.IsGrounded req) as [g|];
    unfold ret; rewrite !time_Now_run; cbv beta iota zeta.
  all: rewrite RuRepository.UpdateCell_run; cbn [fault stmts sent ticked];
    rewrite Hwrite, !TimeFormat.Format_layout;
    (eexists; eexists; split; [reflexivity |]);
    cbn [db sent cells RuRepository.set_cells now ticks ticked];
    (split; [reflexivity |]); (split; [repeat split |]);
    (split; [reflexivity |]);
    apply RuRepository.find_after_save; assumption.
Qed.

(** An update that names no cell of the unit fails and writes nothing. *)
Lemma UpdateCellStatus_not_found (ruID : string) (cellID : Z)
    (req : UpdateCellStatusRequest.t) (w : World) :
  fault w (stmts w) = None ->
  List.find (RuRepository.cell_is cellID ruID) (cells (db w)) = None ->
  exists e, fst (UpdateCellStatus ruID cellID req w) = Err (wrap "cell not found" e) /\
            db (snd (UpdateCellStatus ruID cellID req w)) = db w.
Proof.
  intros Hok Hnone. unfold UpdateCellStatus, bind.
  rewrite RuRepository.GetCellByID_run, Hok, Hnone.
  eexists. split; reflexivity.
Qed.

(** When the store refuses the write, the update fails with the wrapped
    error and the tables are as they were. *)
Lemma UpdateCellStatus_write_fails (ruID : string) (cellID : Z)
    (req : UpdateCellStatusRequest.t) (w : World) (cell : Cell.t) (msg : string) :
  fst (RuRepository.GetCellByID cellID ruID w) = Ok cell ->
  fault w (S (stmts w)) = Some msg ->
  fst (UpdateCellStatus ruID cellID req w)
    = Err (wrap "failed to update cell" (wrap "failed to update cell" msg)) /\
  db (snd (UpdateCellStatus ruID cellID req w)) = db w.
Proof.
  intros Hget Hwrite.
  destruct (RuRepository.GetCellByID_Ok _ _ _ _ Hget) as (Hread & _ & _ & _).
  rewrite RuRepository.GetCellByID_run, Hread in Hget. cbn [fst] in Hget.
  destruct (List.find _ _) as [c|] eqn:Hfind; [| discriminate]. injection Hget as ->.
  unfold UpdateCellStatus, bind.
  rewrite RuRepository.GetCellByID_run, Hread, Hfind.
  destruct (UpdateCellStatusRequest.IsGrounded req) as [g|];
    unfold ret; rewrite !time_Now_run; cbv beta iota zeta;
    rewrite RuRepository.UpdateCell_run; cbn [fault stmts sent ticked];
    rewrite Hwrite; split; reflexivity.
Qed.

(** The loop over a list in two parts is the loop over the first part
    followed, unless a save failed, by the loop over the second. *)
Lemma updateEach_app (pre post : list string) (substationID : string)
    (acc : list RUInfo.t) (w : World) :
  updateEach (pre ++ post) substationID acc w =
  match updateEach pre substationID acc w with
  | (Ok acc', w') => updateEach post substationID acc' w'
  | (Err e, w') => (Err e, w')
  end.
Proof.
  revert acc w. induction pre as [|id pre IH]; intros acc w; [reflexivity |].
  cbn [app updateEach]. unfold bind.
  destruct (RuRepository.GetRuByID id w) as [[ru | e] w1]; [| apply IH].
  destruct (time_Now w1) as [t w2].
  destruct (RuRepository.UpdateRu _ w2) as [[u | e] w3]; [apply IH | reflexivity].
Qed.

(** C8.  Once the ids before it have been processed without a failed
    save, an id whose unit cannot be loaded is skipped: the batch goes on
    with the ids after it, the units updated so far and no error.  An id
    whose unit loads but whose save fails ends the batch: the result is the
    error, with no list, whatever ids follow, and the world is the one the
    failed save left, so no later id is looked at. *)
Theorem bulk_reassignment (pre post : list string) (ruID substationID : string)
    (w w1 : World) (done : list RUInfo.t) :
  updateEach pre substationID [] w = (Ok done, w1) ->
  (forall e w2,
     RuRepository.GetRuByID ruID w1 = (Err e, w2) ->
     UpdateRUsSubstation (pre ++ ruID :: post) substationID w
     = updateEach post substationID done w2) /\
  (forall ru w2 e w3,
     RuRepository.GetRuByID ruID w1 = (Ok ru, w2) ->
     RuRepository.UpdateRu
       (RUInfo.set_UpdatedAt (now w2 (ticks w2))
          (RUInfo.set_SubstationID substationID ru)) (ticked w2) = (Err e, w3) ->
     UpdateRUsSubstation (pre ++ ruID :: post) substationID w
     = (Err (wrap ("failed to update RU " +:+ ruID) e), w3)) /\
  (forall ru w2 w3,
     RuRepository.GetRuByID ruID w1 = (Ok ru, w2) ->
     RuRepository.UpdateRu
       (RUInfo.set_UpdatedAt (now w2 (ticks w2))
          (RUInfo.set_SubstationID substationID ru)) (ticked w2) = (Ok tt, w3) ->
     UpdateRUsSubstation (pre ++ ruID :: post) substationID w
     = updateEach post substationID
         (done ++ [RUInfo.set_UpdatedAt (now w2 (ticks w2))
                     (RUInfo.set_SubstationID substationID ru)]) w3).
Proof.
  intros Hpre. unfold UpdateRUsSubstation.
  rewrite updateEach_app, Hpre. cbn [updateEach]. unfold bind.
  split; [| split].
  - intros e w2 Hload. rewrite Hload. reflexivity.
  - intros ru w2 e w3 Hload Hsave. rewrite Hload, time_Now_run, Hsave. reflexivity.
  - intros ru w2 w3 Hload Hsave. rewrite Hload, time_Now_run, Hsave. reflexivity.
Qed.

End Service.
End RuService.

(** ** internal/handlers *)

Module RuHandler.
Import Gin.

(** The bound [GetHistory] computes from the query string. *)
Definition historyLimit (c : Context) : Z :=
  let limit := 50 in
  let limitStr := Query "limit" c in
  if negb (String.eqb limitStr EmptyString) then
    let '(l, err) := Strconv.Atoi limitStr in
    match err with
    | None => if l >? 0 then l else limit
    | Some _ => limit
    end
  else limit.

(** [GetHistory(c)] *)
Definition GetHistory (c : Context) : M Context :=
  let ruID := Param "id" c in
  let limit := historyLimit c in
  r <- RuService.GetHistoryByRuID ruID limit ;;
  match r with
  | Err e =>
      ret (JSON StatusInternalServerError
             (H [("error", "internal_error");
                 ("message", "Ошибка получения истории");
                 ("details", e)]) c)
  | Ok records => ret (JSON StatusOK (Records records) c)
  end.

(** *** Properties *)

Lemma Atoi_empty : Strconv.Atoi EmptyString = (0, Some Strconv.ErrSyntax).
Proof. reflexivity. Qed.

Lemma historyLimit_cases (c : Context) :
  historyLimit c =
  match Strconv.Atoi (Query "limit" c) with
  | (l, None) => if l >? 0 then l else 50
  | (_, Some _) => 50
  end.
Proof.
  unfold historyLimit.
  destruct (String.eqb_spec (Query "limit" c) EmptyString) as [-> | Hne]; reflexivity.
Qed.

(** What the service hands back for a positive bound is no longer than
    the bound. *)
Lemma service_history_bounded (ruID : string) (limit : Z) (w : World)
    (rs : list OperationRecord.t) :
  0 < limit ->
  fst (RuService.GetHistoryByRuID ruID limit w) = Ok rs ->
  Z.of_nat (length rs) <= limit.
Proof.
  intros Hpos. unfold RuService.GetHistoryByRuID, bind.
  rewrite RuRepository.GetHistoryByRuID_run.
  destruct (fault w (stmts w)); [discriminate |].
  destruct (Z.gtb_spec limit 0) as [_ | Hle]; [| lia].
  intros [= <-]. rewrite length_take. lia.
Qed.

(** C10.  The bound the history endpoint passes down is always positive:
    it is 50 when the limit parameter is missing or empty, when it does not
    parse as an integer and when it parses to zero or less, and it is the
    parsed value exactly when that is greater than zero.  So the repository's
    test [limit > 0] always holds on this path, and a 200 answer never
    carries more records than the bound. *)
Theorem history_endpoint_bound (c : Context) :
  0 < historyLimit c /\
  (historyLimit c >? 0) = true /\
  (Query "limit" c = EmptyString -> historyLimit c = 50) /\
  (forall l e, Strconv.Atoi (Query "limit" c) = (l, Some e) -> historyLimit c = 50) /\
  (forall l, Strconv.Atoi (Query "limit" c) = (l, None) -> l <= 0 -> historyLimit c = 50) /\
  (forall l, Strconv.Atoi (Query "limit" c) = (l, None) -> 0 < l -> historyLimit c = l) /\
  (forall w rs,
     Written (fst (GetHistory c w))
       = (Written c ++ [mkResponse StatusOK (Records rs)])%list ->
     Z.of_nat (length rs) <= historyLimit c).
Proof.
  assert (Hpos : 0 < historyLimit c).
  { rewrite historyLimit_cases.
    destruct (Strconv.Atoi (Query "limit" c)) as [l [e|]]; [lia |].
    destruct (Z.gtb_spec l 0); lia. }
  split; [exact Hpos |].
  split; [apply Z.gtb_lt; exact Hpos |].
  split; [intros Hq; rewrite historyLimit_cases, Hq; reflexivity |].
  split; [intros l e Hq; rewrite historyLimit_cases, Hq; reflexivity |].
  split; [intros l Hq Hl; rewrite historyLimit_cases, Hq;
          destruct (Z.gtb_spec l 0); [lia | reflexivity] |].
  split; [intros l Hq Hl; rewrite historyLimit_cases, Hq;
          destruct (Z.gtb_spec l 0); [reflexivity | lia] |].
  intros w rs. unfold GetHistory, bind.
  pose proof (service_history_bounded (Param "id" c) (historyLimit c) w) as Hb.
  destruct (RuService.GetHistoryByRuID (Param "id" c) (historyLimit c) w) as [[rs' | e] w'];
    cbn [fst ret JSON Written] in *; intros Hw; apply app_inv_head in Hw.
  - injection Hw as <-. apply Hb; [exact Hpos | reflexivity].
  - discriminate Hw.
Qed.

End RuHandler.

Module AuthHandler.
Import Gin.
Section Handler.
Context {P : Primitives}.

(** [Login(c)], once the request body is bound to [req]. *)
Definition Login (s : AuthService.t) (req : LoginRequest.t) (c : Context) : M Context :=
  r <- AuthService.Login s req ;;
  match r with
  | Err e =>
      let '(status, errorType, message) :=
        if String.eqb e "invalid email or password"
        then (StatusUnauthorized, "unauthorized", "Invalid email or password")
        else (StatusInternalServerError, "internal_server_error", "Failed to login") in
      ret (JSON status (H [("error", errorType); ("message", message); ("details", e)]) c)
  | Ok resp => ret (JSON StatusOK (Auth resp) c)
  end.

(** C9.  Two failed logins, one for an email that has no account and
    one for an email that has an account but with a password that does not
    verify, end in the same error, invalid email or password, and the
    endpoint writes the same 401 answer for both. *)
Theorem login_non_enumeration (s : AuthService.t) (req1 req2 : LoginRequest.t)
    (w1 w2 : World) (user : User.t) (c : Context) :
  fault w1 (stmts w1) = None ->
  List.find (fun u => String.eqb (User.Email u) (LoginRequest.Email req1)) (users (db w1))
    = None ->
  fault w2 (stmts w2) = None ->
  List.find (fun u => String.eqb (User.Email u) (LoginRequest.Email req2)) (users (db w2))
    = Some user ->
  Utils.CheckPassword (LoginRequest.Password req2) (User.PasswordHash user) = false ->
  fst (AuthService.Login s req1 w1) = Err "invalid email or password" /\
  fst (AuthService.Login s req2 w2) = fst (AuthService.Login s req1 w1) /\
  fst (Login s req1 c w1) = fst (Login s req2 c w2) /\
  Written (fst (Login s req1 c w1))
    = (Written c ++
       [mkResponse StatusUnauthorized
          (H [("error", "unauthorized"); ("message", "Invalid email or password");
              ("details", "invalid email or password")])])%list.
Proof.
  intros Hok1 Hnone Hok2 Hsome Hpw.
  pose proof (AuthService.Login_unknown_email s req1 w1 Hok1 Hnone) as H1.
  pose proof (AuthService.Login_wrong_password s req2 w2 user Hok2 Hsome Hpw) as H2.
  unfold Login, bind. rewrite H1, H2. repeat split.
Qed.

End Handler.
End AuthHandler.

(** ** Runs of the gate, the registry and the ledger on explicit inputs *)

Module ServiceRuns.
Import Gin.

(** The calendar of January 1970 in UTC: right for the instants of that
    month, which is all the runs below use. *)
Definition january1970 : Calendar := {|
  Date := fun t => (1970, 1, 1 + t / (86400 * Second));
  Clock := fun t =>
    let s := (t / Second) mod 86400 in (s / 3600, (s mod 3600) / 60, s mod 60)
|}.

(** Three days, four hours, five minutes and six seconds into the epoch. *)
Definition morning : Time := (3 * 86400 + 4 * 3600 + 5 * 60 + 6) * Second.

Example Format_morning :
  TimeFormat.Format (C := january1970) morning RuService.layout = "04.01.1970 04:05:06".
Proof. vm_compute. reflexivity. Qed.

Definition cell7 : Cell.t :=
  Cell.mk 7 "7" "Ввод 1" "INPUT" CellStatusOFF "10 кВ" "HIGH" None "Вводная ячейка"
    None false None None (Some 1) None None None "ru-1" 0 0.

Definition cell7_elsewhere : Cell.t :=
  Cell.mk 8 "8" "Резерв" "RESERVE" CellStatusReserve "10 кВ" "HIGH" None "Резерв"
    None false None None (Some 1) None None None "ru-2" 0 0.

Definition unit (id substation : string) : RUInfo.t :=
  RUInfo.mk id id "10 кВ" 2 10 2 "630 кВА" "Хоргос" "2020" "ABB" "2024" "2025"
    "operational" "single" "" "" "" "" "" "" 0 "" "KRU" true true 2 5 substation 0 0.

Definition record (id ruID : string) (createdAt : Time) : OperationRecord.t :=
  OperationRecord.mk id "7" "Ввод 1" "Включение" "Alice" "01.01.1970 00:00:00"
    None None None None None None None None None ruID createdAt createdAt.

Definition tables : DB :=
  mkDB [UtilsRuns.alice]
       [unit "ru-1" "ps-164"; unit "ru-2" "ps-164"]
       [cell7_elsewhere; cell7]
       [record "a" "ru-1" 10; record "b" "ru-2" 40; record "c" "ru-1" 30;
        record "d" "ru-1" 20].

(** A world over [tables] whose clock reads [morning] and then one second
    more at each reading, and whose store never fails. *)
Definition steady : World :=
  mkWorld tables (fun _ => None) 0%nat (fun n => morning + Z.of_nat n * Second) 0%nat.

(** The same world, except that its third statement fails. *)
Definition failing_third : World :=
  mkWorld tables
    (fun n => if (n =? 2)%nat then Some "connection refused" else None)
    0%nat (fun n => morning + Z.of_nat n * Second) 0%nat.

Definition boundEngineer : Context :=
  Set_ "user_role" (AnyString RoleEngineer) (NewContext (mkRequest "GET" ∅ ∅ ∅) []).

(** C4, witness: a request bound to engineer, at an endpoint that accepts
    engineer and admin. *)
Lemma role_gate_membership_witness :
  (Middleware.admits ["engineer"; "admin"] boundEngineer
     <-> In "engineer" ["engineer"; "admin"]) /\
  (~ In "engineer" ["engineer"; "admin"] ->
   forall next, Middleware.RoleMiddleware ["engineer"; "admin"] next boundEngineer =
                Middleware.abortWith StatusForbidden "insufficient permissions" boundEngineer) /\
  ("engineer" = RoleEngineer -> ~ Middleware.admits [RoleAdmin] boundEngineer).
Proof.
  apply (Middleware.role_gate_membership ["engineer"; "admin"] "engineer" boundEngineer).
  reflexivity.
Defined.

(** C6, witness: cell 7 of ru-1 is switched on and grounded. *)
Lemma cell_status_transition_witness :
  exists cell' w',
    RuService.UpdateCellStatus (C := january1970) "ru-1" 7
      (UpdateCellStatusRequest.mk CellStatusON (Some true)) steady = (Ok cell', w') /\
    Cell.Status cell' = CellStatusON /\
    (Cell.IsGrounded cell' = true /\
     Cell.LastGroundedOperation cell'
       = Some (TimeFormat.DD_MM_YYYY_HH_MM_SS (C := january1970) morning) /\
     Cell.LastOperation cell'
       = Some (TimeFormat.DD_MM_YYYY_HH_MM_SS (C := january1970) (morning + 1 * Second)) /\
     Cell.UpdatedAt cell' = morning + 2 * Second) /\
    RuService.untouched cell' = RuService.untouched cell7 /\
    List.find (RuRepository.cell_is 7 "ru-1") (cells (db w')) = Some cell'.
Proof.
  apply (RuService.cell_status_transition (C := january1970) "ru-1" 7
           (UpdateCellStatusRequest.mk CellStatusON (Some true)) steady cell7);
    reflexivity.
Defined.

Example cell7_stamps :
  match fst (RuService.UpdateCellStatus (C := january1970) "ru-1" 7
               (UpdateCellStatusRequest.mk CellStatusON (Some true)) steady) with
  | Ok cell' =>
      Cell.LastGroundedOperation cell' = Some "04.01.1970 04:05:06" /\
      Cell.LastOperation cell' = Some "04.01.1970 04:05:07"
  | Err _ => False
  end.
Proof. vm_compute. split; reflexivity. Qed.

(** C7, witness: the two newest of the three records of ru-1. *)
Lemma history_query_bound_witness :
  exists rs,
    fst (RuRepository.GetHistoryByRuID "ru-1" 2 steady) = Ok rs /\
    db (snd (RuRepository.GetHistoryByRuID "ru-1" 2 steady)) = db steady /\
    StronglySorted newest_first rs /\
    (forall r, r ∈ rs ->
       r ∈ operation_records (db steady) /\ OperationRecord.RuID r = "ru-1") /\
    (0 < 2 ->
       Z.of_nat (length rs) <= 2 /\
       Z.of_nat (length rs)
         = Z.min 2 (Z.of_nat (length (RuRepository.records_of "ru-1" (db steady)))) /\
       exists older, rs ++ older ≡ₚ RuRepository.records_of "ru-1" (db steady) /\
                     forall a b, a ∈ rs -> b ∈ older -> newest_first a b) /\
    (2 <= 0 -> rs ≡ₚ RuRepository.records_of "ru-1" (db steady)).
Proof.
  apply (RuRepository.history_query_bound "ru-1" 2 steady). reflexivity.
Defined.

Example history_two_newest :
  fst (RuRepository.GetHistoryByRuID "ru-1" 2 steady)
    = Ok [record "c" "ru-1" 30; record "d" "ru-1" 20].
Proof. vm_compute. reflexivity. Qed.

Example history_unbounded :
  fst (RuRepository.GetHistoryByRuID "ru-1" 0 steady)
    = Ok [record "c" "ru-1" 30; record "d" "ru-1" 20; record "a" "ru-1" 10].
Proof. vm_compute. reflexivity. Qed.

(** The unit ru-1 as the batch writes it back into ps-64. *)
Definition moved (ru : RUInfo.t) (w : World) : RUInfo.t :=
  RUInfo.set_UpdatedAt (now w (ticks w)) (RUInfo.set_SubstationID "ps-64" ru).

(** C8, witness: the batch ghost, ru-1, ru-2 in a world whose third
    statement (the save of ru-1) fails; ghost names no unit. *)
Lemma bulk_reassignment_witness :
  (forall e w2,
     RuRepository.GetRuByID "ru-1" (sent tables failing_third) = (Err e, w2) ->
     RuService.UpdateRUsSubstation (["ghost"] ++ "ru-1" :: ["ru-2"]) "ps-64" failing_third
     = RuService.updateEach ["ru-2"] "ps-64" [] w2) /\
  (forall ru w2 e w3,
     RuRepository.GetRuByID "ru-1" (sent tables failing_third) = (Ok ru, w2) ->
     RuRepository.UpdateRu (moved ru w2) (ticked w2) = (Err e, w3) ->
     RuService.UpdateRUsSubstation (["ghost"] ++ "ru-1" :: ["ru-2"]) "ps-64" failing_third
     = (Err (wrap ("failed to update RU " +:+ "ru-1") e), w3)) /\
  (forall ru w2 w3,
     RuRepository.GetRuByID "ru-1" (sent tables failing_third) = (Ok ru, w2) ->
     RuRepository.UpdateRu (moved ru w2) (ticked w2) = (Ok tt, w3) ->
     RuService.UpdateRUsSubstation (["ghost"] ++ "ru-1" :: ["ru-2"]) "ps-64" failing_third
     = RuService.updateEach ["ru-2"] "ps-64" ([] ++ [moved ru w2]) w3).
Proof.
  apply (RuService.bulk_reassignment ["ghost"] ["ru-2"] "ru-1" "ps-64"
           failing_third (sent tables failing_third) []).
  reflexivity.
Defined.

(** The same batch, run: the ghost is skipped, the save of ru-1 fails,
    ru-2 is never looked at (three statements were sent, not five) and the
    tables are as they were. *)
Example batch_aborted :
  let run := RuService.UpdateRUsSubstation ["ghost"; "ru-1"; "ru-2"] "ps-64" failing_third in
  fst run = Err "failed to update RU ru-1: failed to update RU: connection refused" /\
  stmts (snd run) = 3%nat /\ db (snd run) = tables.
Proof. vm_compute. repeat split. Qed.

(** Without the failure the ghost is skipped and both units are moved. *)
Example batch_completed :
  let run := RuService.UpdateRUsSubstation ["ghost"; "ru-1"; "ru-2"] "ps-64" steady in
  fmap (M := list) RUInfo.ID <$> (match fst run with Ok l => Some l | Err _ => None end)
    = Some ["ru-1"; "ru-2"] /\
  fmap (M := list) RUInfo.SubstationID (ru_infos (db (snd run))) = ["ps-64"; "ps-64"] /\
  stmts (snd run) = 5%nat.
Proof. vm_compute. repeat split. Qed.

Definition authService : AuthService.t := AuthService.mk "secret" UtilsRuns.day.

Definition unknownEmail : LoginRequest.t := LoginRequest.mk "nobody@x.com" "Secret!1".
Definition wrongPassword : LoginRequest.t := LoginRequest.mk "a@x.com" "guess".

Definition loginContext : Context := NewContext (mkRequest "POST" ∅ ∅ ∅) [].

(** C9, witness: a login for an email nobody has, and a login for Alice
    with a wrong password. *)
Lemma login_non_enumeration_witness :
  fst (AuthService.Login (P := Sample.prims) authService unknownEmail steady)
    = Err "invalid email or password" /\
  fst (AuthService.Login (P := Sample.prims) authService wrongPassword steady)
    = fst (AuthService.Login (P := Sample.prims) authService unknownEmail steady) /\
  fst (AuthHandler.Login (P := Sample.prims) authService unknownEmail loginContext steady)
    = fst (AuthHandler.Login (P := Sample.prims) authService wrongPassword loginContext steady) /\
  Written (fst (AuthHandler.Login (P := Sample.prims) authService unknownEmail loginContext steady))
    = (Written loginContext ++
       [mkResponse StatusUnauthorized
          (H [("error", "unauthorized"); ("message", "Invalid email or password");
              ("details", "invalid email or password")])])%list.
Proof.
  apply (AuthHandler.login_non_enumeration (P := Sample.prims) authService
           unknownEmail wrongPassword steady steady UtilsRuns.alice loginContext);
    reflexivity.
Defined.

End ServiceRuns.

(** * Further properties of the code

    ** pkg/utils: what an issued token is refused for *)

Module UtilsFacts.
Import JWT Utils.

Section Facts.
Context {P : Primitives}.

(** The token [GenerateToken] returns when it runs in the world [w]. *)
Definition issuedToken (user : User.t) (secret : string) (ttl : Duration) (w : World)
  : string :=
  let sstr := SigningString (NewWithClaims SigningMethodHS256 (issuedClaims user ttl w)) in
  sstr +:+ "." +:+ EncodeSegment (hmac SHA256 secret sstr).

Lemma GenerateToken_issuedToken (user : User.t) (secret : string) (ttl : Duration)
    (w : World) :
  GenerateToken user secret ttl w = (Ok (issuedToken user secret ttl w), ticked (ticked w)).
Proof. reflexivity. Qed.

(** Whoever accepts an issued token, under whatever secret, read the
    issued claims out of it, found the tag to be the HS256 tag of its
    signing string under that secret, and found it unexpired. *)
Lemma issued_accepted_inv `{!SegmentLaws P} (user : User.t) (secret secret' : string)
    (ttl : Duration) (w : World) (t : Time) (c : Claims.t) :
  json_Unmarshal_Header (json_Marshal_Header HS256Header) = Some HS256Header ->
  json_Unmarshal_Claims (json_Marshal_Claims (issuedClaims user ttl w))
    = Some (issuedClaims user ttl w) ->
  accepted (issuedToken user secret ttl w) secret' t c ->
  c = issuedClaims user ttl w /\
  hmac SHA256 secret' (SigningString (NewWithClaims SigningMethodHS256 (issuedClaims user ttl w)))
    = hmac SHA256 secret (SigningString (NewWithClaims SigningMethodHS256 (issuedClaims user ttl w))) /\
  t < instant (NewNumericDate (now w (ticks w) + ttl)).
Proof.
  intros Hh Hc [(p0 & p1 & header & sig & h & Hwf & Halg & Hsig & Hexp) _].
  pose proof (signed_well_formed HS256Header (issuedClaims user ttl w)
                (hmac SHA256 secret
                   (SigningString (NewWithClaims SigningMethodHS256 (issuedClaims user ttl w))))
                Hh Hc) as Hwf'.
  destruct (well_formed_functional _ _ _ _ _ _ _ _ _ _ _ Hwf Hwf')
    as (-> & -> & -> & -> & ->).
  split; [reflexivity |]. split.
  - assert (h = SHA256) as ->.
    { unfold declares_HMAC, HS256Header in Halg.
      rewrite lookup_insert_ne in Halg by discriminate.
      rewrite lookup_insert_eq in Halg.
      destruct h; [reflexivity | discriminate Halg | discriminate Halg]. }
    symmetry. exact Hsig.
  - apply Hexp. reflexivity.
Qed.

(** Before its expiry an issued token is accepted under its secret. *)
Lemma issued_accepted `{!SegmentLaws P} (user : User.t) (secret : string)
    (ttl : Duration) (w : World) (t : Time) :
  json_Unmarshal_Header (json_Marshal_Header HS256Header) = Some HS256Header ->
  json_Unmarshal_Claims (json_Marshal_Claims (issuedClaims user ttl w))
    = Some (issuedClaims user ttl w) ->
  t < instant (NewNumericDate (now w (ticks w) + ttl)) ->
  accepted (issuedToken user secret ttl w) secret t (issuedClaims user ttl w).
Proof.
  intros Hh Hc Hnow. split.
  - eexists _, _, HS256Header, _, SHA256.
    split; [apply (signed_well_formed HS256Header _ _ Hh Hc) |].
    split; [reflexivity |]. split; [reflexivity |].
    intros exp [= <-]. exact Hnow.
  - intros nbf [=].
Qed.

(** X1.  A token validated under another secret, whose tag for the token
    differs, is refused. *)
Theorem wrong_secret_rejected `{!SegmentLaws P} (user : User.t) (secret secret' : string)
    (ttl : Duration) (w w' : World) :
  json_Unmarshal_Header (json_Marshal_Header HS256Header) = Some HS256Header ->
  json_Unmarshal_Claims (json_Marshal_Claims (issuedClaims user ttl w))
    = Some (issuedClaims user ttl w) ->
  hmac SHA256 secret' (SigningString (NewWithClaims SigningMethodHS256 (issuedClaims user ttl w)))
    <> hmac SHA256 secret (SigningString (NewWithClaims SigningMethodHS256 (issuedClaims user ttl w))) ->
  exists tok e,
    fst (GenerateToken user secret ttl w) = Ok tok /\
    fst (ValidateToken tok secret' w') = Err e.
Proof.
  intros Hh Hc Hdiff. exists (issuedToken user secret ttl w).
  destruct (ValidateToken_Err (issuedToken user secret ttl w) secret' w') as [e He].
  - intros c Hacc.
    destruct (issued_accepted_inv user secret secret' ttl w _ c Hh Hc Hacc) as (_ & Htag & _).
    exact (Hdiff Htag).
  - exists e. split; [reflexivity | exact He].
Qed.

(** X2.  From its expiry instant on, an issued token is refused, under the
    right secret too. *)
Theorem expired_token_rejected `{!SegmentLaws P} (user : User.t) (secret : string)
    (ttl : Duration) (w w' : World) :
  json_Unmarshal_Header (json_Marshal_Header HS256Header) = Some HS256Header ->
  json_Unmarshal_Claims (json_Marshal_Claims (issuedClaims user ttl w))
    = Some (issuedClaims user ttl w) ->
  instant (NewNumericDate (now w (ticks w) + ttl)) <= now w' (ticks w') ->
  exists tok e,
    fst (GenerateToken user secret ttl w) = Ok tok /\
    fst (ValidateToken tok secret w') = Err e.
Proof.
  intros Hh Hc Hlate. exists (issuedToken user secret ttl w).
  destruct (ValidateToken_Err (issuedToken user secret ttl w) secret w') as [e He].
  - intros c Hacc.
    destruct (issued_accepted_inv user secret secret ttl w _ c Hh Hc Hacc) as (_ & _ & Hexp).
    lia.
  - exists e. split; [reflexivity | exact He].
Qed.

(** With a ttl of zero or less, a token is refused at every clock reading
    that is not before the reading it was issued at: it is born expired. *)
Corollary nonpositive_ttl_token_never_valid `{!SegmentLaws P} (user : User.t)
    (secret : string) (ttl : Duration) (w w' : World) :
  json_Unmarshal_Header (json_Marshal_Header HS256Header) = Some HS256Header ->
  json_Unmarshal_Claims (json_Marshal_Claims (issuedClaims user ttl w))
    = Some (issuedClaims user ttl w) ->
  ttl <= 0 ->
  now w (ticks w) <= now w' (ticks w') ->
  exists tok e,
    fst (GenerateToken user secret ttl w) = Ok tok /\
    fst (ValidateToken tok secret w') = Err e.
Proof.
  intros Hh Hc Httl Hmono. exists (issuedToken user secret ttl w).
  destruct (ValidateToken_Err (issuedToken user secret ttl w) secret w') as [e He].
  - intros c Hacc.
    destruct (issued_accepted_inv user secret secret ttl w _ c Hh Hc Hacc) as (_ & _ & Hexp).
    destruct (issued_expiry user ttl w) as (exp & Hexp' & Hle & _).
    injection Hexp' as <-. lia.
  - exists e. split; [reflexivity | exact He].
Qed.

(** Neither issuing nor validating a token sends a statement to the
    store; issuing reads the clock twice and validating at most once. *)
Lemma token_functions_leave_the_store (user : User.t) (secret tok : string)
    (ttl : Duration) (w : World) :
  snd (GenerateToken user secret ttl w) = ticked (ticked w) /\
  (snd (ValidateToken tok secret w) = w \/ snd (ValidateToken tok secret w) = ticked w).
Proof.
  split; [reflexivity |].
  unfold ValidateToken, ParseWithClaims, bind.
  destruct (ParseUnverified tok) as [[token parts] | e]; [| left; reflexivity].
  destruct (DecodeSegment _); [| left; reflexivity].
  destruct (keyFunc secret _); [| left; reflexivity].
  destruct (Verify _ _ _ _); [left; reflexivity |].
  unfold Validate, bind, time_Now, ret. right.
  destruct (negb _); [reflexivity |]. destruct (negb _); reflexivity.
Qed.

End Facts.
End UtilsFacts.

(** ** internal/middleware: the stages on a request that carries a header *)

Module MiddlewareFacts.
Import Gin Middleware.

Lemma Cut_Some (sep : ascii) (s a b : string) :
  Strings.Cut sep s = Some (a, b) ->
  s = a +:+ String sep b /\ Strings.contains_byte sep a = false.
Proof.
  revert a. induction s as [|x s IH]; intros a; simpl; [discriminate |].
  destruct (Ascii.eqb_spec x sep) as [-> | Hne].
  - intros [= <- <-]. split; reflexivity.
  - destruct (Strings.Cut sep s) as [[a' b']|]; [| discriminate].
    intros [= <- <-]. destruct (IH a' eq_refl) as [-> Hno].
    split; [reflexivity |]. simpl.
    destruct (Ascii.eqb_spec x sep); [contradiction | exact Hno].
Qed.

Lemma Cut_first (sep : ascii) (a b : string) :
  Strings.contains_byte sep a = false ->
  Strings.Cut sep (a +:+ String sep b) = Some (a, b).
Proof.
  induction a as [|x a IH]; simpl.
  - intros _. rewrite Ascii.eqb_refl. reflexivity.
  - intros Hc. apply orb_false_iff in Hc as [Hx Ha].
    rewrite Hx, (IH Ha). reflexivity.
Qed.

Section Facts.
Context {P : Primitives}.

(** The context [AuthMiddleware] hands on once a token is accepted: the
    three keys bound to the token's claims. *)
Definition bound (claims : Claims.t) (c : Context) : Context :=
  Set_ "user_role" (AnyString (Claims.Role claims))
    (Set_ "user_email" (AnyString (Claims.Email claims))
      (Set_ "user_id" (AnyString (Claims.UserID claims)) c)).

Lemma bound_keys (claims : Claims.t) (c : Context) :
  Get "user_id" (bound claims c) = Some (AnyString (Claims.UserID claims)) /\
  Get "user_email" (bound claims c) = Some (AnyString (Claims.Email claims)) /\
  Get "user_role" (bound claims c) = Some (AnyString (Claims.Role claims)) /\
  Req (bound claims c) = Req c /\ Written (bound claims c) = Written c /\
  index (bound claims c) = index c.
Proof.
  unfold bound, Get, Set_. cbn [Keys Req Written index].
  repeat split.
  - rewrite !lookup_insert_ne by discriminate. apply lookup_insert_eq.
  - rewrite lookup_insert_ne by discriminate. apply lookup_insert_eq.
  - apply lookup_insert_eq.
Qed.

(** A successful validation has read the clock exactly once. *)
Lemma ValidateToken_Ok_world (tok secret : string) (w : World) (claims : Claims.t) :
  fst (Utils.ValidateToken tok secret w) = Ok claims ->
  snd (Utils.ValidateToken tok secret w) = ticked w.
Proof.
  unfold Utils.ValidateToken, JWT.ParseWithClaims, bind.
  destruct (JWT.ParseUnverified tok) as [[token parts] | e]; [| discriminate].
  destruct (DecodeSegment _); [| discriminate].
  destruct (Utils.keyFunc secret _); [| discriminate].
  destruct (JWT.Verify _ _ _ _); [discriminate |].
  unfold JWT.Validate, bind, time_Now, ret.
  destruct (negb _); [discriminate |]. destruct (negb _); [discriminate |].
  reflexivity.
Qed.

(** What the authentication stage does with a request that is not a
    pre-flight, by the two parts of its header. *)
Lemma AuthMiddleware_header (jwtSecret : string) (c : Context)
    (next : Context -> M Context) (w : World) :
  Method (Req c) <> MethodOptions ->
  AuthMiddleware jwtSecret next c w =
  if String.eqb (GetHeader "Authorization" c) EmptyString then
    abortWith StatusUnauthorized "authorization header is required" c w
  else
    match Strings.Cut " " (GetHeader "Authorization" c) with
    | Some (scheme, tok) =>
        if String.eqb scheme "Bearer" then
          match Utils.ValidateToken tok jwtSecret w with
          | (Ok claims, w') => next (bound claims c) w'
          | (Err _, w') => abortWith StatusUnauthorized "invalid or expired token" c w'
          end
        else abortWith StatusUnauthorized "invalid authorization header format" c w
    | None => abortWith StatusUnauthorized "invalid authorization header format" c w
    end.
Proof.
  intros Hm. unfold AuthMiddleware.
  destruct (String.eqb_spec (Method (Req c)) MethodOptions) as [Heq | _]; [contradiction |].
  destruct (String.eqb (GetHeader "Authorization" c) EmptyString); [reflexivity |].
  unfold Strings.SplitN2.
  destruct (Strings.Cut " " (GetHeader "Authorization" c)) as [[scheme tok]|];
    [| reflexivity].
  cbn [length nth Nat.eqb negb orb].
  destruct (String.eqb scheme "Bearer"); [| reflexivity].
  cbn [negb]. unfold bind.
  destruct (Utils.ValidateToken tok jwtSecret w) as [[claims | e] w']; reflexivity.
Qed.

(** X3.  A request that is not a pre-flight and whose Authorization header is
    not the word Bearer, a space and a token is answered 401 before any
    token is parsed: the clock is not read, and what follows in the chain is
    not run.  The scheme is matched exactly, so bearer in lower case is
    refused as well. *)
Theorem credential_required (jwtSecret : string) (c : Context)
    (next : Context -> M Context) (w : World) :
  Method (Req c) <> MethodOptions ->
  (forall tok, GetHeader "Authorization" c <> "Bearer " +:+ tok) ->
  AuthMiddleware jwtSecret next c w =
  (Abort (JSON StatusUnauthorized
            (H [("error",
                 if String.eqb (GetHeader "Authorization" c) EmptyString
                 then "authorization header is required"
                 else "invalid authorization header format")]) c), w).
Proof.
  intros Hm Hnot. rewrite (AuthMiddleware_header jwtSecret c next w Hm).
  destruct (String.eqb (GetHeader "Authorization" c) EmptyString); [reflexivity |].
  destruct (Strings.Cut " " (GetHeader "Authorization" c)) as [[scheme tok]|] eqn:Hcut;
    [| reflexivity].
  destruct (String.eqb_spec scheme "Bearer") as [-> | _]; [| reflexivity].
  apply Cut_Some in Hcut as [Hhdr _]. destruct (Hnot tok). exact Hhdr.
Qed.

(** With Bearer, a space and a token in the header, the stage is decided
    by [ValidateToken] on what follows the first space. *)
Lemma AuthMiddleware_bearer (jwtSecret tok : string) (c : Context)
    (next : Context -> M Context) (w : World) :
  Method (Req c) <> MethodOptions ->
  GetHeader "Authorization" c = "Bearer " +:+ tok ->
  AuthMiddleware jwtSecret next c w =
  match Utils.ValidateToken tok jwtSecret w with
  | (Ok claims, w') => next (bound claims c) w'
  | (Err _, w') => abortWith StatusUnauthorized "invalid or expired token" c w'
  end.
Proof.
  intros Hm Hhdr. rewrite (AuthMiddleware_header jwtSecret c next w Hm), Hhdr.
  change ("Bearer " +:+ tok) with ("Bearer" +:+ String " " tok).
  rewrite (Cut_first " " "Bearer" tok eq_refl).
  reflexivity.
Qed.

Lemma AuthMiddleware_accepted (jwtSecret tok : string) (c : Context)
    (next : Context -> M Context) (w : World) (claims : Claims.t) :
  Method (Req c) <> MethodOptions ->
  GetHeader "Authorization" c = "Bearer " +:+ tok ->
  Utils.accepted tok jwtSecret (now w (ticks w)) claims ->
  AuthMiddleware jwtSecret next c w = next (bound claims c) (ticked w).
Proof.
  intros Hm Hhdr Hacc. rewrite (AuthMiddleware_bearer jwtSecret tok c next w Hm Hhdr).
  apply Utils.ValidateToken_Ok in Hacc.
  pose proof (ValidateToken_Ok_world tok jwtSecret w claims Hacc) as Hw.
  destruct (Utils.ValidateToken tok jwtSecret w) as [r w'].
  cbn [fst snd] in Hacc, Hw. subst r w'. reflexivity.
Qed.

(** X4.  A request that is not a pre-flight and carries Bearer, a space and a
    token passes the authentication stage exactly when the token is accepted
    at the clock reading taken then.  It is then handed on with user_id,
    user_email and user_role bound to the token's claims; otherwise it is
    answered 401 and what follows is not run.  Everything after the first
    space is the token. *)
Theorem bearer_token_decides (jwtSecret tok : string) (c : Context)
    (next : Context -> M Context) (w : World) :
  Method (Req c) <> MethodOptions ->
  GetHeader "Authorization" c = "Bearer " +:+ tok ->
  (forall claims,
     Utils.accepted tok jwtSecret (now w (ticks w)) claims ->
     AuthMiddleware jwtSecret next c w = next (bound claims c) (ticked w) /\
     Get "user_id" (bound claims c) = Some (AnyString (Claims.UserID claims)) /\
     Get "user_email" (bound claims c) = Some (AnyString (Claims.Email claims)) /\
     Get "user_role" (bound claims c) = Some (AnyString (Claims.Role claims))) /\
  ((forall claims, ~ Utils.accepted tok jwtSecret (now w (ticks w)) claims) ->
   fst (AuthMiddleware jwtSecret next c w)
   = Abort (JSON StatusUnauthorized (H [("error", "invalid or expired token")]) c)).
Proof.
  intros Hm Hhdr. split.
  - intros claims Hacc.
    split; [exact (AuthMiddleware_accepted jwtSecret tok c next w claims Hm Hhdr Hacc) |].
    destruct (bound_keys claims c) as (Hid & Hem & Hro & _). auto.
  - intros Hrej. rewrite (AuthMiddleware_bearer jwtSecret tok c next w Hm Hhdr).
    destruct (Utils.ValidateToken_Err tok jwtSecret w Hrej) as [e He].
    destruct (Utils.ValidateToken tok jwtSecret w) as [r w'].
    cbn [fst] in He. subst r. reflexivity.
Qed.

(** X5.  A token issued to a user opens, while it has not expired, exactly
    the endpoints whose accepted roles include the user's role: the request
    reaches what follows the two stages with the user's id, email and role
    bound, and is answered 403 otherwise. *)
Theorem issued_token_opens_role_gate `{!SegmentLaws P}
    (user : User.t) (secret : string) (ttl : Duration) (w w' : World)
    (allowedRoles : list string) (c : Context) (next : Context -> M Context) :
  json_Unmarshal_Header (json_Marshal_Header Utils.HS256Header) = Some Utils.HS256Header ->
  json_Unmarshal_Claims (json_Marshal_Claims (Utils.issuedClaims user ttl w))
    = Some (Utils.issuedClaims user ttl w) ->
  now w' (ticks w') < JWT.instant (JWT.NewNumericDate (now w (ticks w) + ttl)) ->
  Method (Req c) <> MethodOptions ->
  GetHeader "Authorization" c = "Bearer " +:+ UtilsFacts.issuedToken user secret ttl w ->
  exists c',
    Get "user_id" c' = Some (AnyString (User.ID user)) /\
    Get "user_email" c' = Some (AnyString (User.Email user)) /\
    Get "user_role" c' = Some (AnyString (User.Role user)) /\
    Written c' = Written c /\
    (In (User.Role user) allowedRoles ->
     AuthMiddleware secret (RoleMiddleware allowedRoles next) c w' = next c' (ticked w')) /\
    (~ In (User.Role user) allowedRoles ->
     AuthMiddleware secret (RoleMiddleware allowedRoles next) c w' =
     (Abort (JSON StatusForbidden (H [("error", "insufficient permissions")]) c'),
      ticked w')).
Proof.
  intros Hh Hc Hnow Hm Hhdr.
  exists (bound (Utils.issuedClaims user ttl w) c).
  destruct (bound_keys (Utils.issuedClaims user ttl w) c) as (Hid & Hem & Hro & _ & Hwr & _).
  split; [exact Hid |]. split; [exact Hem |]. split; [exact Hro |]. split; [exact Hwr |].
  assert (Hacc : Utils.accepted (UtilsFacts.issuedToken user secret ttl w) secret
                   (now w' (ticks w')) (Utils.issuedClaims user ttl w)).
  { split.
    - eexists _, _, Utils.HS256Header, _, SHA256.
      split; [apply (Utils.signed_well_formed Utils.HS256Header _ _ Hh Hc) |].
      split; [reflexivity |]. split; [reflexivity |].
      intros exp [= <-]. exact Hnow.
    - intros nbf [=]. }
  rewrite (AuthMiddleware_accepted secret _ c (RoleMiddleware allowedRoles next) w' _
             Hm Hhdr Hacc).
  rewrite (RoleMiddleware_bound allowedRoles (User.Role user) _ next Hro).
  split; intros Hin.
  - apply hasAccess_In in Hin. rewrite Hin. reflexivity.
  - destruct (hasAccess (User.Role user) allowedRoles) eqn:Hacc'; [| reflexivity].
    apply hasAccess_In in Hacc'. contradiction.
Qed.

End Facts.
End MiddlewareFacts.

(** ** internal/config *)

Module Config.

Definition Hour : Duration := 3600 * Second.

(** A product of 64-bit integers, as Go computes it: reduced into the
    range of int64. *)
Definition wrap64 (z : Z) : Z := (z + 2 ^ 63) mod 2 ^ 64 - 2 ^ 63.

Record t : Type := mk {
  DBHost : string;
  DBPort : string;
  DBUser : string;
  DBPassword : string;
  DBName : string;
  SSLMode : string;
  ServerPort : string;
  JWTSecret : string;
  JWTTTL : Duration
}.

(** [os.Getenv(key)] on the environment [env]: empty when unset. *)
Definition Getenv (env : gmap string string) (key : string) : string :=
  default EmptyString (env !! key).

(** [getEnv(key, defaultValue)] *)
Definition getEnv (env : gmap string string) (key defaultValue : string) : string :=
  let value := Getenv env key in
  if String.eqb value EmptyString then defaultValue else value.

(** [parseDuration(hoursStr)] *)
Definition parseDuration (hoursStr : string) : Duration :=
  let '(hours, err) := Strconv.Atoi hoursStr in
  let hours := match err with Some _ => 24 | None => hours end in
  wrap64 (hours * Hour).

(** [LoadConfig()] *)
Definition LoadConfig (env : gmap string string) : t :=
  mk (getEnv env "DB_HOST" "localhost")
     (getEnv env "DB_PORT" "5432")
     (getEnv env "DB_USER" "postgres")
     (getEnv env "DB_PASSWORD" "")
     (getEnv env "DB_NAME" "service_desk")
     (getEnv env "SSL_MODE" "disable")
     (getEnv env "SERVER_PORT" ":8081")
     (getEnv env "JWT_SECRET" "your-super-secret-jwt-key-change-this-in-production")
     (parseDuration (getEnv env "JWT_TTL_HOURS" "24")).

(** The largest number of hours whose nanoseconds fit an int64. *)
Definition maxHours : Z := 2562047.

(** *** Properties *)

Lemma wrap64_small (z : Z) : - 2 ^ 63 <= z < 2 ^ 63 -> wrap64 z = z.
Proof. intros Hz. unfold wrap64. rewrite Z.mod_small by lia. lia. Qed.

Lemma getEnv_unset (env : gmap string string) (key defaultValue : string) :
  env !! key = None \/ env !! key = Some EmptyString ->
  getEnv env key defaultValue = defaultValue.
Proof. unfold getEnv, Getenv. intros [-> | ->]; reflexivity. Qed.

Lemma getEnv_set (env : gmap string string) (key defaultValue value : string) :
  env !! key = Some value -> value <> EmptyString ->
  getEnv env key defaultValue = value.
Proof.
  unfold getEnv, Getenv. intros -> Hne. simpl.
  destruct (String.eqb_spec value EmptyString); [contradiction | reflexivity].
Qed.

(** X6.  The token lifetime the service starts with.  It is 24 hours when
    JWT_TTL_HOURS is unset or empty, and when it is set to something [Atoi]
    refuses (not an integer, or outside the range of int); it is the number
    of hours given when that is an integer of at most 2562047 in absolute
    value, without any check of its sign: zero and negative lifetimes are
    taken as they are. *)
Theorem configured_ttl (env : gmap string string) :
  (env !! "JWT_TTL_HOURS" = None \/ env !! "JWT_TTL_HOURS" = Some EmptyString ->
   JWTTTL (LoadConfig env) = 24 * Hour) /\
  (forall s v e, env !! "JWT_TTL_HOURS" = Some s -> Strconv.Atoi s = (v, Some e) ->
   JWTTTL (LoadConfig env) = 24 * Hour) /\
  (forall s hours, env !! "JWT_TTL_HOURS" = Some s -> Strconv.Atoi s = (hours, None) ->
   - maxHours <= hours <= maxHours ->
   JWTTTL (LoadConfig env) = hours * Hour /\
   (hours <= 0 -> JWTTTL (LoadConfig env) <= 0)).
Proof.
  unfold LoadConfig. cbn [JWTTTL].
  split; [| split].
  - intros Hunset. rewrite (getEnv_unset env _ "24" Hunset). reflexivity.
  - intros s v e Hs Ha.
    destruct (String.eqb_spec s EmptyString) as [-> | Hne].
    + rewrite (getEnv_unset env _ "24" (or_intror Hs)). reflexivity.
    + rewrite (getEnv_set env _ "24" s Hs Hne). unfold parseDuration. rewrite Ha. reflexivity.
  - intros s hours Hs Ha Hrange.
    assert (Hne : s <> EmptyString) by (intros ->; discriminate Ha).
    rewrite (getEnv_set env _ "24" s Hs Hne). unfold parseDuration. rewrite Ha.
    rewrite wrap64_small by (unfold Hour, Second, maxHours in *; lia).
    split; [reflexivity |]. unfold Hour, Second. lia.
Qed.

End Config.

(** ** internal/models: the remaining requests, and field updates *)

Module RegisterRequest.
Record t : Type := mk { Name : string; Email : string; Password : string }.
End RegisterRequest.

Module AdminCreateRequest.
Record t : Type := mk { Name : string; Email : string; Password : string; Role : string }.
End AdminCreateRequest.

Module AdminUpdateRequest.
Record t : Type := mk { Name : string; Email : string; Role : string }.
End AdminUpdateRequest.

Module AdminChangePasswordRequest.
Record t : Type := mk { NewPassword : string }.
End AdminChangePasswordRequest.

Module UpdateCellInfoRequest.
Record t : Type := mk { Name : string; Description : string; Voltage : string }.
End UpdateCellInfoRequest.

Module AddHistoryRecordRequest.
Record t : Type := mk {
  CellNumber : string;
  CellName : string;
  Action : string;
  Operator : string;
  Timestamp : string;
  Reason : option string;
  DocumentType : option string;
  OrderNumber : option string;
  WorkOrderNumber : option string;
  StartDate : option string;
  EndDate : option string;
  ResponsiblePerson : option string;
  Comment : option string;
  Severity : option string
}.
End AddHistoryRecordRequest.

Module GetRuResponse.
Record t : Type := mk { RuInfo : RUInfo.t; Cells : list Cell.t }.
End GetRuResponse.

(** The zero [time.Time]: the first instant of year 1, UTC. *)
Definition zeroTime : Time := -62135596800 * Second.

(** [t.IsZero()] *)
Definition IsZero (t : Time) : bool := t =? zeroTime.

(** Assignments to the fields of a user. *)
Module UserFields.
Import User.
Definition set_ID (v : string) (u : t) : t :=
  mk v (Name u) (Email u) (PasswordHash u) (Role u) (CreatedAt u) (UpdatedAt u).
Definition set_Name (v : string) (u : t) : t :=
  mk (ID u) v (Email u) (PasswordHash u) (Role u) (CreatedAt u) (UpdatedAt u).
Definition set_Email (v : string) (u : t) : t :=
  mk (ID u) (Name u) v (PasswordHash u) (Role u) (CreatedAt u) (UpdatedAt u).
Definition set_PasswordHash (v : string) (u : t) : t :=
  mk (ID u) (Name u) (Email u) v (Role u) (CreatedAt u) (UpdatedAt u).
Definition set_Role (v : UserRole) (u : t) : t :=
  mk (ID u) (Name u) (Email u) (PasswordHash u) v (CreatedAt u) (UpdatedAt u).
Definition set_CreatedAt (v : Time) (u : t) : t :=
  mk (ID u) (Name u) (Email u) (PasswordHash u) (Role u) v (UpdatedAt u).
Definition set_UpdatedAt (v : Time) (u : t) : t :=
  mk (ID u) (Name u) (Email u) (PasswordHash u) (Role u) (CreatedAt u) v.
End UserFields.

(** Assignments to the descriptive fields of a cell. *)
Module CellFields.
Import Cell.
Definition set_Name (v : string) (c : t) : t :=
  mk (ID c) (Number c) v (Type_ c) (Status c) (Voltage c) (VoltageLevel c)
     (Power c) (Description c) (LastOperation c) (IsGrounded c)
     (LastGroundedOperation c) (TransformerNumber c) (BusSection c)
     (Current c) (Temperature c) (Load_ c) (RuID c) (CreatedAt c) (UpdatedAt c).
Definition set_Description (v : string) (c : t) : t :=
  mk (ID c) (Number c) (Name c) (Type_ c) (Status c) (Voltage c) (VoltageLevel c)
     (Power c) v (LastOperation c) (IsGrounded c)
     (LastGroundedOperation c) (TransformerNumber c) (BusSection c)
     (Current c) (Temperature c) (Load_ c) (RuID c) (CreatedAt c) (UpdatedAt c).
Definition set_Voltage (v : string) (c : t) : t :=
  mk (ID c) (Number c) (Name c) (Type_ c) (Status c) v (VoltageLevel c)
     (Power c) (Description c) (LastOperation c) (IsGrounded c)
     (LastGroundedOperation c) (TransformerNumber c) (BusSection c)
     (Current c) (Temperature c) (Load_ c) (RuID c) (CreatedAt c) (UpdatedAt c).
End CellFields.

Module RUInfoFields.
Import RUInfo.
(** [ruInfo.Status = v] *)
Definition set_Status (v : string) (r : t) : t :=
  mk (ID r) (Name r) (Voltage r) (Sections r) (CellsCount r) (Transformers r)
     (TransformerPower r) (Location r) (InstallationDate r) (Manufacturer r)
     (LastMaintenance r) (NextMaintenance r) v (SchemeType r)
     (TotalLoadHigh r) (TotalLoadLow r) (TotalPowerHigh r) (TotalPowerLow r)
     (MaxCapacityHigh r) (MaxCapacityLow r) (OperationalHours r)
     (LastInspection r) (Type_ r) (HasHighSide r) (HasLowSide r)
     (BusSections r) (CellsPerSection r) (SubstationID r) (CreatedAt r) (UpdatedAt r).
End RUInfoFields.

(** ** The random sources

    [uuid.New()] and the salt of [bcrypt.GenerateFromPassword] are drawn
    from the operating system.  A draw is a function of the state of the
    process at the moment of the call; nothing is assumed of it, except,
    where a theorem says so, that a hash verifies the password it was made
    from (which is what bcrypt is for; generation fails on a password longer
    than 72 bytes). *)

Class Entropy : Type := {
  uuid_New : World -> string;
  bcrypt_Generate : World -> string -> result string
}.

Class BcryptLaws (P : Primitives) (E : Entropy) : Prop := {
  compare_generated :
    forall w password hash,
      bcrypt_Generate w password = Ok hash -> bcrypt_Compare hash password = true
}.

(** A store that answers every statement from here on. *)
Definition reliable (w : World) : Prop := forall n, fault w n = None.

Lemma reliable_sent (d : DB) (w : World) : reliable w -> reliable (sent d w).
Proof. intros H n. exact (H n). Qed.

Lemma reliable_ticked (w : World) : reliable w -> reliable (ticked w).
Proof. intros H n. exact (H n). Qed.

(** ** internal/repository: the remaining methods

    [db.Create] is an INSERT: it fails when the primary key is taken, and
    on users when the email is (the unique index).  [db.Save] on users fails
    when it would give a second row the same email.  [db.Delete] with a
    condition removes the rows that match and is no error when none does. *)

Definition unique_violation : string :=
  "duplicate key value violates unique constraint".

Definition set_users (t : list User.t) (d : DB) : DB :=
  mkDB t (ru_infos d) (cells d) (operation_records d).
Definition set_operation_records (t : list OperationRecord.t) (d : DB) : DB :=
  mkDB (users d) (ru_infos d) (cells d) t.

(** Newest first, on users and on units. *)
Definition user_newest_first (a b : User.t) : Prop :=
  User.CreatedAt b <= User.CreatedAt a.
Definition unit_newest_first (a b : RUInfo.t) : Prop :=
  RUInfo.CreatedAt b <= RUInfo.CreatedAt a.
(** Ascending by id, on cells. *)
Definition cell_id_ascending (a b : Cell.t) : Prop := Cell.ID a <= Cell.ID b.

#[global] Instance user_newest_first_dec : RelDecision user_newest_first.
Proof. intros a b. unfold user_newest_first. apply Z_le_dec. Defined.
#[global] Instance unit_newest_first_dec : RelDecision unit_newest_first.
Proof. intros a b. unfold unit_newest_first. apply Z_le_dec. Defined.
#[global] Instance cell_id_ascending_dec : RelDecision cell_id_ascending.
Proof. intros a b. unfold cell_id_ascending. apply Z_le_dec. Defined.

Module UserRepositoryOps.
Section Repo.
Context {E : Entropy}.

(** The INSERT behind [db.Create(user)]. *)
Definition insert_user (u : User.t) (d : DB) : result unit * DB :=
  if existsb (fun r => String.eqb (User.ID r) (User.ID u)
                       || String.eqb (User.Email r) (User.Email u)) (users d)
  then (Err unique_violation, d)
  else (Ok tt, set_users (users d ++ [u]) d).

(** The UPDATE (or INSERT) behind [db.Save(user)]. *)
Definition save_user (u : User.t) (d : DB) : result unit * DB :=
  if existsb (fun r => String.eqb (User.Email r) (User.Email u)
                       && negb (String.eqb (User.ID r) (User.ID u))) (users d)
  then (Err unique_violation, d)
  else (Ok tt, set_users (save User.ID String.eqb u (users d)) d).

(** [Create(user)]: the user as the call leaves it, and the error. *)
Definition Create (user : User.t) : M (User.t * result unit) :=
  fun w =>
    let user :=
      if String.eqb (User.ID user) EmptyString
      then UserFields.set_ID (uuid_New w) user else user in
    (now <- time_Now ;;
     let user :=
       if IsZero (User.CreatedAt user) then UserFields.set_CreatedAt now user else user in
     let user :=
       if IsZero (User.UpdatedAt user) then UserFields.set_UpdatedAt now user else user in
     r <- statement (insert_user user) ;;
     match r with
     | Err e => ret (user, Err (wrap "failed to create user" e))
     | Ok _ => ret (user, Ok tt)
     end) w.

(** [FindByID(id)] *)
Definition FindByID (id : string) : M (result (option User.t)) :=
  r <- statement (fun d =>
         (Ok (List.find (fun u => String.eqb (User.ID u) id) (users d)), d)) ;;
  match r with
  | Ok None => ret (Ok None)
  | Err e => ret (Err (wrap "failed to find user by id" e))
  | Ok (Some user) => ret (Ok (Some user))
  end.

(** [Update(user)]: the user as the call leaves it, and the error. *)
Definition Update (user : User.t) : M (User.t * result unit) :=
  t <- time_Now ;;
  let user := UserFields.set_UpdatedAt t user in
  r <- statement (save_user user) ;;
  match r with
  | Err e => ret (user, Err (wrap "failed to update user" e))
  | Ok _ => ret (user, Ok tt)
  end.

(** [Delete(id)] *)
Definition Delete (id : string) : M (result unit) :=
  r <- statement (fun d =>
         (Ok tt,
          set_users (List.filter (fun u => negb (String.eqb (User.ID u) id)) (users d)) d)) ;;
  match r with
  | Err e => ret (Err (wrap "failed to delete user" e))
  | Ok _ => ret (Ok tt)
  end.

(** [ExistsByEmail(email)] *)
Definition ExistsByEmail (email : string) : M (result bool) :=
  r <- statement (fun d =>
         (Ok (Z.of_nat (length (List.filter (fun u => String.eqb (User.Email u) email)
                                            (users d)))), d)) ;;
  match r with
  | Err e => ret (Err (wrap "failed to check email existence" e))
  | Ok count => ret (Ok (count >? 0))
  end.

(** [GetAll()] *)
Definition GetAll : M (result (list User.t)) :=
  r <- statement (fun d => (Ok (merge_sort user_newest_first (users d)), d)) ;;
  match r with
  | Err e => ret (Err (wrap "failed to get all users" e))
  | Ok users => ret (Ok users)
  end.

End Repo.
End UserRepositoryOps.

Module RuRepositoryOps.

(** [GetCellsByRuID(ruID)] *)
Definition GetCellsByRuID (ruID : string) : M (result (list Cell.t)) :=
  r <- statement (fun d =>
         (Ok (merge_sort cell_id_ascending
                (List.filter (fun c => String.eqb (Cell.RuID c) ruID) (cells d))), d)) ;;
  match r with
  | Err e => ret (Err (wrap "failed to get cells by RU ID" e))
  | Ok cells => ret (Ok cells)
  end.

(** The INSERT behind [db.Create(record)]. *)
Definition insert_record (r : OperationRecord.t) (d : DB) : result unit * DB :=
  if existsb (fun x => String.eqb (OperationRecord.ID x) (OperationRecord.ID r))
             (operation_records d)
  then (Err unique_violation, d)
  else (Ok tt, set_operation_records (operation_records d ++ [r]) d).

(** [AddHistoryRecord(record)] *)
Definition AddHistoryRecord (record : OperationRecord.t) : M (result unit) :=
  r <- statement (insert_record record) ;;
  match r with
  | Err e => ret (Err (wrap "failed to add history record" e))
  | Ok _ => ret (Ok tt)
  end.

(** [GetAllRUs()] *)
Definition GetAllRUs : M (result (list RUInfo.t)) :=
  r <- statement (fun d => (Ok (merge_sort unit_newest_first (ru_infos d)), d)) ;;
  match r with
  | Err e => ret (Err (wrap "failed to get all RUs" e))
  | Ok rus => ret (Ok rus)
  end.

End RuRepositoryOps.

(** ** pkg/utils: HashPassword *)

Module Hashing.
Section Hash.
Context {E : Entropy}.

(** [HashPassword(password)] *)
Definition HashPassword (password : string) : M (result string) :=
  fun w =>
    match bcrypt_Generate w password with
    | Err e => (Err (wrap "failed to hash password" e), w)
    | Ok bytes => (Ok bytes, w)
    end.

End Hash.
End Hashing.

(** ** internal/service: account administration, registration, and the
    remaining operations of the registry *)

(** The switch on [req.Role] of [CreateUser] and [UpdateUser]. *)
Definition roleOf (role : string) : option UserRole :=
  if String.eqb role "admin" then Some RoleAdmin
  else if String.eqb role "dispatcher" then Some RoleDispatcher
  else if String.eqb role "engineer" then Some RoleEngineer
  else None.

(** The projection of a user that leaves the service. *)
Definition userResponse (user : User.t) : UserResponse.t :=
  UserResponse.mk (User.ID user) (User.Name user) (User.Email user)
                  (User.Role user) (User.CreatedAt user).

Module AdminService.
Section Service.
Context {E : Entropy}.

(** [GetAllUsers()] *)
Definition GetAllUsers : M (result (list UserResponse.t)) :=
  r <- UserRepositoryOps.GetAll ;;
  match r with
  | Err e => ret (Err (wrap "failed to get users" e))
  | Ok users => ret (Ok (map userResponse users))
  end.

(** [CreateUser(req)] *)
Definition CreateUser (req : AdminCreateRequest.t) : M (result UserResponse.t) :=
  r <- UserRepositoryOps.ExistsByEmail (AdminCreateRequest.Email req) ;;
  match r with
  | Err e => ret (Err (wrap "failed to check email" e))
  | Ok exists_ =>
      if exists_ then ret (Err "user with this email already exists")
      else
        let '(valid, message) :=
          Password.validatePassword (AdminCreateRequest.Password req) in
        if negb valid then ret (Err message)
        else
          h <- Hashing.HashPassword (AdminCreateRequest.Password req) ;;
          match h with
          | Err e => ret (Err (wrap "failed to hash password" e))
          | Ok passwordHash =>
              match roleOf (AdminCreateRequest.Role req) with
              | None => ret (Err "invalid role")
              | Some userRole =>
                  let user :=
                    User.mk EmptyString (AdminCreateRequest.Name req)
                      (AdminCreateRequest.Email req) passwordHash userRole
                      zeroTime zeroTime in
                  c <- UserRepositoryOps.Create user ;;
                  let '(user, err) := c in
                  match err with
                  | Err e => ret (Err (wrap "failed to create user" e))
                  | Ok _ => ret (Ok (userResponse user))
                  end
              end
          end
  end.

(** [UpdateUser(userID, req)] *)
Definition UpdateUser (userID : string) (req : AdminUpdateRequest.t)
  : M (result UserResponse.t) :=
  r <- UserRepositoryOps.FindByID userID ;;
  match r with
  | Err e => ret (Err (wrap "failed to find user" e))
  | Ok None => ret (Err "user not found")
  | Ok (Some user) =>
      taken <-
        (if negb (String.eqb (AdminUpdateRequest.Email req) (User.Email user)) then
           x <- UserRepositoryOps.ExistsByEmail (AdminUpdateRequest.Email req) ;;
           match x with
           | Err e => ret (Some (wrap "failed to check email" e))
           | Ok exists_ =>
               if exists_ then ret (Some "email already taken by another user")
               else ret None
           end
         else ret None) ;;
      match taken with
      | Some e => ret (Err e)
      | None =>
          match roleOf (AdminUpdateRequest.Role req) with
          | None => ret (Err "invalid role")
          | Some userRole =>
              let user := UserFields.set_Name (AdminUpdateRequest.Name req) user in
              let user := UserFields.set_Email (AdminUpdateRequest.Email req) user in
              let user := UserFields.set_Role userRole user in
              u <- UserRepositoryOps.Update user ;;
              let '(user, err) := u in
              match err with
              | Err e => ret (Err (wrap "failed to update user" e))
              | Ok _ => ret (Ok (userResponse user))
              end
          end
      end
  end.

(** [DeleteUser(userID)] *)
Definition DeleteUser (userID : string) : M (result unit) :=
  r <- UserRepositoryOps.FindByID userID ;;
  match r with
  | Err e => ret (Err (wrap "failed to find user" e))
  | Ok None => ret (Err "user not found")
  | Ok (Some _) =>
      d <- UserRepositoryOps.Delete userID ;;
      match d with
      | Err e => ret (Err (wrap "failed to delete user" e))
      | Ok _ => ret (Ok tt)
      end
  end.

(** [ChangeUserPassword(userID, req)] *)
Definition ChangeUserPassword (userID : string) (req : AdminChangePasswordRequest.t)
  : M (result unit) :=
  r <- UserRepositoryOps.FindByID userID ;;
  match r with
  | Err e => ret (Err (wrap "failed to find user" e))
  | Ok None => ret (Err "user not found")
  | Ok (Some user) =>
      let '(valid, message) :=
        Password.validatePassword (AdminChangePasswordRequest.NewPassword req) in
      if negb valid then ret (Err message)
      else
        h <- Hashing.HashPassword (AdminChangePasswordRequest.NewPassword req) ;;
        match h with
        | Err e => ret (Err (wrap "failed to hash password" e))
        | Ok passwordHash =>
            let user := UserFields.set_PasswordHash passwordHash user in
            u <- UserRepositoryOps.Update user ;;
            match snd u with
            | Err e => ret (Err (wrap "failed to update user password" e))
            | Ok _ => ret (Ok tt)
            end
        end
  end.

End Service.
End AdminService.

Module AuthServiceOps.
Section Service.
Context {P : Primitives} {E : Entropy}.

(** [Register(req)] *)
Definition Register (s : AuthService.t) (req : RegisterRequest.t)
  : M (result AuthResponse.t) :=
  r <- UserRepositoryOps.ExistsByEmail (RegisterRequest.Email req) ;;
  match r with
  | Err e => ret (Err (wrap "failed to check email" e))
  | Ok exists_ =>
      if exists_ then ret (Err "user with this email already exists")
      else
        h <- Hashing.HashPassword (RegisterRequest.Password req) ;;
        match h with
        | Err e => ret (Err (wrap "failed to hash password" e))
        | Ok passwordHash =>
            let user :=
              User.mk EmptyString (RegisterRequest.Name req) (RegisterRequest.Email req)
                passwordHash RoleEngineer zeroTime zeroTime in
            c <- UserRepositoryOps.Create user ;;
            let '(user, err) := c in
            match err with
            | Err e => ret (Err (wrap "failed to create user" e))
            | Ok _ =>
                tok <- Utils.GenerateToken user (AuthService.jwtSecret s)
                         (AuthService.jwtTTL s) ;;
                match tok with
                | Err e => ret (Err (wrap "failed to generate token" e))
                | Ok token => ret (Ok (AuthResponse.mk (userResponse user) token))
                end
            end
        end
  end.

(** [GetCurrentUser(userID)] *)
Definition GetCurrentUser (userID : string) : M (result UserResponse.t) :=
  r <- UserRepositoryOps.FindByID userID ;;
  match r with
  | Err e => ret (Err (wrap "failed to find user" e))
  | Ok None => ret (Err "user not found")
  | Ok (Some user) => ret (Ok (userResponse user))
  end.

End Service.
End AuthServiceOps.

Module RuServiceOps.
Section Service.
Context {E : Entropy}.

(** [GetRuByID(ruID)] *)
Definition GetRuByID (ruID : string) : M (result GetRuResponse.t) :=
  r <- RuRepository.GetRuByID ruID ;;
  match r with
  | Err e => ret (Err (wrap "failed to get RU info" e))
  | Ok ruInfo =>
      c <- RuRepositoryOps.GetCellsByRuID ruID ;;
      match c with
      | Err e => ret (Err (wrap "failed to get cells" e))
      | Ok cells => ret (Ok (GetRuResponse.mk ruInfo cells))
      end
  end.

(** [UpdateCellInfo(ruID, cellID, req)] *)
Definition UpdateCellInfo (ruID : string) (cellID : Z) (req : UpdateCellInfoRequest.t)
  : M (result Cell.t) :=
  r <- RuRepository.GetCellByID cellID ruID ;;
  match r with
  | Err e => ret (Err (wrap "cell not found" e))
  | Ok cell =>
      let cell := CellFields.set_Name (UpdateCellInfoRequest.Name req) cell in
      let cell := CellFields.set_Description (UpdateCellInfoRequest.Description req) cell in
      let cell := CellFields.set_Voltage (UpdateCellInfoRequest.Voltage req) cell in
      t <- time_Now ;;
      let cell := Cell.set_UpdatedAt t cell in
      e <- RuRepository.UpdateCell cell ;;
      match e with
      | Err e => ret (Err (wrap "failed to update cell info" e))
      | Ok _ => ret (Ok cell)
      end
  end.

(** [AddHistoryRecord(ruID, req)] *)
Definition AddHistoryRecord (ruID : string) (req : AddHistoryRecordRequest.t)
  : M (result OperationRecord.t) :=
  fun w =>
    (createdAt <- time_Now ;;
     updatedAt <- time_Now ;;
     let record :=
       OperationRecord.mk (uuid_New w)
         (AddHistoryRecordRequest.CellNumber req) (AddHistoryRecordRequest.CellName req)
         (AddHistoryRecordRequest.Action req) (AddHistoryRecordRequest.Operator req)
         (AddHistoryRecordRequest.Timestamp req) (AddHistoryRecordRequest.Reason req)
         (AddHistoryRecordRequest.DocumentType req) (AddHistoryRecordRequest.OrderNumber req)
         (AddHistoryRecordRequest.WorkOrderNumber req) (AddHistoryRecordRequest.StartDate req)
         (AddHistoryRecordRequest.EndDate req) (AddHistoryRecordRequest.ResponsiblePerson req)
         (AddHistoryRecordRequest.Comment req) (AddHistoryRecordRequest.Severity req)
         ruID createdAt updatedAt in
     e <- RuRepositoryOps.AddHistoryRecord record ;;
     match e with
     | Err e => ret (Err (wrap "failed to add history record" e))
     | Ok _ => ret (Ok record)
     end) w.

(** [GetAllRUs()] *)
Definition GetAllRUs : M (result (list RUInfo.t)) :=
  r <- RuRepositoryOps.GetAllRUs ;;
  match r with
  | Err e => ret (Err (wrap "failed to get all RUs" e))
  | Ok rus => ret (Ok rus)
  end.

(** [UpdateRuStatus(ruID, status)] *)
Definition UpdateRuStatus (ruID status : string) : M (result RUInfo.t) :=
  r <- RuRepository.GetRuByID ruID ;;
  match r with
  | Err e => ret (Err (wrap "failed to get RU" e))
  | Ok ruInfo =>
      let ruInfo := RUInfoFields.set_Status status ruInfo in
      t <- time_Now ;;
      let ruInfo := RUInfo.set_UpdatedAt t ruInfo in
      e <- RuRepository.UpdateRu ruInfo ;;
      match e with
      | Err e => ret (Err (wrap "failed to update RU status" e))
      | Ok _ => ret (Ok ruInfo)
      end
  end.

End Service.
End RuServiceOps.

(** ** Accounts: what the repository methods do to the table *)

Module UserRepositoryFacts.
Import UserRepositoryOps.

Lemma count_positive {A} (f : A -> bool) (l : list A) :
  (Z.of_nat (length (List.filter f l)) >? 0) = existsb f l.
Proof.
  induction l as [|x l IH]; [reflexivity |]. simpl.
  destruct (f x); simpl; [| exact IH].
  destruct (Z.gtb_spec (Z.of_nat (S (length (List.filter f l)))) 0); [reflexivity | lia].
Qed.

Lemma existsb_find {A} (f : A -> bool) (l : list A) :
  existsb f l = match List.find f l with Some _ => true | None => false end.
Proof.
  induction l as [|x l IH]; [reflexivity |]. simpl. destruct (f x); [reflexivity | exact IH].
Qed.

Section Facts.
Context {E : Entropy}.

(** The user [Create] sends to the store: the id drawn when none is set,
    the two dates read from the clock when they are zero. *)
Definition prepared (user : User.t) (w : World) : User.t :=
  let user :=
    if String.eqb (User.ID user) EmptyString
    then UserFields.set_ID (uuid_New w) user else user in
  let user :=
    if IsZero (User.CreatedAt user)
    then UserFields.set_CreatedAt (now w (ticks w)) user else user in
  if IsZero (User.UpdatedAt user)
  then UserFields.set_UpdatedAt (now w (ticks w)) user else user.

Lemma ExistsByEmail_run (email : string) (w : World) :
  ExistsByEmail email w =
  (match fault w (stmts w) with
   | Some msg => Err (wrap "failed to check email existence" msg)
   | None => Ok (existsb (fun u => String.eqb (User.Email u) email) (users (db w)))
   end, sent (db w) w).
Proof.
  unfold ExistsByEmail, bind. rewrite statement_run.
  destruct (fault w (stmts w)); [reflexivity |].
  cbn [fst snd]. unfold ret. rewrite count_positive. reflexivity.
Qed.

Lemma FindByID_run (id : string) (w : World) :
  FindByID id w =
  (match fault w (stmts w) with
   | Some msg => Err (wrap "failed to find user by id" msg)
   | None => Ok (List.find (fun u => String.eqb (User.ID u) id) (users (db w)))
   end, sent (db w) w).
Proof.
  unfold FindByID, bind. rewrite statement_run.
  destruct (fault w (stmts w)); [reflexivity |].
  cbn [fst snd]. destruct (List.find _ _); reflexivity.
Qed.

Lemma Create_run (user : User.t) (w : World) :
  Create user w =
  let u := prepared user w in
  match fault w (stmts w) with
  | Some msg => ((u, Err (wrap "failed to create user" msg)), sent (db w) (ticked w))
  | None =>
      if existsb (fun r => String.eqb (User.ID r) (User.ID u)
                           || String.eqb (User.Email r) (User.Email u)) (users (db w))
      then ((u, Err (wrap "failed to create user" unique_violation)), sent (db w) (ticked w))
      else ((u, Ok tt), sent (set_users (users (db w) ++ [u]) (db w)) (ticked w))
  end.
Proof.
  unfold Create, bind. rewrite time_Now_run, statement_run.
  cbn [fault stmts ticked db]. fold (prepared user w).
  destruct (fault w (stmts w)); [reflexivity |].
  unfold insert_user. destruct (existsb _ _); reflexivity.
Qed.

Lemma Update_run (user : User.t) (w : World) :
  Update user w =
  let u := UserFields.set_UpdatedAt (now w (ticks w)) user in
  match fault w (stmts w) with
  | Some msg => ((u, Err (wrap "failed to update user" msg)), sent (db w) (ticked w))
  | None =>
      if existsb (fun r => String.eqb (User.Email r) (User.Email u)
                           && negb (String.eqb (User.ID r) (User.ID u))) (users (db w))
      then ((u, Err (wrap "failed to update user" unique_violation)), sent (db w) (ticked w))
      else ((u, Ok tt),
            sent (set_users (save User.ID String.eqb u (users (db w))) (db w)) (ticked w))
  end.
Proof.
  unfold Update, bind. rewrite time_Now_run, statement_run.
  cbn [fault stmts ticked db].
  destruct (fault w (stmts w)); [reflexivity |].
  unfold save_user. destruct (existsb _ _); reflexivity.
Qed.

Lemma Delete_run (id : string) (w : World) :
  Delete id w =
  match fault w (stmts w) with
  | Some msg => (Err (wrap "failed to delete user" msg), sent (db w) w)
  | None =>
      (Ok tt,
       sent (set_users (List.filter (fun u => negb (String.eqb (User.ID u) id))
                                    (users (db w))) (db w)) w)
  end.
Proof.
  unfold Delete, bind. rewrite statement_run.
  destruct (fault w (stmts w)); reflexivity.
Qed.

Lemma HashPassword_run (password : string) (w : World) :
  Hashing.HashPassword password w =
  (match bcrypt_Generate w password with
   | Err e => Err (wrap "failed to hash password" e)
   | Ok h => Ok h
   end, w).
Proof. unfold Hashing.HashPassword. destruct (bcrypt_Generate w password); reflexivity. Qed.

(** A save that [Update] reports done: the row it wrote, and why the
    store took it. *)
Lemma Update_Ok (user : User.t) (w : World) :
  snd (fst (Update user w)) = Ok tt ->
  let u := UserFields.set_UpdatedAt (now w (ticks w)) user in
  fst (fst (Update user w)) = u /\
  db (snd (Update user w)) = set_users (save User.ID String.eqb u (users (db w))) (db w) /\
  existsb (fun r => String.eqb (User.Email r) (User.Email u)
                    && negb (String.eqb (User.ID r) (User.ID u))) (users (db w)) = false.
Proof.
  rewrite Update_run. cbv zeta.
  destruct (fault w (stmts w)); [discriminate |].
  destruct (existsb _ _); [discriminate |].
  intros _. repeat split.
Qed.

(** An error of [Update] leaves the tables as they were. *)
Lemma Update_Err (user : User.t) (w : World) (e : string) :
  snd (fst (Update user w)) = Err e -> db (snd (Update user w)) = db w.
Proof.
  rewrite Update_run. cbv zeta.
  destruct (fault w (stmts w)); [reflexivity |].
  destruct (existsb _ _); [reflexivity | discriminate].
Qed.

End Facts.

(** The constraints the users table is created with: ids are unique (the
    primary key) and so are emails (the unique index). *)
Definition users_consistent (table : list User.t) : Prop :=
  NoDup (map User.ID table) /\ NoDup (map User.Email table).

Lemma existsb_false_forall {A} (f : A -> bool) (l : list A) :
  existsb f l = false <-> forall x, In x l -> f x = false.
Proof.
  induction l as [|a l IH]; simpl.
  - split; [intros _ x [] | reflexivity].
  - rewrite orb_false_iff, IH. split.
    + intros [Ha Hl] x [<- | Hx]; auto.
    + intros H. split; [apply H; auto | intros x Hx; apply H; auto].
Qed.

(** An insert the store accepts keeps the constraints. *)
Lemma insert_consistent (u : User.t) (table : list User.t) :
  users_consistent table ->
  existsb (fun r => String.eqb (User.ID r) (User.ID u)
                    || String.eqb (User.Email r) (User.Email u)) table = false ->
  users_consistent (table ++ [u]).
Proof.
  intros [Hid Hem] Hfresh.
  rewrite existsb_false_forall in Hfresh.
  unfold users_consistent. rewrite !map_app. cbn [map].
  split; apply NoDup_app; (split; [assumption |]); (split; [| apply NoDup_singleton]);
    intros x Hx Hx'; apply list_elem_of_In in Hx; apply in_map_iff in Hx as (r & <- & Hr);
    apply list_elem_of_In in Hx'; destruct Hx' as [Heq | []];
    specialize (Hfresh r Hr); apply orb_false_iff in Hfresh as [H1 H2].
  - apply String.eqb_neq in H1. congruence.
  - apply String.eqb_neq in H2. congruence.
Qed.

(** What [Save] does to a table with unique ids: the row that carries
    the id is replaced, every other row is kept. *)
Lemma save_replaces (u : User.t) (table : list User.t) (old : User.t) :
  NoDup (map User.ID table) ->
  In old table -> User.ID old = User.ID u ->
  exists before after : list User.t,
    table = (before ++ old :: after)%list /\
    save User.ID String.eqb u table = (before ++ u :: after)%list /\
    (forall r, In r before \/ In r after -> User.ID r <> User.ID u).
Proof.
  intros Hnd Hin Hid.
  apply in_split in Hin as (before & after & ->).
  exists before, after. split; [reflexivity |].
  rewrite map_app in Hnd. cbn [map] in Hnd.
  assert (Hother : forall r, In r before \/ In r after -> User.ID r <> User.ID u).
  { intros r Hr Heq. rewrite <- Hid in Heq.
    apply NoDup_app in Hnd as (_ & Hdisj & Hnd').
    apply NoDup_cons in Hnd' as [Hnot _].
    destruct Hr as [Hr | Hr].
    - apply (Hdisj (User.ID r)).
      + apply list_elem_of_In, in_map. exact Hr.
      + rewrite Heq. left.
    - apply Hnot. rewrite <- Heq. apply list_elem_of_In, in_map. exact Hr. }
  split; [| exact Hother].
  unfold save.
  assert (Hex : existsb (fun r => String.eqb (User.ID r) (User.ID u))
                  (before ++ old :: after) = true).
  { apply existsb_exists. exists old. split; [apply in_elt |].
    apply String.eqb_eq. exact Hid. }
  rewrite Hex, map_app. cbn [map].
  rewrite Hid, String.eqb_refl. f_equal; [| f_equal].
  - rewrite <- (map_id before) at 2. apply map_ext_in. intros r Hr.
    destruct (String.eqb_spec (User.ID r) (User.ID u)) as [Heq | _]; [| reflexivity].
    destruct (Hother r (or_introl Hr) Heq).
  - rewrite <- (map_id after) at 2. apply map_ext_in. intros r Hr.
    destruct (String.eqb_spec (User.ID r) (User.ID u)) as [Heq | _]; [| reflexivity].
    destruct (Hother r (or_intror Hr) Heq).
Qed.

(** A save the store accepts keeps the constraints. *)
Lemma save_consistent (u old : User.t) (table : list User.t) :
  users_consistent table ->
  In old table -> User.ID old = User.ID u ->
  existsb (fun r => String.eqb (User.Email r) (User.Email u)
                    && negb (String.eqb (User.ID r) (User.ID u))) table = false ->
  users_consistent (save User.ID String.eqb u table).
Proof.
  intros [Hid Hem] Hin Heq Hfree.
  destruct (save_replaces u table old Hid Hin Heq) as (before & after & -> & -> & Hother).
  rewrite existsb_false_forall in Hfree.
  unfold users_consistent in *. rewrite !map_app in *. cbn [map] in *.
  rewrite <- Heq. split; [exact Hid |].
  apply NoDup_app in Hem as (Hb & Hdisj & Hrest).
  apply NoDup_cons in Hrest as [_ Ha].
  assert (Hfresh : forall r, In r before \/ In r after -> User.Email r <> User.Email u).
  { intros r Hr Hemail.
    assert (Hin' : In r (before ++ old :: after)).
    { apply in_app_iff. destruct Hr as [Hr | Hr]; [left | right; right]; exact Hr. }
    specialize (Hfree r Hin'). apply andb_false_iff in Hfree as [Hf | Hf].
    - apply String.eqb_neq in Hf. contradiction.
    - apply negb_false_iff, String.eqb_eq in Hf. exact (Hother r Hr Hf). }
  apply NoDup_app. split; [exact Hb |]. split.
  - intros x Hx Hx'. apply list_elem_of_In in Hx'. destruct Hx' as [<- | Hx'].
    + apply list_elem_of_In, in_map_iff in Hx as (r & Hr & Hrin).
      exact (Hfresh r (or_introl Hrin) Hr).
    + apply (Hdisj x Hx). right. apply list_elem_of_In. exact Hx'.
  - apply NoDup_cons. split; [| exact Ha].
    intros Hx. apply list_elem_of_In, in_map_iff in Hx as (r & Hr & Hrin).
    exact (Hfresh r (or_intror Hrin) Hr).
Qed.

Lemma find_by_id_In (id : string) (table : list User.t) (old : User.t) :
  List.find (fun u => String.eqb (User.ID u) id) table = Some old ->
  In old table /\ User.ID old = id.
Proof.
  intros H. apply find_some in H as [Hin Heq]. apply String.eqb_eq in Heq. auto.
Qed.

(** Two rows that agree on a column without duplicates are one row. *)
Lemma NoDup_map_inj {A B} (f : A -> B) (l : list A) (x y : A) :
  NoDup (map f l) -> In x l -> In y l -> f x = f y -> x = y.
Proof.
  induction l as [|a l IH]; simpl; intros Hnd Hx Hy Heq; [destruct Hx |].
  apply NoDup_cons in Hnd as [Hn Hnd].
  destruct Hx as [<- | Hx], Hy as [<- | Hy]; auto.
  - exfalso. apply Hn. rewrite Heq. apply list_elem_of_In, in_map. exact Hy.
  - exfalso. apply Hn. rewrite <- Heq. apply list_elem_of_In, in_map. exact Hx.
Qed.

(** After a save over a row with the same id, looking the id up finds
    the row saved. *)
Lemma find_some_first_saved (u old : User.t) (table : list User.t) (id : string) :
  In old table -> User.ID old = id -> User.ID u = id ->
  List.find (fun r => String.eqb (User.ID r) id) (save User.ID String.eqb u table) = Some u.
Proof.
  intros Hin Hid Hu. unfold save.
  assert (Hex : existsb (fun r => String.eqb (User.ID r) (User.ID u)) table = true).
  { apply existsb_exists. exists old. split; [exact Hin |].
    apply String.eqb_eq. congruence. }
  rewrite Hex. clear Hin Hid old. rewrite Hu in *.
  induction table as [|r table IH]; [discriminate |].
  cbn [existsb map List.find] in *.
  destruct (String.eqb (User.ID r) id) eqn:Hr.
  - rewrite Hu, String.eqb_refl. reflexivity.
  - rewrite Hr. apply IH. exact Hex.
Qed.

End UserRepositoryFacts.

(** ** Account administration *)

Module AdminServiceFacts.
Import UserRepositoryOps UserRepositoryFacts AdminService.

Ltac repo_step :=
  first [ rewrite ExistsByEmail_run | rewrite FindByID_run | rewrite HashPassword_run
        | rewrite Create_run | rewrite Update_run | rewrite Delete_run ];
  cbv beta iota zeta; cbn [fault stmts db sent ticked fst snd].

Lemma roleOf_Some (role : string) (r : UserRole) :
  roleOf role = Some r ->
  r = role /\ In r [RoleAdmin; RoleDispatcher; RoleEngineer].
Proof.
  unfold roleOf.
  destruct (String.eqb_spec role "admin") as [-> | _];
    [intros [= <-]; split; [reflexivity | simpl; auto] |].
  destruct (String.eqb_spec role "dispatcher") as [-> | _];
    [intros [= <-]; split; [reflexivity | simpl; auto] |].
  destruct (String.eqb_spec role "engineer") as [-> | _];
    [intros [= <-]; split; [reflexivity | simpl; auto] | discriminate].
Qed.

Ltac case_run :=
  match goal with
  | |- context [match fault ?w ?n with _ => _ end] => destruct (fault w n) eqn:?
  | |- context [match List.find ?f ?l with _ => _ end] => destruct (List.find f l) eqn:?
  | |- context [match roleOf ?r with _ => _ end] => destruct (roleOf r) eqn:?
  | |- context [match bcrypt_Generate ?w ?p with _ => _ end] =>
      destruct (bcrypt_Generate w p) eqn:?
  | |- context [if ?b then _ else _] => destruct b eqn:?
  end; cbv beta iota zeta; cbn [fault stmts db sent ticked fst snd negb].

Section Facts.
Context {P : Primitives} {E : Entropy}.

Lemma prepared_fields (user : User.t) (w : World) :
  User.Name (prepared user w) = User.Name user /\
  User.Email (prepared user w) = User.Email user /\
  User.PasswordHash (prepared user w) = User.PasswordHash user /\
  User.Role (prepared user w) = User.Role user.
Proof.
  unfold prepared.
  destruct (String.eqb (User.ID user) EmptyString);
    destruct (IsZero (User.CreatedAt _)); destruct (IsZero (User.UpdatedAt _));
    repeat split.
Qed.

(** What [CreateUser] comes to, step by step. *)
Lemma CreateUser_run (req : AdminCreateRequest.t) (w : World) :
  CreateUser req w =
  match fault w (stmts w) with
  | Some msg => (Err (wrap "failed to check email" (wrap "failed to check email existence" msg)),
                 sent (db w) w)
  | None =>
      let w1 := sent (db w) w in
      if existsb (fun u => String.eqb (User.Email u) (AdminCreateRequest.Email req))
                 (users (db w))
      then (Err "user with this email already exists", w1)
      else if negb (fst (Password.validatePassword (AdminCreateRequest.Password req)))
      then (Err (snd (Password.validatePassword (AdminCreateRequest.Password req))), w1)
      else
        match bcrypt_Generate w1 (AdminCreateRequest.Password req) with
        | Err e => (Err (wrap "failed to hash password" (wrap "failed to hash password" e)), w1)
        | Ok passwordHash =>
            match roleOf (AdminCreateRequest.Role req) with
            | None => (Err "invalid role", w1)
            | Some userRole =>
                let c :=
                  Create (User.mk EmptyString (AdminCreateRequest.Name req)
                            (AdminCreateRequest.Email req) passwordHash userRole
                            zeroTime zeroTime) w1 in
                match snd (fst c) with
                | Err e => (Err (wrap "failed to create user" e), snd c)
                | Ok _ => (Ok (userResponse (fst (fst c))), snd c)
                end
            end
        end
  end.
Proof.
  unfold CreateUser, bind. repo_step.
  destruct (fault w (stmts w)); [reflexivity |].
  destruct (existsb _ _); [reflexivity |].
  destruct (Password.validatePassword _) as [valid message]. cbn [fst snd].
  destruct valid; [| reflexivity]. cbn [negb].
  rewrite HashPassword_run.
  destruct (bcrypt_Generate _ _); [| reflexivity].
  destruct (roleOf _); [| reflexivity].
  destruct (Create _ _) as [[usr [x | e]] w2]; reflexivity.
Qed.

(** X7.  An account that [CreateUser] reports created is one new row at the
    end of the users table and nothing else: it carries the name and the
    email asked for, a role of the enumeration that is the role string asked
    for, and a hash that verifies the password asked for; that password
    passed the policy gate; no account had the email before, and none had
    the new id; the other tables are as they were, and the table's
    constraints still hold. *)
Theorem CreateUser_creates_one_valid_account `{!BcryptLaws P E}
    (req : AdminCreateRequest.t) (w : World) (resp : UserResponse.t) :
  fst (CreateUser req w) = Ok resp ->
  exists user,
    users (db (snd (CreateUser req w))) = (users (db w) ++ [user])%list /\
    ru_infos (db (snd (CreateUser req w))) = ru_infos (db w) /\
    cells (db (snd (CreateUser req w))) = cells (db w) /\
    operation_records (db (snd (CreateUser req w))) = operation_records (db w) /\
    resp = userResponse user /\
    User.Name user = AdminCreateRequest.Name req /\
    User.Email user = AdminCreateRequest.Email req /\
    User.Role user = AdminCreateRequest.Role req /\
    In (User.Role user) [RoleAdmin; RoleDispatcher; RoleEngineer] /\
    Password.policy_accepts (AdminCreateRequest.Password req) /\
    Utils.CheckPassword (AdminCreateRequest.Password req) (User.PasswordHash user) = true /\
    (forall r, In r (users (db w)) ->
               User.Email r <> User.Email user /\ User.ID r <> User.ID user) /\
    (users_consistent (users (db w)) ->
     users_consistent (users (db (snd (CreateUser req w))))).
Proof.
  rewrite CreateUser_run.
  destruct (fault w (stmts w)); [discriminate |]. cbv zeta.
  destruct (existsb _ (users (db w))) eqn:Hexists; [discriminate |].
  destruct (negb (fst (Password.validatePassword _))) eqn:Hvalid; [discriminate |].
  destruct (bcrypt_Generate _ _) as [hash | e] eqn:Hhash; [| discriminate].
  destruct (roleOf _) as [role |] eqn:Hrole; [| discriminate].
  rewrite Create_run. cbv zeta. cbn [fault stmts sent db].
  destruct (fault w (S (stmts w))); [discriminate |].
  set (user := prepared _ _).
  match goal with
  | |- context [existsb ?f (users (db w))] =>
      destruct (existsb f (users (db w))) eqn:Hfresh; [discriminate |]
  end.
  cbn [fst snd sent db set_users users ru_infos cells operation_records].
  intros [= <-]. exists user.
  destruct (prepared_fields
              (User.mk EmptyString (AdminCreateRequest.Name req) (AdminCreateRequest.Email req)
                 hash role zeroTime zeroTime) (sent (db w) w)) as (Hn & He & Hp & Hr).
  fold user in Hn, He, Hp, Hr. cbn [User.Name User.Email User.PasswordHash User.Role] in *.
  destruct (roleOf_Some _ _ Hrole) as [Hrole_eq Hrole_in].
  do 7 (split; [first [reflexivity | assumption] |]).
  split; [rewrite Hr; exact Hrole_eq |].
  split; [rewrite Hr; exact Hrole_in |].
  split; [apply Password.validatePassword_accepts_iff;
          apply negb_false_iff in Hvalid; exact Hvalid |].
  split; [unfold Utils.CheckPassword; rewrite Hp;
          exact (compare_generated _ _ _ Hhash) |].
  split.
  - intros r Hr'. rewrite existsb_false_forall in Hfresh.
    specialize (Hfresh r Hr'). apply orb_false_iff in Hfresh as [H1 H2].
    apply String.eqb_neq in H1, H2. split; assumption.
  - intros Hcons. exact (insert_consistent user _ Hcons Hfresh).
Qed.

(** Once an account holds an email, creating another with that email is
    refused as a conflict whenever the store answers, and the tables are left
    as they are. *)
Lemma CreateUser_same_email_conflicts (req : AdminCreateRequest.t) (w : World)
    (holder : User.t) :
  In holder (users (db w)) ->
  User.Email holder = AdminCreateRequest.Email req ->
  fault w (stmts w) = None ->
  fst (CreateUser req w) = Err "user with this email already exists" /\
  db (snd (CreateUser req w)) = db w.
Proof.
  intros Hin Hemail Hok. rewrite CreateUser_run, Hok. cbv zeta.
  assert (Hex : existsb (fun u => String.eqb (User.Email u) (AdminCreateRequest.Email req))
                  (users (db w)) = true).
  { apply existsb_exists. exists holder. split; [exact Hin |].
    apply String.eqb_eq. exact Hemail. }
  rewrite Hex. split; reflexivity.
Qed.

(** X8.  An error of an administration call means nothing was written: when
    [CreateUser], [UpdateUser], [DeleteUser] or [ChangeUserPassword] returns
    an error, whichever it is, the tables are as they were. *)
Theorem admin_errors_change_nothing (w : World) :
  (forall req e, fst (CreateUser req w) = Err e -> db (snd (CreateUser req w)) = db w) /\
  (forall id req e, fst (UpdateUser id req w) = Err e ->
                    db (snd (UpdateUser id req w)) = db w) /\
  (forall id e, fst (DeleteUser id w) = Err e -> db (snd (DeleteUser id w)) = db w) /\
  (forall id req e, fst (ChangeUserPassword id req w) = Err e ->
                    db (snd (ChangeUserPassword id req w)) = db w).
Proof.
  split; [| split; [| split]].
  - intros req e. rewrite CreateUser_run.
    repeat case_run; try reflexivity; try discriminate.
    rewrite Create_run. cbv zeta. cbn [fault stmts sent db].
    repeat case_run; try reflexivity; discriminate.
  - intros id req e. unfold UpdateUser, bind, ret. repo_step.
    repeat (first [case_run | repo_step]); try reflexivity; discriminate.
  - intros id e. unfold DeleteUser, bind, ret. repo_step.
    repeat (first [case_run | repo_step]); try reflexivity; discriminate.
  - intros id req e. unfold ChangeUserPassword, bind, ret. repo_step.
    destruct (Password.validatePassword _) as [valid message].
    repeat (first [case_run | repo_step]); try reflexivity; discriminate.
Qed.

(** The row [UpdateUser] saves, given the row found. *)
Definition updated (req : AdminUpdateRequest.t) (role : UserRole) (t : Time)
    (old : User.t) : User.t :=
  UserFields.set_UpdatedAt t
    (UserFields.set_Role role
       (UserFields.set_Email (AdminUpdateRequest.Email req)
          (UserFields.set_Name (AdminUpdateRequest.Name req) old))).

Lemma updated_row (req : AdminUpdateRequest.t) (role : UserRole) (t : Time)
    (old : User.t) (table : list User.t) :
  roleOf (AdminUpdateRequest.Role req) = Some role ->
  In old table ->
  existsb (fun r => String.eqb (User.Email r) (User.Email (updated req role t old))
                    && negb (String.eqb (User.ID r) (User.ID (updated req role t old))))
          table = false ->
  User.ID (updated req role t old) = User.ID old /\
  User.PasswordHash (updated req role t old) = User.PasswordHash old /\
  User.CreatedAt (updated req role t old) = User.CreatedAt old /\
  User.Name (updated req role t old) = AdminUpdateRequest.Name req /\
  User.Email (updated req role t old) = AdminUpdateRequest.Email req /\
  User.Role (updated req role t old) = AdminUpdateRequest.Role req /\
  In (User.Role (updated req role t old)) [RoleAdmin; RoleDispatcher; RoleEngineer] /\
  (forall r, In r table -> User.ID r <> User.ID old ->
             User.Email r <> AdminUpdateRequest.Email req) /\
  (users_consistent table ->
   users_consistent (save User.ID String.eqb (updated req role t old) table) /\
   exists before after : list User.t,
     table = (before ++ old :: after)%list /\
     save User.ID String.eqb (updated req role t old) table
       = (before ++ updated req role t old :: after)%list).
Proof.
  intros Hrole Hin Hfree.
  destruct (roleOf_Some _ _ Hrole) as [Hrole_eq Hrole_in].
  do 5 (split; [reflexivity |]).
  split; [exact Hrole_eq |]. split; [exact Hrole_in |]. split.
  - intros r Hr Hne Hemail. rewrite existsb_false_forall in Hfree.
    specialize (Hfree r Hr). apply andb_false_iff in Hfree as [Hf | Hf].
    + apply String.eqb_neq in Hf. exact (Hf Hemail).
    + apply negb_false_iff, String.eqb_eq in Hf. exact (Hne Hf).
  - intros Hcons. split.
    + exact (save_consistent (updated req role t old) old table Hcons Hin eq_refl Hfree).
    + destruct Hcons as [Hnd _].
      destruct (save_replaces (updated req role t old) table old Hnd Hin eq_refl)
        as (before & after & H1 & H2 & _).
      exists before, after. split; assumption.
Qed.

(** A successful [UpdateUser] found the row, read the role, and saved. *)
Lemma UpdateUser_Ok (id : string) (req : AdminUpdateRequest.t) (w : World)
    (resp : UserResponse.t) :
  fst (UpdateUser id req w) = Ok resp ->
  exists (old : User.t) (role : UserRole) (w2 : World),
    In old (users (db w)) /\ User.ID old = id /\
    roleOf (AdminUpdateRequest.Role req) = Some role /\
    db w2 = db w /\
    resp = userResponse (updated req role (now w2 (ticks w2)) old) /\
    db (snd (UpdateUser id req w))
      = set_users (save User.ID String.eqb (updated req role (now w2 (ticks w2)) old)
                     (users (db w))) (db w) /\
    existsb (fun r =>
               String.eqb (User.Email r)
                          (User.Email (updated req role (now w2 (ticks w2)) old))
               && negb (String.eqb (User.ID r)
                                   (User.ID (updated req role (now w2 (ticks w2)) old))))
            (users (db w)) = false.
Proof.
  unfold UpdateUser, bind, ret. repo_step.
  destruct (fault w (stmts w)); [discriminate |].
  destruct (List.find _ _) as [old |] eqn:Hfind; [| discriminate].
  apply find_by_id_In in Hfind as [Hin Hid].
  cbv beta iota zeta.
  assert (Hsaved : forall (w2 : World) (role : UserRole),
    db w2 = db w ->
    roleOf (AdminUpdateRequest.Role req) = Some role ->
    let u := Update (UserFields.set_Role role
                       (UserFields.set_Email (AdminUpdateRequest.Email req)
                          (UserFields.set_Name (AdminUpdateRequest.Name req) old))) w2 in
    snd (fst u) = Ok tt ->
    Ok (userResponse (fst (fst u))) = Ok resp ->
    exists (old0 : User.t) (role0 : UserRole) (w0 : World),
      In old0 (users (db w)) /\ User.ID old0 = id /\
      roleOf (AdminUpdateRequest.Role req) = Some role0 /\
      db w0 = db w /\
      resp = userResponse (updated req role0 (now w0 (ticks w0)) old0) /\
      db (snd u)
        = set_users (save User.ID String.eqb (updated req role0 (now w0 (ticks w0)) old0)
                       (users (db w))) (db w) /\
      existsb (fun r =>
                 String.eqb (User.Email r)
                            (User.Email (updated req role0 (now w0 (ticks w0)) old0))
                 && negb (String.eqb (User.ID r)
                                     (User.ID (updated req role0 (now w0 (ticks w0)) old0))))
              (users (db w)) = false).
  { intros w2 role Hdb Hrole u Hok [= <-]. subst u.
    destruct (Update_Ok _ _ Hok) as (Hu & Hd & Hfree). rewrite Hdb in Hd, Hfree.
    exists old, role, w2. rewrite Hu, Hd. repeat split; assumption. }
  destruct (negb _).
  - repo_step. destruct (fault w (S (stmts w))); [discriminate |].
    destruct (existsb _ _); [discriminate |].
    destruct (roleOf _) as [role |] eqn:Hrole; [| discriminate].
    specialize (Hsaved (sent (db w) (sent (db w) w)) role eq_refl eq_refl).
    cbv zeta in Hsaved.
    destruct (Update _ _) as [[usr [[] | e]] w3]; [| discriminate].
    intros Hresp. exact (Hsaved eq_refl Hresp).
  - destruct (roleOf _) as [role |] eqn:Hrole; [| discriminate].
    specialize (Hsaved (sent (db w) w) role eq_refl eq_refl).
    cbv zeta in Hsaved.
    destruct (Update _ _) as [[usr [[] | e]] w3]; [| discriminate].
    intros Hresp. exact (Hsaved eq_refl Hresp).
Qed.

(** X9.  An account that [UpdateUser] reports updated is the one row with the
    id given, rewritten in place: name, email and role are the ones asked
    for (the role one of the enumeration); id, password hash and creation
    date are kept; no other account holds the email; the other tables are as
    they were; and on a table within its constraints every other row is
    where it was and the constraints still hold. *)
Theorem UpdateUser_rewrites_one_account (id : string) (req : AdminUpdateRequest.t)
    (w : World) (resp : UserResponse.t) :
  fst (UpdateUser id req w) = Ok resp ->
  exists old user : User.t,
    In old (users (db w)) /\ User.ID old = id /\
    users (db (snd (UpdateUser id req w))) = save User.ID String.eqb user (users (db w)) /\
    ru_infos (db (snd (UpdateUser id req w))) = ru_infos (db w) /\
    cells (db (snd (UpdateUser id req w))) = cells (db w) /\
    operation_records (db (snd (UpdateUser id req w))) = operation_records (db w) /\
    resp = userResponse user /\
    User.ID user = User.ID old /\
    User.PasswordHash user = User.PasswordHash old /\
    User.CreatedAt user = User.CreatedAt old /\
    User.Name user = AdminUpdateRequest.Name req /\
    User.Email user = AdminUpdateRequest.Email req /\
    User.Role user = AdminUpdateRequest.Role req /\
    In (User.Role user) [RoleAdmin; RoleDispatcher; RoleEngineer] /\
    (forall r, In r (users (db w)) -> User.ID r <> User.ID old ->
               User.Email r <> AdminUpdateRequest.Email req) /\
    (users_consistent (users (db w)) ->
     users_consistent (save User.ID String.eqb user (users (db w))) /\
     exists before after : list User.t,
       users (db w) = (before ++ old :: after)%list /\
       save User.ID String.eqb user (users (db w)) = (before ++ user :: after)%list).
Proof.
  intros Hok.
  destruct (UpdateUser_Ok id req w resp Hok)
    as (old & role & w2 & Hin & Hid & Hrole & _ & Hresp & Hdb & Hfree).
  exists old, (updated req role (now w2 (ticks w2)) old).
  split; [exact Hin |]. split; [exact Hid |]. rewrite Hdb.
  do 4 (split; [reflexivity |]). split; [exact Hresp |].
  exact (updated_row req role _ old _ Hrole Hin Hfree).
Qed.

(** X10.  On a table within its constraints and a store that answers,
    [UpdateUser] fails only for one of its three own reasons: no such
    account, the email held by another account, or a role outside the
    enumeration.  The unique index is never what refuses the save. *)
Theorem UpdateUser_fails_only_on_validation (id : string) (req : AdminUpdateRequest.t)
    (w : World) (e : string) :
  reliable w ->
  users_consistent (users (db w)) ->
  fst (UpdateUser id req w) = Err e ->
  In e ["user not found"; "email already taken by another user"; "invalid role"].
Proof.
  intros Hrel [_ Hemails]. unfold UpdateUser, bind, ret. repo_step.
  rewrite (Hrel (stmts w)).
  destruct (List.find _ _) as [old |] eqn:Hfind; [| intros [= <-]; simpl; auto].
  apply find_by_id_In in Hfind as [Hin Hid].
  cbv beta iota zeta.
  assert (Hsave : forall (w2 : World) (role : UserRole),
    db w2 = db w -> reliable w2 ->
    (forall r, In r (users (db w)) ->
               User.Email r = AdminUpdateRequest.Email req -> User.ID r = User.ID old) ->
    snd (fst (Update (UserFields.set_Role role
                        (UserFields.set_Email (AdminUpdateRequest.Email req)
                           (UserFields.set_Name (AdminUpdateRequest.Name req) old))) w2))
      = Ok tt).
  { intros w2 role Hdb Hrel2 Hholder. rewrite Update_run. cbv zeta.
    rewrite (Hrel2 (stmts w2)), Hdb.
    match goal with
    | |- context [existsb ?f ?l] =>
        assert (Hfree : existsb f l = false); [| rewrite Hfree; reflexivity]
    end.
    apply existsb_false_forall. intros r Hr. cbn [User.Email User.ID UserFields.set_UpdatedAt
      UserFields.set_Role UserFields.set_Email UserFields.set_Name].
    destruct (String.eqb_spec (User.Email r) (AdminUpdateRequest.Email req)) as [Heq | _];
      [| reflexivity].
    rewrite (Hholder r Hr Heq), String.eqb_refl. reflexivity. }
  destruct (negb _) eqn:Hchanged.
  - repo_step. rewrite (Hrel (S (stmts w))).
    destruct (existsb _ _) eqn:Hex; [intros [= <-]; simpl; auto |].
    destruct (roleOf _) as [role |]; [| intros [= <-]; simpl; auto].
    specialize (Hsave (sent (db w) (sent (db w) w)) role eq_refl).
    destruct (Update _ _) as [[usr [[] | e']] w3]; [discriminate |].
    cbn [fst snd] in Hsave. exfalso.
    assert (Some_ok : @Err unit e' = Ok tt); [| discriminate].
    apply Hsave.
    + apply reliable_sent, reliable_sent, Hrel.
    + intros r Hr Heq. rewrite existsb_false_forall in Hex.
      specialize (Hex r Hr). apply String.eqb_neq in Hex. contradiction.
  - apply negb_false_iff, String.eqb_eq in Hchanged.
    destruct (roleOf _) as [role |]; [| intros [= <-]; simpl; auto].
    specialize (Hsave (sent (db w) w) role eq_refl).
    destruct (Update _ _) as [[usr [[] | e']] w3]; [discriminate |].
    cbn [fst snd] in Hsave. exfalso.
    assert (Some_ok : @Err unit e' = Ok tt); [| discriminate].
    apply Hsave.
    + apply reliable_sent, Hrel.
    + intros r Hr Heq. f_equal.
      apply (NoDup_map_inj User.Email (users (db w)) r old Hemails Hr Hin). congruence.
Qed.

(** A successful [DeleteUser] found a row and deleted by id. *)
Lemma DeleteUser_Ok (id : string) (w : World) :
  fst (DeleteUser id w) = Ok tt ->
  (exists old, In old (users (db w)) /\ User.ID old = id) /\
  db (snd (DeleteUser id w))
    = set_users (List.filter (fun u => negb (String.eqb (User.ID u) id)) (users (db w)))
                (db w).
Proof.
  unfold DeleteUser, bind, ret. repo_step.
  destruct (fault w (stmts w)); [discriminate |].
  destruct (List.find _ _) as [old |] eqn:Hfind; [| discriminate].
  apply find_by_id_In in Hfind as [Hin Hid].
  repo_step. destruct (fault w (S (stmts w))); [discriminate |].
  intros _. split; [exists old; auto | reflexivity].
Qed.

(** A successful [ChangeUserPassword] found a row, hashed a password that
    passed the gate, and saved the row with the new hash. *)
Lemma ChangeUserPassword_Ok (id : string) (req : AdminChangePasswordRequest.t) (w : World) :
  fst (ChangeUserPassword id req w) = Ok tt ->
  exists (old : User.t) (hash : string),
    In old (users (db w)) /\ User.ID old = id /\
    fst (Password.validatePassword (AdminChangePasswordRequest.NewPassword req)) = true /\
    bcrypt_Generate (sent (db w) w) (AdminChangePasswordRequest.NewPassword req) = Ok hash /\
    db (snd (ChangeUserPassword id req w))
      = set_users (save User.ID String.eqb
                     (UserFields.set_UpdatedAt (now w (ticks w))
                        (UserFields.set_PasswordHash hash old))
                     (users (db w))) (db w).
Proof.
  unfold ChangeUserPassword, bind, ret. repo_step.
  destruct (fault w (stmts w)); [discriminate |].
  destruct (List.find _ _) as [old |] eqn:Hfind; [| discriminate].
  apply find_by_id_In in Hfind as [Hin Hid].
  destruct (Password.validatePassword _) as [valid message] eqn:Hpolicy.
  destruct valid; [| discriminate]. cbn [negb].
  repo_step.
  destruct (bcrypt_Generate _ _) as [hash | e] eqn:Hhash; [| discriminate].
  pose proof (Update_Ok (UserFields.set_PasswordHash hash old) (sent (db w) w)) as Hsaved.
  cbv zeta in Hsaved.
  destruct (Update _ _) as [[usr [[] | e]] w3]; [| discriminate].
  intros _. cbn [fst snd] in *.
  destruct (Hsaved eq_refl) as (_ & -> & _).
  exists old, hash. repeat split; assumption.
Qed.

(** X11.  [DeleteUser] reports success only for an id that an account had,
    and then no account has it any more: the rows with that id are gone,
    every other row is kept, in order, and the other tables are as they
    were. *)
Theorem DeleteUser_removes_the_account (id : string) (w : World) :
  fst (DeleteUser id w) = Ok tt ->
  (exists old, In old (users (db w)) /\ User.ID old = id) /\
  users (db (snd (DeleteUser id w)))
    = List.filter (fun u => negb (String.eqb (User.ID u) id)) (users (db w)) /\
  (forall r, In r (users (db (snd (DeleteUser id w))))
             <-> In r (users (db w)) /\ User.ID r <> id) /\
  List.find (fun u => String.eqb (User.ID u) id) (users (db (snd (DeleteUser id w)))) = None /\
  ru_infos (db (snd (DeleteUser id w))) = ru_infos (db w) /\
  cells (db (snd (DeleteUser id w))) = cells (db w) /\
  operation_records (db (snd (DeleteUser id w))) = operation_records (db w).
Proof.
  intros Hok. destruct (DeleteUser_Ok id w Hok) as [Hold ->].
  cbn [db set_users users ru_infos cells operation_records].
  split; [exact Hold |]. split; [reflexivity |].
  assert (Hmem : forall r,
    In r (List.filter (fun u => negb (String.eqb (User.ID u) id)) (users (db w)))
    <-> In r (users (db w)) /\ User.ID r <> id).
  { intros r. rewrite filter_In, negb_true_iff, String.eqb_neq. reflexivity. }
  split; [exact Hmem |]. split; [| repeat split].
  destruct (List.find _ (List.filter _ _)) as [r |] eqn:Hr; [| reflexivity].
  apply find_by_id_In in Hr as [Hr Hrid]. apply Hmem in Hr as [_ Hne]. contradiction.
Qed.

(** X12.  A password that [ChangeUserPassword] reports changed passed the
    policy gate, and what is stored for the account with the id given is a
    hash that verifies it; id, name, email, role and creation date of the
    account are kept, no other table is touched, and with unique ids no
    other row is. *)
Theorem ChangeUserPassword_stores_a_hash_of_the_password `{!BcryptLaws P E}
    (id : string) (req : AdminChangePasswordRequest.t) (w : World) :
  fst (ChangeUserPassword id req w) = Ok tt ->
  exists old user : User.t,
    In old (users (db w)) /\ User.ID old = id /\
    users (db (snd (ChangeUserPassword id req w)))
      = save User.ID String.eqb user (users (db w)) /\
    ru_infos (db (snd (ChangeUserPassword id req w))) = ru_infos (db w) /\
    cells (db (snd (ChangeUserPassword id req w))) = cells (db w) /\
    operation_records (db (snd (ChangeUserPassword id req w))) = operation_records (db w) /\
    User.ID user = User.ID old /\
    User.Name user = User.Name old /\
    User.Email user = User.Email old /\
    User.Role user = User.Role old /\
    User.CreatedAt user = User.CreatedAt old /\
    Password.policy_accepts (AdminChangePasswordRequest.NewPassword req) /\
    Utils.CheckPassword (AdminChangePasswordRequest.NewPassword req)
                        (User.PasswordHash user) = true /\
    (NoDup (map User.ID (users (db w))) ->
     exists before after : list User.t,
       users (db w) = (before ++ old :: after)%list /\
       save User.ID String.eqb user (users (db w)) = (before ++ user :: after)%list).
Proof.
  intros Hok.
  destruct (ChangeUserPassword_Ok id req w Hok)
    as (old & hash & Hin & Hid & Hpolicy & Hhash & ->).
  cbn [db set_users users ru_infos cells operation_records].
  eexists old, _. split; [exact Hin |]. split; [exact Hid |].
  do 9 (split; [reflexivity |]).
  split; [apply Password.validatePassword_accepts_iff; exact Hpolicy |].
  split; [exact (compare_generated _ _ _ Hhash) |].
  intros Hnd.
  destruct (save_replaces (UserFields.set_UpdatedAt (now w (ticks w))
                             (UserFields.set_PasswordHash hash old))
                          (users (db w)) old Hnd Hin eq_refl)
    as (before & after & H1 & H2 & _).
  exists before, after. split; assumption.
Qed.

#[local] Instance user_newest_first_total : Total user_newest_first.
Proof. intros a b. unfold user_newest_first. lia. Qed.

#[local] Instance user_newest_first_trans : Transitive user_newest_first.
Proof. intros a b c. unfold user_newest_first. lia. Qed.

(** The list of accounts: every account once, newest first, as the
    projection that carries no hash; the call writes nothing. *)
Lemma GetAllUsers_lists_every_account (w : World) (resp : list UserResponse.t) :
  fst (GetAllUsers w) = Ok resp ->
  exists sorted : list User.t,
    resp = map userResponse sorted /\
    sorted ≡ₚ users (db w) /\
    StronglySorted user_newest_first sorted /\
    db (snd (GetAllUsers w)) = db w.
Proof.
  unfold GetAllUsers, GetAll, bind. rewrite statement_run.
  destruct (fault w (stmts w)); [discriminate |].
  cbn [fst snd ret db sent]. intros [= <-].
  exists (merge_sort user_newest_first (users (db w))).
  split; [reflexivity |]. split; [apply merge_sort_Permutation |].
  split; [apply StronglySorted_merge_sort; typeclasses eauto | reflexivity].
Qed.

End Facts.
End AdminServiceFacts.

(** ** Registration, login and the session *)

Module AuthServiceFacts.
Import UserRepositoryOps UserRepositoryFacts AuthServiceOps AdminServiceFacts.

Lemma find_existsb_false {A} (f : A -> bool) (l : list A) :
  existsb f l = false -> List.find f l = None.
Proof. rewrite existsb_find. destruct (List.find f l); [discriminate | reflexivity]. Qed.

(** The first row with a property, when no row before it has it. *)
Lemma find_middle {A} (f : A -> bool) (before after : list A) (x : A) :
  (forall r, In r before -> f r = false) -> f x = true ->
  List.find f (before ++ x :: after) = Some x.
Proof.
  intros Hb Hx. induction before as [|a before IH]; simpl.
  - rewrite Hx. reflexivity.
  - rewrite (Hb a (or_introl eq_refl)). apply IH. intros r Hr. apply Hb. right. exact Hr.
Qed.

Section Facts.
Context {P : Primitives} {E : Entropy}.

(** What [Login] comes to when the store answers. *)
Lemma Login_run (s : AuthService.t) (req : LoginRequest.t) (w : World) :
  fault w (stmts w) = None ->
  AuthService.Login s req w =
  match List.find (fun u => String.eqb (User.Email u) (LoginRequest.Email req))
                  (users (db w)) with
  | None => (Err AuthService.invalidCredentials, sent (db w) w)
  | Some user =>
      if Utils.CheckPassword (LoginRequest.Password req) (User.PasswordHash user)
      then (Ok (AuthResponse.mk (userResponse user)
                  (UtilsFacts.issuedToken user (AuthService.jwtSecret s)
                     (AuthService.jwtTTL s) (sent (db w) w))),
            ticked (ticked (sent (db w) w)))
      else (Err AuthService.invalidCredentials, sent (db w) w)
  end.
Proof.
  intros Hok. unfold AuthService.Login, bind. rewrite AuthService.FindByEmail_run, Hok.
  destruct (List.find _ _) as [user |]; [| reflexivity].
  destruct (Utils.CheckPassword _ _); reflexivity.
Qed.

(** X13.  While the store answers, [Login] succeeds exactly when an account
    holds the email and the password verifies against the hash stored for
    it (the first such account, should there be several); the answer then
    carries that account and a token issued for it.  Whatever the outcome,
    [Login] writes nothing. *)
Theorem Login_succeeds_iff_password_verifies (s : AuthService.t) (req : LoginRequest.t)
    (w : World) :
  fault w (stmts w) = None ->
  (forall resp,
     fst (AuthService.Login s req w) = Ok resp <->
     exists user,
       List.find (fun u => String.eqb (User.Email u) (LoginRequest.Email req))
                 (users (db w)) = Some user /\
       Utils.CheckPassword (LoginRequest.Password req) (User.PasswordHash user) = true /\
       resp = AuthResponse.mk (userResponse user)
                (UtilsFacts.issuedToken user (AuthService.jwtSecret s)
                   (AuthService.jwtTTL s) (sent (db w) w))) /\
  db (snd (AuthService.Login s req w)) = db w.
Proof.
  intros Hok. rewrite (Login_run s req w Hok).
  destruct (List.find _ _) as [user |].
  - destruct (Utils.CheckPassword _ _) eqn:Hpw; (split; [| reflexivity]); intros resp; split.
    + intros [= <-]. exists user. repeat split. exact Hpw.
    + intros (u & [= <-] & _ & ->). reflexivity.
    + discriminate.
    + intros (u & [= <-] & Hpw' & _). congruence.
  - split; [| reflexivity]. intros resp. split; [discriminate |].
    intros (u & Hu & _). discriminate.
Qed.

(** What [Register] comes to, step by step. *)
Lemma Register_run (s : AuthService.t) (req : RegisterRequest.t) (w : World) :
  Register s req w =
  match fault w (stmts w) with
  | Some msg => (Err (wrap "failed to check email" (wrap "failed to check email existence" msg)),
                 sent (db w) w)
  | None =>
      let w1 := sent (db w) w in
      if existsb (fun u => String.eqb (User.Email u) (RegisterRequest.Email req))
                 (users (db w))
      then (Err "user with this email already exists", w1)
      else
        match bcrypt_Generate w1 (RegisterRequest.Password req) with
        | Err e => (Err (wrap "failed to hash password" (wrap "failed to hash password" e)), w1)
        | Ok passwordHash =>
            let c :=
              Create (User.mk EmptyString (RegisterRequest.Name req)
                        (RegisterRequest.Email req) passwordHash RoleEngineer
                        zeroTime zeroTime) w1 in
            match snd (fst c) with
            | Err e => (Err (wrap "failed to create user" e), snd c)
            | Ok _ =>
                (Ok (AuthResponse.mk (userResponse (fst (fst c)))
                       (UtilsFacts.issuedToken (fst (fst c)) (AuthService.jwtSecret s)
                          (AuthService.jwtTTL s) (snd c))),
                 ticked (ticked (snd c)))
            end
        end
  end.
Proof.
  unfold Register, bind. repo_step.
  destruct (fault w (stmts w)); [reflexivity |].
  destruct (existsb _ _); [reflexivity |].
  rewrite HashPassword_run.
  destruct (bcrypt_Generate _ _); [| reflexivity].
  destruct (Create _ _) as [[usr [x | e]] w2]; reflexivity.
Qed.

(** A successful [Register] created the row and issued the token. *)
Lemma Register_Ok (s : AuthService.t) (req : RegisterRequest.t) (w : World)
    (resp : AuthResponse.t) :
  fst (Register s req w) = Ok resp ->
  exists (hash : string) (user : User.t),
    bcrypt_Generate (sent (db w) w) (RegisterRequest.Password req) = Ok hash /\
    user = prepared (User.mk EmptyString (RegisterRequest.Name req)
                       (RegisterRequest.Email req) hash RoleEngineer zeroTime zeroTime)
                    (sent (db w) w) /\
    existsb (fun u => String.eqb (User.Email u) (RegisterRequest.Email req))
            (users (db w)) = false /\
    existsb (fun r => String.eqb (User.ID r) (User.ID user)
                      || String.eqb (User.Email r) (User.Email user)) (users (db w)) = false /\
    db (snd (Register s req w)) = set_users (users (db w) ++ [user]) (db w) /\
    resp = AuthResponse.mk (userResponse user)
             (UtilsFacts.issuedToken user (AuthService.jwtSecret s) (AuthService.jwtTTL s)
                (sent (set_users (users (db w) ++ [user]) (db w))
                      (ticked (sent (db w) w)))).
Proof.
  rewrite Register_run.
  destruct (fault w (stmts w)); [discriminate |]. cbv zeta.
  destruct (existsb _ (users (db w))) eqn:Hexists; [discriminate |].
  destruct (bcrypt_Generate _ _) as [hash | e] eqn:Hhash; [| discriminate].
  rewrite Create_run. cbv zeta. cbn [fault stmts sent db].
  destruct (fault w (S (stmts w))); [discriminate |].
  match goal with
  | |- context [existsb ?f (users (db w))] =>
      destruct (existsb f (users (db w))) eqn:Hfresh; [discriminate |]
  end.
  cbn [fst snd]. intros [= <-]. exists hash. eexists. repeat split; assumption.
Qed.

(** X14.  An account that [Register] reports created is one new row at the end
    of the users table and nothing else.  Its role is engineer, whatever the
    request; it carries the name and the email asked for and a hash that
    verifies the password asked for; no account had the email or the new id
    before; the table's constraints still hold.  The answer carries the new
    account and a token issued for it, at the reading of the clock that
    follows the one that dated the row. *)
Theorem Register_creates_an_engineer_account `{!BcryptLaws P E}
    (s : AuthService.t) (req : RegisterRequest.t) (w : World) (resp : AuthResponse.t) :
  fst (Register s req w) = Ok resp ->
  exists (user : User.t) (w2 : World),
    users (db (snd (Register s req w))) = (users (db w) ++ [user])%list /\
    ru_infos (db (snd (Register s req w))) = ru_infos (db w) /\
    cells (db (snd (Register s req w))) = cells (db w) /\
    operation_records (db (snd (Register s req w))) = operation_records (db w) /\
    User.Role user = RoleEngineer /\
    User.Name user = RegisterRequest.Name req /\
    User.Email user = RegisterRequest.Email req /\
    User.CreatedAt user = now w (ticks w) /\
    Utils.CheckPassword (RegisterRequest.Password req) (User.PasswordHash user) = true /\
    AuthResponse.User resp = userResponse user /\
    AuthResponse.Token resp
      = UtilsFacts.issuedToken user (AuthService.jwtSecret s) (AuthService.jwtTTL s) w2 /\
    now w2 = now w /\ ticks w2 = S (ticks w) /\
    (forall r, In r (users (db w)) ->
               User.Email r <> User.Email user /\ User.ID r <> User.ID user) /\
    (users_consistent (users (db w)) ->
     users_consistent (users (db (snd (Register s req w))))).
Proof.
  intros Hok.
  destruct (Register_Ok s req w resp Hok)
    as (hash & user & Hhash & Huser & _ & Hfresh & Hdb & ->).
  exists user. eexists. rewrite Hdb.
  cbn [db set_users users ru_infos cells operation_records AuthResponse.User
       AuthResponse.Token].
  do 4 (split; [reflexivity |]).
  destruct (prepared_fields
              (User.mk EmptyString (RegisterRequest.Name req) (RegisterRequest.Email req)
                 hash RoleEngineer zeroTime zeroTime) (sent (db w) w))
    as (Hn & He & Hp & Hr).
  rewrite <- Huser in Hn, He, Hp, Hr.
  cbn [User.Name User.Email User.PasswordHash User.Role] in Hn, He, Hp, Hr.
  split; [exact Hr |]. split; [exact Hn |]. split; [exact He |].
  split; [rewrite Huser; reflexivity |].
  split; [unfold Utils.CheckPassword; rewrite Hp; exact (compare_generated _ _ _ Hhash) |].
  do 4 (split; [reflexivity |]).
  split.
  - intros r Hr'. rewrite existsb_false_forall in Hfresh.
    specialize (Hfresh r Hr'). apply orb_false_iff in Hfresh as [H1 H2].
    apply String.eqb_neq in H1, H2. split; assumption.
  - intros Hcons. exact (insert_consistent user _ Hcons Hfresh).
Qed.

(** X15.  [Register] does not apply the password policy (the binding of
    the request asks for six characters, and nothing asks for a special
    one): while the store answers, it creates the account for any password
    bcrypt takes, as soon as no account holds the email and the id drawn is
    not in use. *)
Theorem Register_applies_no_password_policy (s : AuthService.t) (req : RegisterRequest.t)
    (w : World) (hash : string) :
  fault w (stmts w) = None -> fault w (S (stmts w)) = None ->
  (forall r, In r (users (db w)) ->
             User.Email r <> RegisterRequest.Email req /\
             User.ID r <> uuid_New (sent (db w) w)) ->
  bcrypt_Generate (sent (db w) w) (RegisterRequest.Password req) = Ok hash ->
  exists resp,
    fst (Register s req w) = Ok resp /\
    AuthResponse.User resp
      = UserResponse.mk (uuid_New (sent (db w) w)) (RegisterRequest.Name req)
          (RegisterRequest.Email req) RoleEngineer (now w (ticks w)).
Proof.
  intros Hok1 Hok2 Hfree Hhash. rewrite Register_run, Hok1. cbv zeta.
  assert (Hex : existsb (fun u => String.eqb (User.Email u) (RegisterRequest.Email req))
                  (users (db w)) = false).
  { apply existsb_false_forall. intros r Hr. apply String.eqb_neq. apply (Hfree r Hr). }
  rewrite Hex, Hhash, Create_run. cbv zeta. cbn [fault stmts sent db]. rewrite Hok2.
  match goal with
  | |- context [existsb ?f (users (db w))] =>
      assert (Hfresh : existsb f (users (db w)) = false)
  end.
  { apply existsb_false_forall. intros r Hr. destruct (Hfree r Hr) as [He Hi].
    apply orb_false_iff. split; apply String.eqb_neq; assumption. }
  rewrite Hfresh. eexists. split; reflexivity.
Qed.

(** An error of [Register] means nothing was written, and an email that
    an account holds is refused as a conflict whenever the store answers. *)
Lemma Register_refusals (s : AuthService.t) (req : RegisterRequest.t) (w : World) :
  (forall e, fst (Register s req w) = Err e -> db (snd (Register s req w)) = db w) /\
  (fault w (stmts w) = None ->
   (exists holder, In holder (users (db w)) /\
                   User.Email holder = RegisterRequest.Email req) ->
   fst (Register s req w) = Err "user with this email already exists").
Proof.
  rewrite Register_run. split.
  - intros e. repeat case_run; try reflexivity; try discriminate.
    rewrite Create_run. cbv zeta. cbn [fault stmts sent db].
    repeat case_run; try reflexivity; discriminate.
  - intros Hok (holder & Hin & Hemail). rewrite Hok. cbv zeta.
    assert (Hex : existsb (fun u => String.eqb (User.Email u) (RegisterRequest.Email req))
                    (users (db w)) = true).
    { apply existsb_exists. exists holder. split; [exact Hin |].
      apply String.eqb_eq. exact Hemail. }
    rewrite Hex. reflexivity.
Qed.

(** X16.  Whoever registered can log in: on the users table [Register] left,
    and while the store answers, [Login] with the email and the password
    registered succeeds and answers with the account created. *)
Theorem registered_account_logs_in `{!BcryptLaws P E}
    (s s' : AuthService.t) (req : RegisterRequest.t) (w w' : World)
    (resp : AuthResponse.t) :
  fst (Register s req w) = Ok resp ->
  users (db w') = users (db (snd (Register s req w))) ->
  fault w' (stmts w') = None ->
  exists resp',
    fst (AuthService.Login s'
           (LoginRequest.mk (RegisterRequest.Email req) (RegisterRequest.Password req)) w')
      = Ok resp' /\
    AuthResponse.User resp' = AuthResponse.User resp.
Proof.
  intros Hreg Htable Hok.
  destruct (Register_Ok s req w resp Hreg)
    as (hash & user & Hhash & Huser & Hex & _ & Hdb & ->).
  rewrite Hdb in Htable. cbn [db set_users users] in Htable.
  destruct (prepared_fields
              (User.mk EmptyString (RegisterRequest.Name req) (RegisterRequest.Email req)
                 hash RoleEngineer zeroTime zeroTime) (sent (db w) w))
    as (_ & He & Hp & _).
  rewrite <- Huser in He, Hp. cbn [User.Email User.PasswordHash] in He, Hp.
  rewrite (Login_run s' _ w' Hok), Htable. cbn [LoginRequest.Email LoginRequest.Password].
  assert (Hfind : List.find (fun u => String.eqb (User.Email u) (RegisterRequest.Email req))
                    (users (db w) ++ [user]) = Some user).
  { apply find_middle.
    - apply existsb_false_forall. exact Hex.
    - apply String.eqb_eq. exact He. }
  rewrite Hfind. unfold Utils.CheckPassword. rewrite Hp, (compare_generated _ _ _ Hhash).
  eexists. split; reflexivity.
Qed.

(** A successful [Login] was answered by the store. *)
Lemma Login_Ok_answered (s : AuthService.t) (req : LoginRequest.t) (w : World)
    (resp : AuthResponse.t) :
  fst (AuthService.Login s req w) = Ok resp -> fault w (stmts w) = None.
Proof.
  unfold AuthService.Login, bind. rewrite AuthService.FindByEmail_run.
  destruct (fault w (stmts w)); [discriminate | reflexivity].
Qed.

Lemma GetCurrentUser_run (id : string) (w : World) :
  GetCurrentUser id w =
  (match fault w (stmts w) with
   | Some msg => Err (wrap "failed to find user" (wrap "failed to find user by id" msg))
   | None =>
       match List.find (fun u => String.eqb (User.ID u) id) (users (db w)) with
       | Some user => Ok (userResponse user)
       | None => Err "user not found"
       end
   end, sent (db w) w).
Proof.
  unfold GetCurrentUser, bind. rewrite FindByID_run.
  destruct (fault w (stmts w)); [reflexivity |].
  destruct (List.find _ _); reflexivity.
Qed.

(** X17.  The session, end to end.  The token a successful [Login] answers
    with is accepted under the service's secret at every clock reading before
    its expiry, with the id, email and role of the account that logged in as
    its claims; and asking for the current user by the id in the claims gives
    back, while the users table is the same and ids are unique in it, the
    account the login answered with.  The JSON codec is assumed to round-trip
    the header and the claims issued for the account found under the email
    of the request, and nothing else. *)
Theorem session_round_trip `{!SegmentLaws P}
    (s : AuthService.t) (req : LoginRequest.t) (w w' w'' : World)
    (user : User.t) (resp : AuthResponse.t) :
  json_Unmarshal_Header (json_Marshal_Header Utils.HS256Header) = Some Utils.HS256Header ->
  List.find (fun u => String.eqb (User.Email u) (LoginRequest.Email req)) (users (db w))
    = Some user ->
  json_Unmarshal_Claims
    (json_Marshal_Claims (Utils.issuedClaims user (AuthService.jwtTTL s) (sent (db w) w)))
    = Some (Utils.issuedClaims user (AuthService.jwtTTL s) (sent (db w) w)) ->
  fst (AuthService.Login s req w) = Ok resp ->
  now w' (ticks w') < JWT.instant (JWT.NewNumericDate (now w (ticks w) + AuthService.jwtTTL s)) ->
  exists claims,
    fst (Utils.ValidateToken (AuthResponse.Token resp) (AuthService.jwtSecret s) w')
      = Ok claims /\
    Claims.UserID claims = UserResponse.ID (AuthResponse.User resp) /\
    Claims.Email claims = UserResponse.Email (AuthResponse.User resp) /\
    Claims.Role claims = UserResponse.Role (AuthResponse.User resp) /\
    (NoDup (map User.ID (users (db w))) ->
     users (db w'') = users (db w) ->
     fault w'' (stmts w'') = None ->
     fst (GetCurrentUser (Claims.UserID claims) w'') = Ok (AuthResponse.User resp)).
Proof.
  intros Hh Hfind Hc Hlogin Hnow.
  pose proof (Login_Ok_answered s req w resp Hlogin) as Hok.
  rewrite (Login_run s req w Hok), Hfind in Hlogin.
  destruct (Utils.CheckPassword _ _); [| discriminate].
  injection Hlogin as <-. cbn [AuthResponse.Token AuthResponse.User].
  exists (Utils.issuedClaims user (AuthService.jwtTTL s) (sent (db w) w)).
  split.
  - apply Utils.ValidateToken_Ok.
    apply (UtilsFacts.issued_accepted user _ _ (sent (db w) w) _ Hh Hc). exact Hnow.
  - do 3 (split; [reflexivity |]).
    intros Hnd Htable Hok''. rewrite GetCurrentUser_run, Hok'', Htable. cbn [fst].
    apply find_some in Hfind as [Hin _].
    destruct (List.find _ (users (db w))) as [u |] eqn:Hu.
    + apply find_by_id_In in Hu as [Huin Huid].
      rewrite (NoDup_map_inj User.ID (users (db w)) u user Hnd Huin Hin Huid). reflexivity.
    + apply (find_none _ _ Hu) in Hin. cbn in Hin.
      rewrite String.eqb_refl in Hin. discriminate.
Qed.

(** X18.  After the administrator changed a password, the new one logs in: on
    the users table [ChangeUserPassword] left, within its constraints before
    the change, [Login] with the account's email and the new password
    succeeds, while the store answers, and answers with the account whose
    id was given. *)
Theorem changed_password_logs_in `{!BcryptLaws P E}
    (s : AuthService.t) (id : string) (req : AdminChangePasswordRequest.t)
    (w w' : World) (old : User.t) :
  users_consistent (users (db w)) ->
  In old (users (db w)) -> User.ID old = id ->
  fst (AdminService.ChangeUserPassword id req w) = Ok tt ->
  users (db w') = users (db (snd (AdminService.ChangeUserPassword id req w))) ->
  fault w' (stmts w') = None ->
  exists resp,
    fst (AuthService.Login s
           (LoginRequest.mk (User.Email old) (AdminChangePasswordRequest.NewPassword req)) w')
      = Ok resp /\
    UserResponse.ID (AuthResponse.User resp) = id /\
    UserResponse.Email (AuthResponse.User resp) = User.Email old.
Proof.
  intros [Hids Hemails] Hin Hid Hchange Htable Hok.
  destruct (ChangeUserPassword_Ok id req w Hchange)
    as (old' & hash & Hin' & Hid' & _ & Hhash & Hdb).
  assert (old' = old) as ->.
  { apply (NoDup_map_inj User.ID (users (db w)) old' old Hids Hin' Hin). congruence. }
  rewrite Hdb in Htable. cbn [db set_users users] in Htable.
  set (user := UserFields.set_UpdatedAt (now w (ticks w))
                 (UserFields.set_PasswordHash hash old)) in *.
  destruct (save_replaces user (users (db w)) old Hids Hin eq_refl)
    as (before & after & Hsplit & Hsaved & _).
  rewrite Hsaved in Htable.
  rewrite (Login_run s _ w' Hok), Htable. cbn [LoginRequest.Email LoginRequest.Password].
  assert (Hfind : List.find (fun u => String.eqb (User.Email u) (User.Email old))
                    (before ++ user :: after) = Some user).
  { apply find_middle; [| apply String.eqb_eq; reflexivity].
    intros r Hr. apply String.eqb_neq. intros Heq.
    assert (Hrin : In r (users (db w))).
    { rewrite Hsplit. apply in_app_iff. left. exact Hr. }
    pose proof (NoDup_map_inj User.Email (users (db w)) r old Hemails Hrin Hin Heq) as ->.
    rewrite Hsplit, map_app in Hids. cbn [map] in Hids.
    apply NoDup_app in Hids as (_ & Hdisj & _).
    apply (Hdisj (User.ID old)); [apply list_elem_of_In, in_map; exact Hr | left]. }
  rewrite Hfind. unfold Utils.CheckPassword.
  cbn [User.PasswordHash user UserFields.set_UpdatedAt UserFields.set_PasswordHash].
  rewrite (compare_generated _ _ _ Hhash).
  eexists. split; [reflexivity |]. split; [exact Hid | reflexivity].
Qed.

(** X19.  A deleted account cannot log in: on the users table [DeleteUser]
    left, within its constraints before the deletion, [Login] with the
    account's email is refused as invalid credentials whatever the
    password. *)
Theorem deleted_account_cannot_log_in
    (s : AuthService.t) (id password : string) (w w' : World) (old : User.t) :
  users_consistent (users (db w)) ->
  In old (users (db w)) -> User.ID old = id ->
  fst (AdminService.DeleteUser id w) = Ok tt ->
  users (db w') = users (db (snd (AdminService.DeleteUser id w))) ->
  fault w' (stmts w') = None ->
  fst (AuthService.Login s (LoginRequest.mk (User.Email old) password) w')
    = Err "invalid email or password".
Proof.
  intros [_ Hemails] Hin Hid Hdel Htable Hok.
  destruct (DeleteUser_Ok id w Hdel) as [_ Hdb].
  rewrite Hdb in Htable. cbn [db set_users users] in Htable.
  rewrite (Login_run s _ w' Hok), Htable. cbn [LoginRequest.Email].
  destruct (List.find _ (List.filter _ _)) as [r |] eqn:Hr; [| reflexivity].
  apply find_some in Hr as [Hrin Hremail].
  apply filter_In in Hrin as [Hrin Hrid].
  apply String.eqb_eq in Hremail. apply negb_true_iff, String.eqb_neq in Hrid.
  pose proof (NoDup_map_inj User.Email (users (db w)) r old Hemails Hrin Hin Hremail) as ->.
  contradiction.
Qed.

End Facts.
End AuthServiceFacts.

(** ** The registry of units and cells, and the ledger *)

Module SaveFacts.
Section Save.
Context {A K : Type} (pk : A -> K) (eqb : K -> K -> bool).
Hypothesis eqb_eq : forall a b, eqb a b = true <-> a = b.

(** Every row after a save is the row saved or a row that was there. *)
Lemma save_rows (row : A) (table : list A) (r : A) :
  In r (save pk eqb row table) -> r = row \/ (In r table /\ pk r <> pk row).
Proof.
  unfold save. destruct (existsb _ table) eqn:Hex.
  - intros Hr. apply in_map_iff in Hr as (x & Hx & Hin).
    destruct (eqb (pk x) (pk row)) eqn:Hk; [left; congruence |].
    right. subst r. split; [exact Hin |]. intros Heq. apply eqb_eq in Heq. congruence.
  - intros Hr. apply in_app_iff in Hr as [Hr | [<- | []]]; [| left; reflexivity].
    right. split; [exact Hr |]. intros Heq. apply eqb_eq in Heq.
    rewrite UserRepositoryFacts.existsb_false_forall in Hex.
    rewrite (Hex r Hr) in Heq. discriminate.
Qed.

(** A row with another key is after the save exactly if it was before. *)
Lemma save_other (row : A) (table : list A) (r : A) :
  pk r <> pk row -> (In r (save pk eqb row table) <-> In r table).
Proof.
  intros Hne. split.
  - intros Hr. apply save_rows in Hr as [-> | [Hr _]]; [contradiction | exact Hr].
  - intros Hr. unfold save. destruct (existsb _ table).
    + apply in_map_iff. exists r. split; [| exact Hr].
      destruct (eqb (pk r) (pk row)) eqn:Hk; [| reflexivity].
      apply eqb_eq in Hk. contradiction.
    + apply in_app_iff. left. exact Hr.
Qed.

(** The row saved is in the table afterwards. *)
Lemma save_In (row : A) (table : list A) : In row (save pk eqb row table).
Proof.
  unfold save. destruct (existsb _ table) eqn:Hex.
  - apply existsb_exists in Hex as (x & Hx & Hk).
    apply in_map_iff. exists x. rewrite Hk. auto.
  - apply in_app_iff. right. left. reflexivity.
Qed.

(** Saving a row whose key is in the table keeps the column of keys. *)
Lemma save_keys (row : A) (table : list A) :
  existsb (fun r => eqb (pk r) (pk row)) table = true ->
  map pk (save pk eqb row table) = map pk table.
Proof.
  intros Hex. unfold save. rewrite Hex, map_map. apply map_ext. intros r.
  destruct (eqb (pk r) (pk row)) eqn:Hk; [| reflexivity].
  apply eqb_eq in Hk. congruence.
Qed.

End Save.
End SaveFacts.

Module RuServiceFacts.
Import RuRepository RuRepositoryOps RuServiceOps.

Lemma Z_eqb_iff (a b : Z) : (a =? b) = true <-> a = b.
Proof. apply Z.eqb_eq. Qed.

Lemma String_eqb_iff (a b : string) : String.eqb a b = true <-> a = b.
Proof. apply String.eqb_eq. Qed.

(** The fields of a cell that an update of its description has no
    business with. *)
Definition operational (c : Cell.t) :=
  (Cell.ID c, Cell.Number c, Cell.Type_ c, Cell.Status c, Cell.VoltageLevel c,
   Cell.Power c, Cell.LastOperation c, Cell.IsGrounded c,
   Cell.LastGroundedOperation c, Cell.TransformerNumber c, Cell.BusSection c,
   Cell.Current c, Cell.Temperature c, Cell.Load_ c, Cell.RuID c, Cell.CreatedAt c).

(** What [UpdateCellInfo] comes to, step by step. *)
Lemma UpdateCellInfo_run (ruID : string) (cellID : Z) (req : UpdateCellInfoRequest.t)
    (w : World) :
  UpdateCellInfo ruID cellID req w =
  match fault w (stmts w) with
  | Some msg =>
      (Err (wrap "cell not found" (wrap "failed to get cell by ID" msg)), sent (db w) w)
  | None =>
      match List.find (cell_is cellID ruID) (cells (db w)) with
      | None =>
          (Err (wrap "cell not found" (wrap "failed to get cell by ID" ErrRecordNotFound)),
           sent (db w) w)
      | Some cell =>
          let cell' :=
            Cell.set_UpdatedAt (now w (ticks w))
              (CellFields.set_Voltage (UpdateCellInfoRequest.Voltage req)
                 (CellFields.set_Description (UpdateCellInfoRequest.Description req)
                    (CellFields.set_Name (UpdateCellInfoRequest.Name req) cell))) in
          match fault w (S (stmts w)) with
          | Some msg =>
              (Err (wrap "failed to update cell info" (wrap "failed to update cell" msg)),
               sent (db w) (ticked (sent (db w) w)))
          | None =>
              (Ok cell',
               sent (set_cells (save Cell.ID Z.eqb cell' (cells (db w))) (db w))
                    (ticked (sent (db w) w)))
          end
      end
  end.
Proof.
  unfold UpdateCellInfo, bind. rewrite GetCellByID_run.
  destruct (fault w (stmts w)); [reflexivity |].
  destruct (List.find _ _) as [cell |]; [| reflexivity].
  unfold ret. rewrite time_Now_run. cbv beta iota zeta.
  rewrite UpdateCell_run. cbn [fault stmts sent ticked db now ticks].
  destruct (fault w (S (stmts w))); reflexivity.
Qed.

(** X20.  A cell that [UpdateCellInfo] reports updated is the row of that id in
    that unit with its name, description and voltage replaced by the ones
    asked for and its modification time rewritten: status, grounding, the
    operation stamps and every other field are as they were.  The table has
    the new row for that id, every row with another id is kept, and neither
    the ledger nor another table is written. *)
Theorem UpdateCellInfo_rewrites_the_description (ruID : string) (cellID : Z)
    (req : UpdateCellInfoRequest.t) (w : World) (cell' : Cell.t) :
  fst (UpdateCellInfo ruID cellID req w) = Ok cell' ->
  exists cell,
    In cell (cells (db w)) /\ Cell.ID cell = cellID /\ Cell.RuID cell = ruID /\
    Cell.Name cell' = UpdateCellInfoRequest.Name req /\
    Cell.Description cell' = UpdateCellInfoRequest.Description req /\
    Cell.Voltage cell' = UpdateCellInfoRequest.Voltage req /\
    operational cell' = operational cell /\
    cells (db (snd (UpdateCellInfo ruID cellID req w)))
      = save Cell.ID Z.eqb cell' (cells (db w)) /\
    List.find (cell_is cellID ruID) (cells (db (snd (UpdateCellInfo ruID cellID req w))))
      = Some cell' /\
    (forall r, Cell.ID r <> cellID ->
               (In r (cells (db (snd (UpdateCellInfo ruID cellID req w))))
                <-> In r (cells (db w)))) /\
    users (db (snd (UpdateCellInfo ruID cellID req w))) = users (db w) /\
    ru_infos (db (snd (UpdateCellInfo ruID cellID req w))) = ru_infos (db w) /\
    operation_records (db (snd (UpdateCellInfo ruID cellID req w)))
      = operation_records (db w).
Proof.
  rewrite UpdateCellInfo_run.
  destruct (fault w (stmts w)); [discriminate |].
  destruct (List.find _ _) as [cell |] eqn:Hfind; [| discriminate].
  cbv zeta. destruct (fault w (S (stmts w))); [discriminate |].
  cbn [fst snd db sent set_cells cells users ru_infos operation_records].
  intros [= <-]. exists cell.
  apply find_some in Hfind as [Hin Hc].
  unfold cell_is in Hc. apply andb_true_iff in Hc as [Hid Hru].
  apply Z.eqb_eq in Hid. apply String.eqb_eq in Hru.
  split; [exact Hin |]. split; [exact Hid |]. split; [exact Hru |].
  do 4 (split; [reflexivity |]). split; [reflexivity |].
  split; [apply find_after_save; assumption |].
  split; [| repeat split].
  intros r Hne. apply (SaveFacts.save_other Cell.ID Z.eqb Z_eqb_iff).
  cbn [Cell.ID Cell.set_UpdatedAt CellFields.set_Voltage CellFields.set_Description
       CellFields.set_Name]. congruence.
Qed.

(** An update of a description that names no cell of the unit, or that
    the store refuses, fails and writes nothing. *)
Lemma UpdateCellInfo_Err (ruID : string) (cellID : Z) (req : UpdateCellInfoRequest.t)
    (w : World) (e : string) :
  fst (UpdateCellInfo ruID cellID req w) = Err e ->
  db (snd (UpdateCellInfo ruID cellID req w)) = db w.
Proof.
  rewrite UpdateCellInfo_run.
  destruct (fault w (stmts w)); [reflexivity |].
  destruct (List.find _ _); [| reflexivity].
  cbv zeta. destruct (fault w (S (stmts w))); [reflexivity | discriminate].
Qed.

(** X21.  A status update writes one row of the cells table and nothing else:
    the row of the id given is the cell returned, every row with another id
    is kept, and neither the ledger nor another table is written, so a
    change of status leaves no record in the history by itself.  When the
    update fails, nothing at all is written. *)
Theorem UpdateCellStatus_writes_one_cell_and_no_history {C : Calendar}
    (ruID : string) (cellID : Z) (req : UpdateCellStatusRequest.t) (w : World) :
  (forall cell',
     fst (RuService.UpdateCellStatus ruID cellID req w) = Ok cell' ->
     Cell.ID cell' = cellID /\ Cell.RuID cell' = ruID /\
     cells (db (snd (RuService.UpdateCellStatus ruID cellID req w)))
       = save Cell.ID Z.eqb cell' (cells (db w)) /\
     (forall r, Cell.ID r <> cellID ->
                (In r (cells (db (snd (RuService.UpdateCellStatus ruID cellID req w))))
                 <-> In r (cells (db w)))) /\
     users (db (snd (RuService.UpdateCellStatus ruID cellID req w))) = users (db w) /\
     ru_infos (db (snd (RuService.UpdateCellStatus ruID cellID req w))) = ru_infos (db w) /\
     operation_records (db (snd (RuService.UpdateCellStatus ruID cellID req w)))
       = operation_records (db w)) /\
  (forall e,
     fst (RuService.UpdateCellStatus ruID cellID req w) = Err e ->
     db (snd (RuService.UpdateCellStatus ruID cellID req w)) = db w).
Proof.
  unfold RuService.UpdateCellStatus, bind. rewrite GetCellByID_run.
  destruct (fault w (stmts w)); [split; [discriminate | reflexivity] |].
  destruct (List.find _ _) as [cell |] eqn:Hfind; [| split; [discriminate | reflexivity]].
  apply find_some in Hfind as [Hin Hc].
  unfold cell_is in Hc. apply andb_true_iff in Hc as [Hid Hru].
  apply Z.eqb_eq in Hid. apply String.eqb_eq in Hru.
  destruct (UpdateCellStatusRequest.IsGrounded req) as [g |];
    unfold ret; rewrite !time_Now_run; cbv beta iota zeta;
    rewrite UpdateCell_run; cbn [fault stmts sent ticked];
    (destruct (fault w (S (stmts w))); [split; [discriminate | reflexivity] |]);
    (split; [| discriminate]); intros cell' [= <-];
    cbn [snd db sent set_cells cells users ru_infos operation_records];
    (split; [exact Hid |]); (split; [exact Hru |]); (split; [reflexivity |]);
    (split; [| repeat split]);
    intros r Hne; apply (SaveFacts.save_other Cell.ID Z.eqb Z_eqb_iff);
    cbn [Cell.ID Cell.set_UpdatedAt Cell.set_LastOperation Cell.set_Status
         Cell.set_IsGrounded Cell.set_LastGroundedOperation]; congruence.
Qed.

Section Ledger.
Context {E : Entropy}.

(** What [AddHistoryRecord] comes to, step by step. *)
Lemma AddHistoryRecord_run (ruID : string) (req : AddHistoryRecordRequest.t) (w : World) :
  RuServiceOps.AddHistoryRecord ruID req w =
  let record :=
    OperationRecord.mk (uuid_New w)
      (AddHistoryRecordRequest.CellNumber req) (AddHistoryRecordRequest.CellName req)
      (AddHistoryRecordRequest.Action req) (AddHistoryRecordRequest.Operator req)
      (AddHistoryRecordRequest.Timestamp req) (AddHistoryRecordRequest.Reason req)
      (AddHistoryRecordRequest.DocumentType req) (AddHistoryRecordRequest.OrderNumber req)
      (AddHistoryRecordRequest.WorkOrderNumber req) (AddHistoryRecordRequest.StartDate req)
      (AddHistoryRecordRequest.EndDate req) (AddHistoryRecordRequest.ResponsiblePerson req)
      (AddHistoryRecordRequest.Comment req) (AddHistoryRecordRequest.Severity req)
      ruID (now w (ticks w)) (now w (S (ticks w))) in
  match fault w (stmts w) with
  | Some msg =>
      (Err (wrap "failed to add history record" (wrap "failed to add history record" msg)),
       sent (db w) (ticked (ticked w)))
  | None =>
      if existsb (fun x => String.eqb (OperationRecord.ID x) (uuid_New w))
                 (operation_records (db w))
      then (Err (wrap "failed to add history record"
                   (wrap "failed to add history record" unique_violation)),
            sent (db w) (ticked (ticked w)))
      else (Ok record,
            sent (set_operation_records (operation_records (db w) ++ [record]) (db w))
                 (ticked (ticked w)))
  end.
Proof.
  unfold RuServiceOps.AddHistoryRecord, RuRepositoryOps.AddHistoryRecord, bind, ret.
  rewrite !time_Now_run. cbv beta iota zeta. rewrite statement_run.
  cbn [fault stmts ticked db now ticks].
  destruct (fault w (stmts w)); [reflexivity |].
  unfold insert_record. cbn [OperationRecord.ID].
  destruct (existsb _ _); reflexivity.
Qed.

(** X22.  The ledger only grows, and only by what was asked.  A record that
    [AddHistoryRecord] reports added is one new row at the end of the
    ledger, every earlier row kept as it was; it belongs to the unit given,
    carries the request's fields unchanged, an id no earlier record had, and
    two successive clock readings as its creation and update instants.  No
    other table is written, and on an error nothing is. *)
Theorem AddHistoryRecord_appends_one_record (ruID : string)
    (req : AddHistoryRecordRequest.t) (w : World) :
  (forall record,
     fst (RuServiceOps.AddHistoryRecord ruID req w) = Ok record ->
     operation_records (db (snd (RuServiceOps.AddHistoryRecord ruID req w)))
       = (operation_records (db w) ++ [record])%list /\
     OperationRecord.RuID record = ruID /\
     (OperationRecord.CellNumber record, OperationRecord.CellName record,
      OperationRecord.Action record, OperationRecord.Operator record,
      OperationRecord.Timestamp record, OperationRecord.Reason record,
      OperationRecord.DocumentType record, OperationRecord.OrderNumber record,
      OperationRecord.WorkOrderNumber record, OperationRecord.StartDate record,
      OperationRecord.EndDate record, OperationRecord.ResponsiblePerson record,
      OperationRecord.Comment record, OperationRecord.Severity record)
     = (AddHistoryRecordRequest.CellNumber req, AddHistoryRecordRequest.CellName req,
        AddHistoryRecordRequest.Action req, AddHistoryRecordRequest.Operator req,
        AddHistoryRecordRequest.Timestamp req, AddHistoryRecordRequest.Reason req,
        AddHistoryRecordRequest.DocumentType req, AddHistoryRecordRequest.OrderNumber req,
        AddHistoryRecordRequest.WorkOrderNumber req, AddHistoryRecordRequest.StartDate req,
        AddHistoryRecordRequest.EndDate req, AddHistoryRecordRequest.ResponsiblePerson req,
        AddHistoryRecordRequest.Comment req, AddHistoryRecordRequest.Severity req) /\
     OperationRecord.CreatedAt record = now w (ticks w) /\
     OperationRecord.UpdatedAt record = now w (S (ticks w)) /\
     (forall r, In r (operation_records (db w)) ->
                OperationRecord.ID r <> OperationRecord.ID record) /\
     users (db (snd (RuServiceOps.AddHistoryRecord ruID req w))) = users (db w) /\
     ru_infos (db (snd (RuServiceOps.AddHistoryRecord ruID req w))) = ru_infos (db w) /\
     cells (db (snd (RuServiceOps.AddHistoryRecord ruID req w))) = cells (db w)) /\
  (forall e,
     fst (RuServiceOps.AddHistoryRecord ruID req w) = Err e ->
     db (snd (RuServiceOps.AddHistoryRecord ruID req w)) = db w).
Proof.
  rewrite AddHistoryRecord_run. cbv zeta.
  destruct (fault w (stmts w)); [split; [discriminate | reflexivity] |].
  destruct (existsb _ _) eqn:Hfresh; [split; [discriminate | reflexivity] |].
  split; [| discriminate]. intros record [= <-].
  cbn [snd db sent set_operation_records operation_records users ru_infos cells].
  do 5 (split; [reflexivity |]). split; [| repeat split].
  intros r Hr. rewrite UserRepositoryFacts.existsb_false_forall in Hfresh.
  apply String.eqb_neq. exact (Hfresh r Hr).
Qed.

(** The head of a list sorted newest first, when one of its elements is
    strictly newer than every other. *)
Lemma newest_heads (l : list OperationRecord.t) (x : OperationRecord.t) :
  StronglySorted newest_first l -> In x l ->
  (forall r, In r l -> r = x \/ OperationRecord.CreatedAt r < OperationRecord.CreatedAt x) ->
  exists rest, l = x :: rest.
Proof.
  intros Hs Hx Hnew. destruct l as [|h t]; [destruct Hx |].
  exists t. f_equal. destruct (Hnew h (or_introl eq_refl)) as [-> | Hlt]; [reflexivity |].
  destruct Hx as [-> | Hx]; [reflexivity |].
  apply StronglySorted_inv in Hs as [_ Hall].
  rewrite List.Forall_forall in Hall. specialize (Hall x Hx).
  unfold newest_first in Hall. lia.
Qed.

(** X23.  A record just added heads the history of its unit.  When every
    earlier record of the unit was created strictly before it, the history
    query on the ledger [AddHistoryRecord] left returns it first, for every
    bound; and the histories of the other units are what they were. *)
Theorem added_record_heads_the_history (ruID : string) (req : AddHistoryRecordRequest.t)
    (w w' : World) (record : OperationRecord.t) (N : Z) :
  fst (RuServiceOps.AddHistoryRecord ruID req w) = Ok record ->
  (forall r, In r (operation_records (db w)) -> OperationRecord.RuID r = ruID ->
             OperationRecord.CreatedAt r < now w (ticks w)) ->
  operation_records (db w')
    = operation_records (db (snd (RuServiceOps.AddHistoryRecord ruID req w))) ->
  fault w' (stmts w') = None ->
  (exists rest, fst (RuService.GetHistoryByRuID ruID N w') = Ok (record :: rest)) /\
  (forall other, other <> ruID -> history_of other (db w') = history_of other (db w)).
Proof.
  rewrite AddHistoryRecord_run. cbv zeta.
  destruct (fault w (stmts w)); [discriminate |].
  destruct (existsb _ _); [discriminate |].
  cbn [fst snd db sent set_operation_records operation_records].
  intros [= <-] Hnew Htable Hok.
  set (record := OperationRecord.mk _ _ _ _ _ _ _ _ _ _ _ _ _ _ _ _ _ _) in *.
  split.
  - unfold RuService.GetHistoryByRuID, bind. rewrite GetHistoryByRuID_run, Hok.
    cbn [fst].
    assert (Hhead : exists rest, history_of ruID (db w') = record :: rest).
    { pose proof (history_of_perm ruID (db w')) as Hperm.
      unfold records_of in Hperm. rewrite Htable, List.filter_app in Hperm.
      cbn [List.filter OperationRecord.RuID record] in Hperm.
      rewrite String.eqb_refl in Hperm.
      apply newest_heads; [apply history_of_sorted | |].
      - apply list_elem_of_In. rewrite Hperm. apply list_elem_of_In, in_app_iff.
        right. left. reflexivity.
      - intros r Hr. apply list_elem_of_In in Hr. rewrite Hperm in Hr.
        apply list_elem_of_In, in_app_iff in Hr as [Hr | [<- | []]]; [| left; reflexivity].
        right. apply filter_In in Hr as [Hr Hru]. apply String.eqb_eq in Hru.
        exact (Hnew r Hr Hru). }
    destruct Hhead as [rest Hrest]. rewrite Hrest.
    destruct (Z.gtb_spec N 0) as [Hpos | _]; [| exists rest; reflexivity].
    destruct (Z.to_nat N) as [|n] eqn:HN; [lia |].
    exists (take n rest). reflexivity.
  - intros other Hne. unfold history_of. rewrite Htable, List.filter_app.
    cbn [List.filter OperationRecord.RuID record].
    destruct (String.eqb_spec ruID other) as [Heq | _]; [congruence |].
    rewrite app_nil_r. reflexivity.
Qed.

End Ledger.

(** *** Units *)

(** What [UpdateRuStatus] comes to, step by step. *)
Lemma UpdateRuStatus_run (ruID status : string) (w : World) :
  UpdateRuStatus ruID status w =
  match fault w (stmts w) with
  | Some msg => (Err (wrap "failed to get RU" (wrap "failed to get RU by ID" msg)),
                 sent (db w) w)
  | None =>
      match List.find (fun ru => String.eqb (RUInfo.ID ru) ruID) (ru_infos (db w)) with
      | None => (Err (wrap "failed to get RU" (wrap "failed to get RU by ID" ErrRecordNotFound)),
                 sent (db w) w)
      | Some ru =>
          let ru' := RUInfo.set_UpdatedAt (now w (ticks w)) (RUInfoFields.set_Status status ru) in
          match fault w (S (stmts w)) with
          | Some msg =>
              (Err (wrap "failed to update RU status" (wrap "failed to update RU" msg)),
               sent (db w) (ticked (sent (db w) w)))
          | None =>
              (Ok ru',
               sent (set_ru_infos (save RUInfo.ID String.eqb ru' (ru_infos (db w))) (db w))
                    (ticked (sent (db w) w)))
          end
      end
  end.
Proof.
  unfold UpdateRuStatus, bind. rewrite GetRuByID_run.
  destruct (fault w (stmts w)); [reflexivity |].
  destruct (List.find _ _) as [ru |]; [| reflexivity].
  unfold ret. rewrite time_Now_run. cbv beta iota zeta.
  rewrite UpdateRu_run. cbn [fault stmts sent ticked db now ticks].
  destruct (fault w (S (stmts w))); reflexivity.
Qed.

(** X24.  A unit that [UpdateRuStatus] reports updated is the unit of that id
    with its status replaced by the one given, whatever string that is, and
    its modification time rewritten; its substation and every other field
    are as they were.  The table has the new row for that id, every row with
    another id is kept, no other table is written; and when the call fails,
    nothing is written. *)
Theorem UpdateRuStatus_rewrites_the_status (ruID status : string) (w : World) :
  (forall ru',
     fst (UpdateRuStatus ruID status w) = Ok ru' ->
     exists ru,
       In ru (ru_infos (db w)) /\ RUInfo.ID ru = ruID /\
       (forall t, RUInfo.set_UpdatedAt t ru'
                  = RUInfo.set_UpdatedAt t (RUInfoFields.set_Status status ru)) /\
       RUInfo.ID ru' = ruID /\ RUInfo.Status ru' = status /\
       RUInfo.SubstationID ru' = RUInfo.SubstationID ru /\
       ru_infos (db (snd (UpdateRuStatus ruID status w)))
         = save RUInfo.ID String.eqb ru' (ru_infos (db w)) /\
       In ru' (ru_infos (db (snd (UpdateRuStatus ruID status w)))) /\
       (forall r, RUInfo.ID r <> ruID ->
                  (In r (ru_infos (db (snd (UpdateRuStatus ruID status w))))
                   <-> In r (ru_infos (db w)))) /\
       users (db (snd (UpdateRuStatus ruID status w))) = users (db w) /\
       cells (db (snd (UpdateRuStatus ruID status w))) = cells (db w) /\
       operation_records (db (snd (UpdateRuStatus ruID status w)))
         = operation_records (db w)) /\
  (forall e,
     fst (UpdateRuStatus ruID status w) = Err e ->
     db (snd (UpdateRuStatus ruID status w)) = db w).
Proof.
  rewrite UpdateRuStatus_run.
  destruct (fault w (stmts w)); [split; [discriminate | reflexivity] |].
  destruct (List.find _ _) as [ru |] eqn:Hfind; [| split; [discriminate | reflexivity]].
  cbv zeta. destruct (fault w (S (stmts w))); [split; [discriminate | reflexivity] |].
  split; [| discriminate]. intros ru' [= <-].
  cbn [snd db sent set_ru_infos ru_infos users cells operation_records].
  apply find_some in Hfind as [Hin Hid]. apply String.eqb_eq in Hid.
  exists ru. split; [exact Hin |]. split; [exact Hid |].
  split; [intros t; reflexivity |]. split; [exact Hid |]. do 3 (split; [reflexivity |]).
  split; [apply (SaveFacts.save_In RUInfo.ID String.eqb) |].
  split; [| repeat split].
  intros r Hne. apply (SaveFacts.save_other RUInfo.ID String.eqb String_eqb_iff).
  cbn [RUInfo.ID RUInfo.set_UpdatedAt RUInfoFields.set_Status]. congruence.
Qed.

#[global] Instance cell_id_ascending_total : Total cell_id_ascending.
Proof. intros a b. unfold cell_id_ascending. lia. Qed.

#[global] Instance cell_id_ascending_trans : Transitive cell_id_ascending.
Proof. intros a b c. unfold cell_id_ascending. lia. Qed.

(** X25.  The view of a unit.  When [GetRuByID] of the service succeeds, the
    unit returned is a row with the id asked for, and the cells returned are
    exactly the cells of that unit, each once, in ascending order of id.
    The view reads and never writes.  It fails when no unit has the id, even
    if cells carry it. *)
Theorem GetRuByID_returns_the_unit_and_its_cells (ruID : string) (w : World) :
  (forall resp,
     fst (RuServiceOps.GetRuByID ruID w) = Ok resp ->
     In (GetRuResponse.RuInfo resp) (ru_infos (db w)) /\
     RUInfo.ID (GetRuResponse.RuInfo resp) = ruID /\
     GetRuResponse.Cells resp
       ≡ₚ List.filter (fun c => String.eqb (Cell.RuID c) ruID) (cells (db w)) /\
     (forall c, In c (GetRuResponse.Cells resp)
                <-> In c (cells (db w)) /\ Cell.RuID c = ruID) /\
     StronglySorted cell_id_ascending (GetRuResponse.Cells resp)) /\
  db (snd (RuServiceOps.GetRuByID ruID w)) = db w /\
  (fault w (stmts w) = None ->
   (forall ru, In ru (ru_infos (db w)) -> RUInfo.ID ru <> ruID) ->
   fst (RuServiceOps.GetRuByID ruID w)
     = Err (wrap "failed to get RU info" (wrap "failed to get RU by ID" ErrRecordNotFound))).
Proof.
  unfold RuServiceOps.GetRuByID, bind. rewrite GetRuByID_run.
  destruct (fault w (stmts w)) as [msg |].
  { split; [discriminate |]. split; [reflexivity | discriminate]. }
  destruct (List.find _ _) as [ru |] eqn:Hfind.
  - unfold GetCellsByRuID, bind. rewrite statement_run. cbn [fault stmts sent db].
    destruct (fault w (S (stmts w))) as [msg |].
    { split; [discriminate |]. split; [reflexivity |].
      intros _ Hnone. apply find_some in Hfind as [Hin Hid]. apply String.eqb_eq in Hid.
      destruct (Hnone ru Hin Hid). }
    cbn [fst snd ret]. split; [| split; [reflexivity |]].
    + intros resp [= <-]. cbn [GetRuResponse.RuInfo GetRuResponse.Cells].
      apply find_some in Hfind as [Hin Hid]. apply String.eqb_eq in Hid.
      split; [exact Hin |]. split; [exact Hid |].
      split; [apply merge_sort_Permutation |].
      split; [| apply StronglySorted_merge_sort; typeclasses eauto].
      intros c. rewrite <- list_elem_of_In, merge_sort_Permutation, list_elem_of_In.
      rewrite filter_In, String.eqb_eq. reflexivity.
    + intros _ Hnone. apply find_some in Hfind as [Hin Hid]. apply String.eqb_eq in Hid.
      destruct (Hnone ru Hin Hid).
  - split; [discriminate |]. split; reflexivity.
Qed.

Lemma existsb_by_key {A K} (f : K -> bool) (g : A -> K) (l : list A) :
  existsb (fun r => f (g r)) l = existsb f (map g l).
Proof. induction l as [|a l IH]; simpl; [reflexivity | rewrite IH; reflexivity]. Qed.

(** The batch on a store that answers, from any point of the loop. *)
Lemma updateEach_reliable (substationID : string) (ruIDs : list string) :
  forall (acc : list RUInfo.t) (w : World),
    reliable w ->
    exists (done : list RUInfo.t) (w' : World),
      RuService.updateEach ruIDs substationID acc w = (Ok (acc ++ done)%list, w') /\
      map RUInfo.ID done
        = List.filter (fun id => existsb (fun r => String.eqb (RUInfo.ID r) id)
                                         (ru_infos (db w))) ruIDs /\
      Forall (fun r => RUInfo.SubstationID r = substationID) done /\
      map RUInfo.ID (ru_infos (db w')) = map RUInfo.ID (ru_infos (db w)) /\
      (forall r, In r (ru_infos (db w')) ->
                 In r (ru_infos (db w)) \/
                 (In (RUInfo.ID r) ruIDs /\ RUInfo.SubstationID r = substationID)) /\
      (forall r, In r (ru_infos (db w')) -> In (RUInfo.ID r) ruIDs ->
                 RUInfo.SubstationID r = substationID) /\
      users (db w') = users (db w) /\ cells (db w') = cells (db w) /\
      operation_records (db w') = operation_records (db w).
Proof.
  induction ruIDs as [|id ids IH]; intros acc w Hrel.
  - exists [], w. cbn [RuService.updateEach ret]. rewrite app_nil_r.
    split; [reflexivity |]. split; [reflexivity |]. split; [constructor |].
    split; [reflexivity |]. split; [intros r Hr; left; exact Hr |].
    split; [intros r _ [] |]. repeat split.
  - cbn [RuService.updateEach]. unfold bind. rewrite GetRuByID_run, (Hrel (stmts w)).
    cbn [List.filter]. rewrite UserRepositoryFacts.existsb_find.
    destruct (List.find _ (ru_infos (db w))) as [ru |] eqn:Hfind.
    + apply find_some in Hfind as [Hin Hid]. apply String.eqb_eq in Hid.
      rewrite time_Now_run. cbv beta iota zeta.
      rewrite UpdateRu_run. cbn [fault stmts sent ticked db now ticks].
      rewrite (Hrel (S (stmts w))).
      set (ru' := RUInfo.set_UpdatedAt (now w (ticks w))
                    (RUInfo.set_SubstationID substationID ru)).
      set (mid := save RUInfo.ID String.eqb ru' (ru_infos (db w))).
      set (w3 := sent (set_ru_infos mid (db w)) (ticked (sent (db w) w))).
      assert (Hrel3 : reliable w3) by (intros n; exact (Hrel n)).
      assert (Hkeys : map RUInfo.ID mid = map RUInfo.ID (ru_infos (db w))).
      { apply (SaveFacts.save_keys RUInfo.ID String.eqb String_eqb_iff).
        apply existsb_exists. exists ru. split; [exact Hin |].
        apply String.eqb_eq. reflexivity. }
      destruct (IH (acc ++ [ru'])%list w3 Hrel3)
        as (done & w' & Hrun & Hids & Hsub & Hmap & Hrows & Hall & Hu & Hc & Ho).
      cbn [w3 db sent set_ru_infos ru_infos users cells operation_records] in *.
      exists (ru' :: done), w'.
      split; [rewrite Hrun, <- app_assoc; reflexivity |].
      split.
      { cbn [map]. f_equal; [exact Hid |]. rewrite Hids. apply filter_ext. intros x.
        rewrite (existsb_by_key (fun k => String.eqb k x) RUInfo.ID mid), Hkeys.
        symmetry.
        exact (existsb_by_key (fun k => String.eqb k x) RUInfo.ID (ru_infos (db w))). }
      split; [constructor; [reflexivity | exact Hsub] |].
      split; [rewrite Hmap; exact Hkeys |].
      assert (Hmid : forall r, In r mid ->
                r = ru' \/ (In r (ru_infos (db w)) /\ RUInfo.ID r <> id)).
      { intros r Hr.
        apply (SaveFacts.save_rows RUInfo.ID String.eqb String_eqb_iff) in Hr
          as [-> | [Hr Hne]]; [left; reflexivity |].
        right. split; [exact Hr |]. rewrite <- Hid. exact Hne. }
      split; [| split; [| repeat split; assumption]].
      * intros r Hr. destruct (Hrows r Hr) as [Hr' | [Hr' Hs]].
        -- destruct (Hmid r Hr') as [-> | [Hb _]]; [| left; exact Hb].
           right. split; [left; symmetry; exact Hid | reflexivity].
        -- right. split; [right; exact Hr' | exact Hs].
      * intros r Hr Hk.
        destruct (in_dec String.string_dec (RUInfo.ID r) ids) as [Hi | Hni];
          [exact (Hall r Hr Hi) |].
        destruct Hk as [Hk | Hk]; [| contradiction].
        destruct (Hrows r Hr) as [Hr' | [Hr' _]]; [| contradiction].
        destruct (Hmid r Hr') as [-> | [_ Hne]]; [reflexivity |]. congruence.
    + destruct (IH acc (sent (db w) w) (reliable_sent _ _ Hrel))
        as (done & w' & Hrun & Hids & Hsub & Hmap & Hrows & Hall & Hu & Hc & Ho).
      cbn [db sent] in *.
      exists done, w'. split; [exact Hrun |]. split; [exact Hids |].
      split; [exact Hsub |]. split; [exact Hmap |].
      split; [| split; [| repeat split; assumption]].
      * intros r Hr. destruct (Hrows r Hr) as [Hr' | [Hr' Hs]]; [left; exact Hr' |].
        right. split; [right; exact Hr' | exact Hs].
      * intros r Hr Hk.
        destruct (in_dec String.string_dec (RUInfo.ID r) ids) as [Hi | Hni];
          [exact (Hall r Hr Hi) |].
        destruct Hk as [Hk | Hk]; [| contradiction].
        destruct (Hrows r Hr) as [Hr' | [Hr' _]]; [| contradiction].
        apply (find_none _ _ Hfind) in Hr'. cbn in Hr'.
        rewrite <- Hk, String.eqb_refl in Hr'. discriminate.
Qed.

(** X26.  The batch on a store that answers.  [UpdateRUsSubstation] then
    succeeds; the units it returns are, in the order of the request, those
    of the ids that name a unit (an id given twice is returned twice), each
    with the substation given; afterwards every unit whose id was in the
    request has that substation, every other unit is a row that was there
    before, the column of ids is what it was, and no other table is
    written. *)
Theorem UpdateRUsSubstation_reassigns_the_units_named (ruIDs : list string)
    (substationID : string) (w : World) :
  reliable w ->
  exists done,
    fst (RuService.UpdateRUsSubstation ruIDs substationID w) = Ok done /\
    map RUInfo.ID done
      = List.filter (fun id => existsb (fun r => String.eqb (RUInfo.ID r) id)
                                       (ru_infos (db w))) ruIDs /\
    Forall (fun r => RUInfo.SubstationID r = substationID) done /\
    map RUInfo.ID (ru_infos (db (snd (RuService.UpdateRUsSubstation ruIDs substationID w))))
      = map RUInfo.ID (ru_infos (db w)) /\
    (forall r,
       In r (ru_infos (db (snd (RuService.UpdateRUsSubstation ruIDs substationID w)))) ->
       (In (RUInfo.ID r) ruIDs -> RUInfo.SubstationID r = substationID) /\
       (~ In (RUInfo.ID r) ruIDs -> In r (ru_infos (db w)))) /\
    users (db (snd (RuService.UpdateRUsSubstation ruIDs substationID w))) = users (db w) /\
    cells (db (snd (RuService.UpdateRUsSubstation ruIDs substationID w))) = cells (db w) /\
    operation_records (db (snd (RuService.UpdateRUsSubstation ruIDs substationID w)))
      = operation_records (db w).
Proof.
  intros Hrel. unfold RuService.UpdateRUsSubstation.
  destruct (updateEach_reliable substationID ruIDs [] w Hrel)
    as (done & w' & Hrun & Hids & Hsub & Hmap & Hrows & Hall & Hu & Hc & Ho).
  rewrite Hrun. cbn [fst snd app]. exists done.
  split; [reflexivity |]. split; [exact Hids |]. split; [exact Hsub |].
  split; [exact Hmap |]. split; [| repeat split; assumption].
  intros r Hr. split; [exact (Hall r Hr) |].
  intros Hni. destruct (Hrows r Hr) as [Hb | [Hi _]]; [exact Hb | contradiction].
Qed.

End RuServiceFacts.

(** ** internal/handlers: the account endpoints

    As for [Login], a handler is read once the request body is bound to
    its request; the 400 answer to a body that does not bind is gin's. *)

Module HTTP.
Definition StatusCreated : Z := 201.
Definition StatusBadRequest : Z := 400.
Definition StatusNotFound : Z := 404.
Definition StatusConflict : Z := 409.
End HTTP.

Lemma length_append (s1 s2 : string) :
  String.length (s1 +:+ s2) = (String.length s1 + String.length s2)%nat.
Proof.
  induction s1 as [|a s1 IH]; [reflexivity |].
  change (String a s1 +:+ s2) with (String a (s1 +:+ s2)). simpl. rewrite IH. reflexivity.
Qed.

(** A wrapped error is longer than its context, so it is none of the
    strings that are not. *)
Lemma wrap_neq (ctx msg other : string) :
  (String.length other < String.length ctx + 2)%nat -> wrap ctx msg <> other.
Proof.
  intros Hlen Heq. apply (f_equal String.length) in Heq.
  unfold wrap in Heq. rewrite !length_append in Heq. simpl in Heq. lia.
Qed.

Module AuthHandlerOps.
Import Gin HTTP.
Section Handler.
Context {P : Primitives} {E : Entropy}.

(** [Register(c)], once the request body is bound to [req]. *)
Definition Register (s : AuthService.t) (req : RegisterRequest.t) (c : Context)
  : M Context :=
  r <- AuthServiceOps.Register s req ;;
  match r with
  | Err e =>
      let '(status, errorType, message) :=
        if String.eqb e "user with this email already exists"
        then (StatusConflict, "conflict", "User with this email already exists")
        else (StatusInternalServerError, "internal_server_error", "Failed to register user") in
      ret (JSON status (H [("error", errorType); ("message", message); ("details", e)]) c)
  | Ok resp => ret (JSON StatusCreated (Auth resp) c)
  end.

End Handler.
End AuthHandlerOps.

Module AdminHandler.
Import Gin HTTP.
Section Handler.
Context {E : Entropy}.

(** [DeleteUser(c)] *)
Definition DeleteUser (c : Context) : M Context :=
  let userID := Param "id" c in
  r <- AdminService.DeleteUser userID ;;
  match r with
  | Err e =>
      let status :=
        if String.eqb e "user not found" then StatusNotFound
        else StatusInternalServerError in
      ret (JSON status (H [("error", "delete_user_error"); ("message", e)]) c)
  | Ok _ =>
      ret (JSON StatusOK (H [("message", "User deleted successfully");
                             ("user_id", userID)]) c)
  end.

(** [ChangePassword(c)], once the request body is bound to [req].  The
    binding asks for six characters at least, so the handler's own test of
    the length holds for no request that reaches it. *)
Definition ChangePassword (req : AdminChangePasswordRequest.t) (c : Context)
  : M Context :=
  let userID := Param "id" c in
  if (String.length (AdminChangePasswordRequest.NewPassword req) <? 6)%nat then
    ret (JSON StatusBadRequest
           (H [("error", "validation_error");
               ("message", "Пароль должен содержать минимум 6 символов")]) c)
  else
    r <- AdminService.ChangeUserPassword userID req ;;
    match r with
    | Err e =>
        let status :=
          if String.eqb e "user not found" then StatusNotFound
          else StatusInternalServerError in
        ret (JSON status (H [("error", "password_change_error"); ("message", e)]) c)
    | Ok _ =>
        ret (JSON StatusOK (H [("message", "Password changed successfully");
                               ("user_id", userID)]) c)
    end.

End Handler.
End AdminHandler.

(** ** internal/handlers: the endpoints of the registry

    These handlers answer with a cell or with a count and a list of units,
    for which [Gin.Body] has no case.  Each writes one answer and nothing
    else to its context, and is read as the answer it writes. *)

Module RuHandlerOps.
Import Gin HTTP.

Inductive Payload : Type :=
| Plain (body : Body)
| CellJSON (cell : Cell.t)
| Batch (message : string) (count : Z) (rus : list RUInfo.t).

Record Answer : Type := mkAnswer { Code : Z; Content : Payload }.

Section Handler.
Context {C : Calendar} {E : Entropy}.

Definition invalidCellID : Answer :=
  mkAnswer StatusBadRequest
    (Plain (H [("error", "invalid_cell_id"); ("message", "Неверный ID ячейки")])).

(** The answer both cell endpoints give to what the service returned. *)
Definition cellAnswer (r : result Cell.t) : Answer :=
  match r with
  | Err e =>
      let status :=
        if String.eqb e "cell not found" then StatusNotFound
        else StatusInternalServerError in
      mkAnswer status (Plain (H [("error", "update_error"); ("message", e)]))
  | Ok cell => mkAnswer StatusOK (CellJSON cell)
  end.

(** [UpdateCellStatus(c)], once the request body is bound to [req]. *)
Definition UpdateCellStatus (req : UpdateCellStatusRequest.t) (c : Context) : M Answer :=
  let ruID := Param "id" c in
  let cellIDStr := Param "cellId" c in
  let '(cellID, err) := Strconv.Atoi cellIDStr in
  match err with
  | Some _ => ret invalidCellID
  | None =>
      r <- RuService.UpdateCellStatus ruID cellID req ;;
      ret (cellAnswer r)
  end.

(** [UpdateCellInfo(c)], once the request body is bound to [req]. *)
Definition UpdateCellInfo (req : UpdateCellInfoRequest.t) (c : Context) : M Answer :=
  let ruID := Param "id" c in
  let cellIDStr := Param "cellId" c in
  let '(cellID, err) := Strconv.Atoi cellIDStr in
  match err with
  | Some _ => ret invalidCellID
  | None =>
      r <- RuServiceOps.UpdateCellInfo ruID cellID req ;;
      ret (cellAnswer r)
  end.

(** The inner loop of [UpdateSubstationRUs]: the first unit of the list
    with the id, given the substation. *)
Fixpoint pick (substationID ruID : string) (allRUs : list RUInfo.t) : option RUInfo.t :=
  match allRUs with
  | [] => None
  | ru :: rest =>
      if String.eqb (RUInfo.ID ru) ruID
      then Some (RUInfo.set_SubstationID substationID ru)
      else pick substationID ruID rest
  end.

(** The outer loop, from the ids still to visit and the units collected. *)
Fixpoint collect (substationID : string) (allRUs : list RUInfo.t)
    (ruIDs : list string) (updatedRUs : list RUInfo.t) : list RUInfo.t :=
  match ruIDs with
  | [] => updatedRUs
  | ruID :: others =>
      collect substationID allRUs others
        (match pick substationID ruID allRUs with
         | Some ru => updatedRUs ++ [ru]
         | None => updatedRUs
         end)
  end.

(** [UpdateSubstationRUs(c)], once the request body is bound to the list
    [ruIDs]. *)
Definition UpdateSubstationRUs (ruIDs : list string) (c : Context) : M Answer :=
  let substationID := Param "id" c in
  r <- RuServiceOps.GetAllRUs ;;
  match r with
  | Err e =>
      ret (mkAnswer StatusInternalServerError
             (Plain (H [("error", "internal_error");
                        ("message", "Ошибка получения РУ");
                        ("details", e)])))
  | Ok allRUs =>
      let updatedRUs := collect substationID allRUs ruIDs [] in
      ret (mkAnswer StatusOK
             (Batch "РУ успешно обновлены" (Z.of_nat (length updatedRUs)) updatedRUs))
  end.

End Handler.
End RuHandlerOps.

(** ** What the endpoints answer *)

Module HandlerFacts.
Import Gin HTTP UserRepositoryOps UserRepositoryFacts AdminServiceFacts.

Lemma existsb_Permutation {A} (f : A -> bool) (l l' : list A) :
  l ≡ₚ l' -> existsb f l = existsb f l'.
Proof.
  intros Hp. destruct (existsb f l') eqn:H'.
  - apply existsb_exists in H' as (x & Hx & Hf). apply existsb_exists. exists x.
    split; [| exact Hf]. apply list_elem_of_In. rewrite Hp. apply list_elem_of_In. exact Hx.
  - apply existsb_false_forall. intros x Hx. rewrite existsb_false_forall in H'.
    apply H'. apply list_elem_of_In. rewrite <- Hp. apply list_elem_of_In. exact Hx.
Qed.

Section Accounts.
Context {P : Primitives} {E : Entropy}.

(** X27.  The password endpoint, case by case, for a password of six bytes
    or more (which the binding of the request asks for).  Without a special
    character, for an account that exists, it is answered 500, with the
    policy's message, and not 400.  An id no account has is answered 404.
    Nothing is written in these two cases.  And a 200 answer means the
    password passed the policy gate and the hash stored for the account
    verifies it. *)
Theorem ChangePassword_endpoint_answers `{!BcryptLaws P E}
    (req : AdminChangePasswordRequest.t) (c : Context) (w : World) :
  (6 <= String.length (AdminChangePasswordRequest.NewPassword req))%nat ->
  (Password.MatchString Password.specialCharClass
     (AdminChangePasswordRequest.NewPassword req) = false ->
   fault w (stmts w) = None ->
   (exists old, In old (users (db w)) /\ User.ID old = Param "id" c) ->
   fst (AdminHandler.ChangePassword req c w) =
   JSON StatusInternalServerError
     (H [("error", "password_change_error"); ("message", Password.msgNoSpecial)]) c /\
   db (snd (AdminHandler.ChangePassword req c w)) = db w) /\
  (fault w (stmts w) = None ->
   (forall r, In r (users (db w)) -> User.ID r <> Param "id" c) ->
   fst (AdminHandler.ChangePassword req c w) =
   JSON StatusNotFound
     (H [("error", "password_change_error"); ("message", "user not found")]) c /\
   db (snd (AdminHandler.ChangePassword req c w)) = db w) /\
  (forall body,
     Written (fst (AdminHandler.ChangePassword req c w))
       = (Written c ++ [mkResponse StatusOK body])%list ->
     Password.policy_accepts (AdminChangePasswordRequest.NewPassword req) /\
     exists user,
       List.find (fun u => String.eqb (User.ID u) (Param "id" c))
                 (users (db (snd (AdminHandler.ChangePassword req c w)))) = Some user /\
       Utils.CheckPassword (AdminChangePasswordRequest.NewPassword req)
                           (User.PasswordHash user) = true).
Proof.
  intros Hlong. unfold AdminHandler.ChangePassword.
  destruct (Nat.ltb_spec (String.length (AdminChangePasswordRequest.NewPassword req)) 6)
    as [Hshort | _]; [lia |].
  unfold bind. split; [| split].
  - intros Hnospecial Hok (old & Hin & Hid).
    unfold AdminService.ChangeUserPassword, bind, ret. repo_step. rewrite Hok.
    destruct (List.find _ _) as [usr |] eqn:Hfind.
    + unfold Password.validatePassword.
      destruct (Nat.ltb_spec (String.length (AdminChangePasswordRequest.NewPassword req)) 6);
        [lia |].
      rewrite Hnospecial. split; reflexivity.
    + apply (find_none _ _ Hfind) in Hin. cbn in Hin.
      rewrite Hid, String.eqb_refl in Hin. discriminate.
  - intros Hok Hnone.
    unfold AdminService.ChangeUserPassword, bind, ret. repo_step. rewrite Hok.
    destruct (List.find _ _) as [usr |] eqn:Hfind; [| split; reflexivity].
    apply find_by_id_In in Hfind as [Hin Hid]. destruct (Hnone usr Hin Hid).
  - intros body.
    pose proof (ChangeUserPassword_Ok (Param "id" c) req w) as Hdone.
    destruct (AdminService.ChangeUserPassword (Param "id" c) req w) as [[[] | e] w1].
    + cbn [fst snd ret JSON Written] in *. intros _.
      destruct (Hdone eq_refl) as (old & hash & Hin & Hid & Hpolicy & Hhash & ->).
      split; [apply Password.validatePassword_accepts_iff; exact Hpolicy |].
      cbn [db set_users users].
      eexists. split.
      * apply (find_some_first_saved _ old); [exact Hin | exact Hid | exact Hid].
      * exact (compare_generated _ _ _ Hhash).
    + cbn [fst ret JSON Written]. intros Hw. apply app_inv_head in Hw.
      destruct (String.eqb e "user not found"); discriminate Hw.
Qed.

End Accounts.
Section AccountStatus.
Context {P : Primitives} {E : Entropy}.

(** X28.  Conflict and absence are reported as such by the account endpoints.
    While the store answers, registering an email that an account holds is
    answered 409 and deleting an id that no account has is answered 404, and
    nothing is written; a registration is answered 201 exactly with what the
    service returned, and a deletion answered 200 removed the account. *)
Theorem account_endpoints_report_conflict_and_absence (s : AuthService.t)
    (req : RegisterRequest.t) (c : Context) (w : World) :
  fault w (stmts w) = None ->
  ((exists holder, In holder (users (db w)) /\
                   User.Email holder = RegisterRequest.Email req) ->
   fst (AuthHandlerOps.Register s req c w) =
   JSON StatusConflict
     (H [("error", "conflict"); ("message", "User with this email already exists");
         ("details", "user with this email already exists")]) c /\
   db (snd (AuthHandlerOps.Register s req c w)) = db w) /\
  (forall resp,
     Written (fst (AuthHandlerOps.Register s req c w))
       = (Written c ++ [mkResponse StatusCreated (Auth resp)])%list <->
     fst (AuthServiceOps.Register s req w) = Ok resp) /\
  ((forall r, In r (users (db w)) -> User.ID r <> Param "id" c) ->
   fst (AdminHandler.DeleteUser c w) =
   JSON StatusNotFound
     (H [("error", "delete_user_error"); ("message", "user not found")]) c /\
   db (snd (AdminHandler.DeleteUser c w)) = db w) /\
  (forall body,
     Written (fst (AdminHandler.DeleteUser c w))
       = (Written c ++ [mkResponse StatusOK body])%list ->
     (exists old, In old (users (db w)) /\ User.ID old = Param "id" c) /\
     forall r, In r (users (db (snd (AdminHandler.DeleteUser c w)))) ->
               User.ID r <> Param "id" c).
Proof.
  intros Hok. split; [| split; [| split]].
  - intros (holder & Hin & Hemail).
    unfold AuthHandlerOps.Register, bind.
    rewrite AuthServiceFacts.Register_run, Hok. cbv zeta.
    assert (Hex : existsb (fun u => String.eqb (User.Email u) (RegisterRequest.Email req))
                    (users (db w)) = true).
    { apply existsb_exists. exists holder. split; [exact Hin |].
      apply String.eqb_eq. exact Hemail. }
    rewrite Hex. split; reflexivity.
  - intros resp. unfold AuthHandlerOps.Register, bind.
    destruct (AuthServiceOps.Register s req w) as [[resp' | e] w1];
      cbn [fst ret JSON Written].
    + split.
      * intros Hw. apply app_inv_head in Hw. congruence.
      * intros [= ->]. reflexivity.
    + split; [| discriminate].
      destruct (String.eqb e _); cbn [fst ret JSON Written];
        intros Hw; apply app_inv_head in Hw; discriminate Hw.
  - intros Hnone. unfold AdminHandler.DeleteUser, AdminService.DeleteUser, bind, ret.
    repo_step. rewrite Hok.
    destruct (List.find _ _) as [usr |] eqn:Hfind; [| split; reflexivity].
    apply find_by_id_In in Hfind as [Hin Hid]. destruct (Hnone usr Hin Hid).
  - intros body. unfold AdminHandler.DeleteUser, bind.
    pose proof (DeleteUser_Ok (Param "id" c) w) as Hdone.
    destruct (AdminService.DeleteUser (Param "id" c) w) as [[[] | e] w1].
    + cbn [fst snd ret] in *. intros _. destruct (Hdone eq_refl) as [Hold ->].
      split; [exact Hold |]. cbn [db set_users users].
      intros r Hr. apply filter_In in Hr as [_ Hr].
      apply negb_true_iff, String.eqb_neq in Hr. exact Hr.
    + cbn [fst ret JSON Written]. intros Hw. apply app_inv_head in Hw.
      destruct (String.eqb e "user not found"); discriminate Hw.
Qed.

End AccountStatus.

Section Registry.
Context {C : Calendar} {E : Entropy}.
Import RuHandlerOps.

(** Every error of the two cell updates is a wrapped one. *)
Lemma cell_update_errors (ruID : string) (cellID : Z) (w : World) (e : string) :
  (forall req, fst (RuService.UpdateCellStatus ruID cellID req w) = Err e ->
     exists m, e = wrap "cell not found" m \/ e = wrap "failed to update cell" m) /\
  (forall req, fst (RuServiceOps.UpdateCellInfo ruID cellID req w) = Err e ->
     exists m, e = wrap "cell not found" m \/ e = wrap "failed to update cell info" m).
Proof.
  split; intros req.
  - unfold RuService.UpdateCellStatus, bind. rewrite RuRepository.GetCellByID_run.
    destruct (fault w (stmts w)); [intros [= <-]; eexists; left; reflexivity |].
    destruct (List.find _ _); [| intros [= <-]; eexists; left; reflexivity].
    destruct (UpdateCellStatusRequest.IsGrounded req);
      unfold ret; rewrite !time_Now_run; cbv beta iota zeta;
      rewrite RuRepository.UpdateCell_run; cbn [fault stmts sent ticked];
      (destruct (fault w (S (stmts w))); [| discriminate]);
      intros [= <-]; eexists; right; reflexivity.
  - rewrite RuServiceFacts.UpdateCellInfo_run.
    destruct (fault w (stmts w)); [intros [= <-]; eexists; left; reflexivity |].
    destruct (List.find _ _); [| intros [= <-]; eexists; left; reflexivity].
    cbv zeta. destruct (fault w (S (stmts w))); [| discriminate].
    intros [= <-]; eexists; right; reflexivity.
Qed.

Lemma cellAnswer_not_404 (r : result Cell.t) :
  (forall e, r = Err e -> e <> "cell not found") -> Code (cellAnswer r) <> StatusNotFound.
Proof.
  intros Hne. destruct r as [cell | e]; [discriminate |].
  unfold cellAnswer. destruct (String.eqb_spec e "cell not found") as [Heq | _].
  - destruct (Hne e eq_refl Heq).
  - discriminate.
Qed.

(** X29.  The cell endpoints never answer 404.  The handlers compare the
    error with the words cell not found, and the service never returns those
    words alone: it returns them followed by the cause.  So a cell that does
    not exist in the unit is answered 500, and nothing is written. *)
Theorem cell_endpoints_never_answer_404 (c : Context) (w : World) :
  (forall req, Code (fst (UpdateCellStatus req c w)) <> StatusNotFound) /\
  (forall req, Code (fst (UpdateCellInfo req c w)) <> StatusNotFound) /\
  (forall cellID,
     Strconv.Atoi (Param "cellId" c) = (cellID, None) ->
     fault w (stmts w) = None ->
     List.find (RuRepository.cell_is cellID (Param "id" c)) (cells (db w)) = None ->
     (forall req,
        fst (UpdateCellStatus req c w) =
        mkAnswer StatusInternalServerError
          (Plain (H [("error", "update_error");
                     ("message",
                      "cell not found: failed to get cell by ID: record not found")])) /\
        db (snd (UpdateCellStatus req c w)) = db w) /\
     (forall req,
        fst (UpdateCellInfo req c w) =
        mkAnswer StatusInternalServerError
          (Plain (H [("error", "update_error");
                     ("message",
                      "cell not found: failed to get cell by ID: record not found")])) /\
        db (snd (UpdateCellInfo req c w)) = db w)).
Proof.
  split; [| split].
  - intros req. unfold UpdateCellStatus.
    destruct (Strconv.Atoi _) as [cellID [err |]]; [discriminate |].
    unfold bind.
    pose proof (fun e => proj1 (cell_update_errors (Param "id" c) cellID w e) req) as Herr.
    destruct (RuService.UpdateCellStatus _ _ _ _) as [r w1]. cbn [fst ret] in *.
    apply cellAnswer_not_404. intros e -> .
    destruct (Herr e eq_refl) as [m [-> | ->]]; apply wrap_neq; simpl; lia.
  - intros req. unfold UpdateCellInfo.
    destruct (Strconv.Atoi _) as [cellID [err |]]; [discriminate |].
    unfold bind.
    pose proof (fun e => proj2 (cell_update_errors (Param "id" c) cellID w e) req) as Herr.
    destruct (RuServiceOps.UpdateCellInfo _ _ _ _) as [r w1]. cbn [fst ret] in *.
    apply cellAnswer_not_404. intros e -> .
    destruct (Herr e eq_refl) as [m [-> | ->]]; apply wrap_neq; simpl; lia.
  - intros cellID Hatoi Hok Hnone. split; intros req.
    + unfold UpdateCellStatus. rewrite Hatoi. unfold bind, RuService.UpdateCellStatus, bind.
      rewrite RuRepository.GetCellByID_run, Hok, Hnone. split; reflexivity.
    + unfold UpdateCellInfo. rewrite Hatoi. unfold bind.
      rewrite RuServiceFacts.UpdateCellInfo_run, Hok, Hnone. split; reflexivity.
Qed.

(** What the inner loop finds is the first unit with the id, moved. *)
Lemma pick_find (substationID ruID : string) (allRUs : list RUInfo.t) :
  pick substationID ruID allRUs =
  option_map (RUInfo.set_SubstationID substationID)
    (List.find (fun ru => String.eqb (RUInfo.ID ru) ruID) allRUs).
Proof.
  induction allRUs as [|ru rest IH]; [reflexivity |].
  cbn [pick List.find]. destruct (String.eqb (RUInfo.ID ru) ruID); [reflexivity | exact IH].
Qed.

Lemma collect_spec (substationID : string) (allRUs : list RUInfo.t) (ruIDs : list string) :
  forall acc,
  exists updated,
    collect substationID allRUs ruIDs acc = (acc ++ updated)%list /\
    map RUInfo.ID updated
      = List.filter (fun id => existsb (fun r => String.eqb (RUInfo.ID r) id) allRUs) ruIDs /\
    Forall (fun r => RUInfo.SubstationID r = substationID) updated.
Proof.
  induction ruIDs as [|id ids IH]; intros acc.
  - exists []. rewrite app_nil_r. repeat split. constructor.
  - cbn [collect List.filter]. rewrite pick_find, existsb_find.
    destruct (List.find _ allRUs) as [ru |] eqn:Hfind; cbn [option_map].
    + destruct (IH (acc ++ [RUInfo.set_SubstationID substationID ru])%list)
        as (updated & -> & Hids & Hsub).
      exists (RUInfo.set_SubstationID substationID ru :: updated).
      split; [rewrite <- app_assoc; reflexivity |]. split.
      * cbn [map RUInfo.ID RUInfo.set_SubstationID]. f_equal; [| exact Hids].
        apply find_some in Hfind as [_ Hid]. apply String.eqb_eq. exact Hid.
      * constructor; [reflexivity | exact Hsub].
    + exact (IH acc).
Qed.

(** X30.  The reassignment endpoint writes nothing.  Whatever it is asked,
    [UpdateSubstationRUs] leaves every table as it was; and while the store
    answers it reports success all the same: it answers 200 with the count
    and the list of the units the ids name, in the order of the request,
    each shown with the substation of the path, while the units in the store
    keep the substation they had. *)
Theorem UpdateSubstationRUs_persists_nothing (ruIDs : list string) (c : Context)
    (w : World) :
  db (snd (UpdateSubstationRUs ruIDs c w)) = db w /\
  (fault w (stmts w) = None ->
   exists updated,
     fst (UpdateSubstationRUs ruIDs c w) =
     mkAnswer StatusOK
       (Batch "РУ успешно обновлены" (Z.of_nat (length updated)) updated) /\
     map RUInfo.ID updated
       = List.filter (fun id => existsb (fun r => String.eqb (RUInfo.ID r) id)
                                        (ru_infos (db w))) ruIDs /\
     Forall (fun r => RUInfo.SubstationID r = Param "id" c) updated).
Proof.
  unfold UpdateSubstationRUs, RuServiceOps.GetAllRUs, RuRepositoryOps.GetAllRUs, bind.
  rewrite statement_run.
  destruct (fault w (stmts w)) as [msg |]; [split; [reflexivity | discriminate] |].
  cbn [fst snd ret db sent]. split; [reflexivity |]. intros _.
  destruct (collect_spec (Param "id" c) (merge_sort unit_newest_first (ru_infos (db w)))
              ruIDs []) as (updated & Hc & Hids & Hsub).
  cbn [app] in Hc. exists updated. rewrite Hc.
  split; [reflexivity |]. split; [| exact Hsub].
  rewrite Hids. apply filter_ext. intros id.
  apply existsb_Permutation. apply merge_sort_Permutation.
Qed.

End Registry.

End HandlerFacts.

(** ** Runs of the token functions and of the gate *)

Module TokenRuns.
Import JWT Utils UtilsRuns UtilsFacts Gin Middleware MiddlewareFacts.

#[local] Existing Instance Sample.prims.

(** A one-day token for Alice issued at second 1000 is refused under
    another secret. *)
Lemma wrong_secret_rejected_witness :
  exists tok e,
    fst (GenerateToken alice "secret" day (clockAt (1000 * Second))) = Ok tok /\
    fst (ValidateToken tok "guess" (clockAt (2000 * Second))) = Err e.
Proof.
  apply (wrong_secret_rejected alice "secret" "guess" day
           (clockAt (1000 * Second)) (clockAt (2000 * Second))).
  - apply Sample.unmarshal_marshal.
  - apply Sample.unmarshal_marshal.
  - intros Htag. cbv beta iota delta [hmac Sample.prims String.append] in Htag.
    discriminate Htag.
Defined.

(** The same token is refused a day and a second after it was issued. *)
Lemma expired_token_rejected_witness :
  exists tok e,
    fst (GenerateToken alice "secret" day (clockAt (1000 * Second))) = Ok tok /\
    fst (ValidateToken tok "secret" (clockAt (87401 * Second))) = Err e.
Proof.
  apply (expired_token_rejected alice "secret" day
           (clockAt (1000 * Second)) (clockAt (87401 * Second))).
  - apply Sample.unmarshal_marshal.
  - apply Sample.unmarshal_marshal.
  - vm_compute. discriminate.
Defined.

(** What follows the stages in these runs: nothing. *)
Definition finish : Context -> M Context := ret.

Definition bare : Context := NewContext (mkRequest "GET" ∅ ∅ ∅) [].

Definition carrying (authorization : string) : Context :=
  NewContext (mkRequest "GET" {["Authorization" := [authorization]]} ∅ ∅) [].

(** A request without an Authorization header. *)
Lemma credential_required_witness :
  AuthMiddleware "secret" finish bare (clockAt 0) =
  (Abort (JSON StatusUnauthorized
            (H [("error",
                 if String.eqb (GetHeader "Authorization" bare) EmptyString
                 then "authorization header is required"
                 else "invalid authorization header format")]) bare), clockAt 0).
Proof.
  apply (credential_required "secret" bare finish (clockAt 0)).
  - discriminate.
  - intros tok Hhdr. cbv in Hhdr. discriminate Hhdr.
Defined.

(** The scheme in lower case is refused for its format. *)
Example bearer_in_lower_case :
  fst (AuthMiddleware "secret" finish (carrying "bearer abc") (clockAt 0))
  = Abort (JSON StatusUnauthorized (H [("error", "invalid authorization header format")])
             (carrying "bearer abc")).
Proof. vm_compute. reflexivity. Qed.

(** A request that carries the token abc. *)
Lemma bearer_token_decides_witness :
  (forall claims,
     Utils.accepted "abc" "secret" (now (clockAt 0) (ticks (clockAt 0))) claims ->
     AuthMiddleware "secret" finish (carrying "Bearer abc") (clockAt 0)
       = finish (bound claims (carrying "Bearer abc")) (ticked (clockAt 0)) /\
     Get "user_id" (bound claims (carrying "Bearer abc"))
       = Some (AnyString (Claims.UserID claims)) /\
     Get "user_email" (bound claims (carrying "Bearer abc"))
       = Some (AnyString (Claims.Email claims)) /\
     Get "user_role" (bound claims (carrying "Bearer abc"))
       = Some (AnyString (Claims.Role claims))) /\
  ((forall claims,
      ~ Utils.accepted "abc" "secret" (now (clockAt 0) (ticks (clockAt 0))) claims) ->
   fst (AuthMiddleware "secret" finish (carrying "Bearer abc") (clockAt 0))
   = Abort (JSON StatusUnauthorized (H [("error", "invalid or expired token")])
              (carrying "Bearer abc"))).
Proof.
  apply (bearer_token_decides "secret" "abc" (carrying "Bearer abc") finish (clockAt 0)).
  - discriminate.
  - vm_compute. reflexivity.
Defined.

Definition aliceToken : string := issuedToken alice "secret" day (clockAt (1000 * Second)).

(** Alice, an engineer, with her token at an endpoint for administrators
    half a day after it was issued. *)
Lemma issued_token_opens_role_gate_witness :
  exists c',
    Get "user_id" c' = Some (AnyString (User.ID alice)) /\
    Get "user_email" c' = Some (AnyString (User.Email alice)) /\
    Get "user_role" c' = Some (AnyString (User.Role alice)) /\
    Written c' = Written (carrying ("Bearer " +:+ aliceToken)) /\
    (In (User.Role alice) ["admin"] ->
     AuthMiddleware "secret" (RoleMiddleware ["admin"] finish)
       (carrying ("Bearer " +:+ aliceToken)) (clockAt (44200 * Second))
     = finish c' (ticked (clockAt (44200 * Second)))) /\
    (~ In (User.Role alice) ["admin"] ->
     AuthMiddleware "secret" (RoleMiddleware ["admin"] finish)
       (carrying ("Bearer " +:+ aliceToken)) (clockAt (44200 * Second)) =
     (Abort (JSON StatusForbidden (H [("error", "insufficient permissions")]) c'),
      ticked (clockAt (44200 * Second)))).
Proof.
  apply (issued_token_opens_role_gate alice "secret" day
           (clockAt (1000 * Second)) (clockAt (44200 * Second)) ["admin"]
           (carrying ("Bearer " +:+ aliceToken)) finish).
  - apply Sample.unmarshal_marshal.
  - apply Sample.unmarshal_marshal.
  - reflexivity.
  - discriminate.
  - unfold carrying, GetHeader, NewContext. cbn [Req Header].
    rewrite lookup_singleton_eq. reflexivity.
Defined.

End TokenRuns.

(** ** The configured lifetime on explicit environments *)

Module ConfigRuns.
Import Config.

Example lifetimes_configured :
  JWTTTL (LoadConfig ∅) = 24 * Hour /\
  JWTTTL (LoadConfig {["JWT_TTL_HOURS" := "12h"]}) = 24 * Hour /\
  JWTTTL (LoadConfig {["JWT_TTL_HOURS" := "72"]}) = 72 * Hour /\
  JWTTTL (LoadConfig {["JWT_TTL_HOURS" := "0"]}) = 0 /\
  JWTTTL (LoadConfig {["JWT_TTL_HOURS" := "-1"]}) = - Hour.
Proof. vm_compute. repeat split. Qed.

End ConfigRuns.

(** ** Runs of the account services *)

Module AccountRuns.
Import Gin HTTP ServiceRuns.
Import UserRepositoryOps UserRepositoryFacts AdminService AuthServiceOps.
Import AdminServiceFacts AuthServiceFacts HandlerFacts.

#[local] Existing Instance Sample.prims.

Fixpoint strokes (n : nat) : string :=
  match n with
  | O => EmptyString
  | S m => String "i" (strokes m)
  end.

(** Draws that can be followed: the id drawn after n statements is uuid-
    and n strokes, and the hash of a password is the password, which is what
    the comparison of [Sample.prims] verifies.  As bcrypt does, generation
    refuses a password of more than 72 bytes. *)
#[local] Instance traced : Entropy := {|
  uuid_New := fun w => "uuid-" +:+ strokes (stmts w);
  bcrypt_Generate := fun _ password =>
    if (72 <? String.length password)%nat
    then Err "bcrypt: password length exceeds 72 bytes"
    else Ok password
|}.

#[local] Instance traced_laws : BcryptLaws Sample.prims traced.
Proof.
  split. intros w password hash. cbn [bcrypt_Generate traced bcrypt_Compare Sample.prims].
  destruct (72 <? String.length password)%nat; [discriminate |].
  intros [= <-]. apply String.eqb_refl.
Qed.

Definition bob : User.t := User.mk "u-2" "Bob" "b@x.com" "Hunter#2" RoleAdmin 5 5.

Definition office : DB :=
  mkDB [UtilsRuns.alice; bob] (ru_infos tables) (cells tables) (operation_records tables).

(** A world over [office] whose clock reads [morning] and then one second
    more at each reading, and whose store never fails. *)
Definition desk : World :=
  mkWorld office (fun _ => None) 0%nat (fun n => morning + Z.of_nat n * Second) 0%nat.

Lemma desk_reliable : reliable desk.
Proof. intros n. reflexivity. Qed.

Lemma office_consistent : users_consistent (users (db desk)).
Proof.
  split; cbn; repeat (apply NoDup_cons; split; [rewrite !list_elem_of_In; simpl; intuition
      discriminate |]);
    apply NoDup_nil; exact I.
Qed.

Definition newDispatcher : AdminCreateRequest.t :=
  AdminCreateRequest.mk "Carol" "c@x.com" "Passw0rd!" "dispatcher".

Definition carol : User.t :=
  User.mk "uuid-i" "Carol" "c@x.com" "Passw0rd!" RoleDispatcher morning morning.

(** Carol is created as a dispatcher. *)
Lemma CreateUser_creates_one_valid_account_witness :
  exists user,
    users (db (snd (CreateUser newDispatcher desk))) = (users (db desk) ++ [user])%list /\
    ru_infos (db (snd (CreateUser newDispatcher desk))) = ru_infos (db desk) /\
    cells (db (snd (CreateUser newDispatcher desk))) = cells (db desk) /\
    operation_records (db (snd (CreateUser newDispatcher desk)))
      = operation_records (db desk) /\
    userResponse carol = userResponse user /\
    User.Name user = AdminCreateRequest.Name newDispatcher /\
    User.Email user = AdminCreateRequest.Email newDispatcher /\
    User.Role user = AdminCreateRequest.Role newDispatcher /\
    In (User.Role user) [RoleAdmin; RoleDispatcher; RoleEngineer] /\
    Password.policy_accepts (AdminCreateRequest.Password newDispatcher) /\
    Utils.CheckPassword (AdminCreateRequest.Password newDispatcher)
                        (User.PasswordHash user) = true /\
    (forall r, In r (users (db desk)) ->
               User.Email r <> User.Email user /\ User.ID r <> User.ID user) /\
    (users_consistent (users (db desk)) ->
     users_consistent (users (db (snd (CreateUser newDispatcher desk))))).
Proof.
  apply (CreateUser_creates_one_valid_account newDispatcher desk (userResponse carol)).
  vm_compute. reflexivity.
Defined.

Example carol_created :
  users (db (snd (CreateUser newDispatcher desk))) = [UtilsRuns.alice; bob; carol].
Proof. vm_compute. reflexivity. Qed.


Definition promotion : AdminUpdateRequest.t :=
  AdminUpdateRequest.mk "Alice A." "alice@x.com" "admin".

Definition promoted : User.t :=
  User.mk "u-1" "Alice A." "alice@x.com" "Secret!1" RoleAdmin 0 morning.

(** Alice is renamed, given a new email and made an administrator. *)
Lemma UpdateUser_rewrites_one_account_witness :
  exists old user : User.t,
    In old (users (db desk)) /\ User.ID old = "u-1" /\
    users (db (snd (UpdateUser "u-1" promotion desk)))
      = save User.ID String.eqb user (users (db desk)) /\
    ru_infos (db (snd (UpdateUser "u-1" promotion desk))) = ru_infos (db desk) /\
    cells (db (snd (UpdateUser "u-1" promotion desk))) = cells (db desk) /\
    operation_records (db (snd (UpdateUser "u-1" promotion desk))) = operation_records (db desk) /\
    userResponse promoted = userResponse user /\
    User.ID user = User.ID old /\
    User.PasswordHash user = User.PasswordHash old /\
    User.CreatedAt user = User.CreatedAt old /\
    User.Name user = AdminUpdateRequest.Name promotion /\
    User.Email user = AdminUpdateRequest.Email promotion /\
    User.Role user = AdminUpdateRequest.Role promotion /\
    In (User.Role user) [RoleAdmin; RoleDispatcher; RoleEngineer] /\
    (forall r, In r (users (db desk)) -> User.ID r <> User.ID old ->
               User.Email r <> AdminUpdateRequest.Email promotion) /\
    (users_consistent (users (db desk)) ->
     users_consistent (save User.ID String.eqb user (users (db desk))) /\
     exists before after : list User.t,
       users (db desk) = (before ++ old :: after)%list /\
       save User.ID String.eqb user (users (db desk)) = (before ++ user :: after)%list).
Proof.
  apply (UpdateUser_rewrites_one_account "u-1" promotion desk (userResponse promoted)).
  vm_compute. reflexivity.
Defined.


Example alice_promoted :
  users (db (snd (UpdateUser "u-1" promotion desk))) = [promoted; bob].
Proof. vm_compute. reflexivity. Qed.

(** Alice asks for the email Bob holds. *)
Definition takeover : AdminUpdateRequest.t :=
  AdminUpdateRequest.mk "Alice" "b@x.com" "engineer".

(** The email of another account is refused by the service, before the store is asked to save. *)
Lemma UpdateUser_fails_only_on_validation_witness :
  fst (UpdateUser "u-1" takeover desk) = Err "email already taken by another user" /\
  In "email already taken by another user"
     ["user not found"; "email already taken by another user"; "invalid role"].
Proof.
  split; [vm_compute; reflexivity |].
  apply (UpdateUser_fails_only_on_validation "u-1" takeover desk).
  - exact desk_reliable.
  - exact office_consistent.
  - vm_compute. reflexivity.
Defined.

(** Bob is deleted. *)
Lemma DeleteUser_removes_the_account_witness :
  (exists old, In old (users (db desk)) /\ User.ID old = "u-2") /\
  users (db (snd (DeleteUser "u-2" desk)))
    = List.filter (fun u => negb (String.eqb (User.ID u) "u-2")) (users (db desk)) /\
  (forall r, In r (users (db (snd (DeleteUser "u-2" desk))))
             <-> In r (users (db desk)) /\ User.ID r <> "u-2") /\
  List.find (fun u => String.eqb (User.ID u) "u-2") (users (db (snd (DeleteUser "u-2" desk)))) =
      None /\
  ru_infos (db (snd (DeleteUser "u-2" desk))) = ru_infos (db desk) /\
  cells (db (snd (DeleteUser "u-2" desk))) = cells (db desk) /\
  operation_records (db (snd (DeleteUser "u-2" desk))) = operation_records (db desk).
Proof.
  apply (DeleteUser_removes_the_account "u-2" desk). vm_compute. reflexivity.
Defined.


Example bob_deleted :
  users (db (snd (DeleteUser "u-2" desk))) = [UtilsRuns.alice] /\
  fst (DeleteUser "u-2" (snd (DeleteUser "u-2" desk))) = Err "user not found".
Proof. vm_compute. split; reflexivity. Qed.

Definition newPassword : AdminChangePasswordRequest.t :=
  AdminChangePasswordRequest.mk "N3w-secret".

(** Alice is given a new password. *)
Lemma ChangeUserPassword_stores_a_hash_of_the_password_witness :
  exists old user : User.t,
    In old (users (db desk)) /\ User.ID old = "u-1" /\
    users (db (snd (ChangeUserPassword "u-1" newPassword desk)))
      = save User.ID String.eqb user (users (db desk)) /\
    ru_infos (db (snd (ChangeUserPassword "u-1" newPassword desk))) = ru_infos (db desk) /\
    cells (db (snd (ChangeUserPassword "u-1" newPassword desk))) = cells (db desk) /\
    operation_records (db (snd (ChangeUserPassword "u-1" newPassword desk))) = operation_records
        (db desk) /\
    User.ID user = User.ID old /\
    User.Name user = User.Name old /\
    User.Email user = User.Email old /\
    User.Role user = User.Role old /\
    User.CreatedAt user = User.CreatedAt old /\
    Password.policy_accepts (AdminChangePasswordRequest.NewPassword newPassword) /\
    Utils.CheckPassword (AdminChangePasswordRequest.NewPassword newPassword)
                        (User.PasswordHash user) = true /\
    (NoDup (map User.ID (users (db desk))) ->
     exists before after : list User.t,
       users (db desk) = (before ++ old :: after)%list /\
       save User.ID String.eqb user (users (db desk)) = (before ++ user :: after)%list).
Proof.
  apply (ChangeUserPassword_stores_a_hash_of_the_password "u-1" newPassword desk).
  vm_compute. reflexivity.
Defined.


(** The four calls refused, each for another reason, with the tables
    left as they were. *)
Example admin_calls_refused :
  fst (CreateUser (AdminCreateRequest.mk "Carol" "c@x.com" "Passw0rd" "dispatcher") desk)
    = Err Password.msgNoSpecial /\
  fst (CreateUser (AdminCreateRequest.mk "Carol" "c@x.com" "Passw0rd!" "operator") desk)
    = Err "invalid role" /\
  fst (UpdateUser "u-1" takeover desk) = Err "email already taken by another user" /\
  fst (DeleteUser "u-9" desk) = Err "user not found" /\
  fst (ChangeUserPassword "u-1" (AdminChangePasswordRequest.mk "short") desk)
    = Err Password.msgTooShort /\
  db (snd (CreateUser (AdminCreateRequest.mk "Carol" "c@x.com" "Passw0rd" "dispatcher") desk))
    = office /\
  db (snd (UpdateUser "u-1" takeover desk)) = office.
Proof. vm_compute. repeat split. Qed.

Definition aliceLogin : LoginRequest.t := LoginRequest.mk "a@x.com" "Secret!1".

(** Alice logs in. *)
Lemma Login_succeeds_iff_password_verifies_witness :
  (forall resp,
     fst (AuthService.Login authService aliceLogin desk) = Ok resp <->
     exists user,
       List.find (fun u => String.eqb (User.Email u) (LoginRequest.Email aliceLogin))
                 (users (db desk)) = Some user /\
       Utils.CheckPassword (LoginRequest.Password aliceLogin) (User.PasswordHash user) = true /\
       resp = AuthResponse.mk (userResponse user)
                (UtilsFacts.issuedToken user (AuthService.jwtSecret authService)
                   (AuthService.jwtTTL authService) (sent (db desk) desk))) /\
  db (snd (AuthService.Login authService aliceLogin desk)) = db desk.
Proof.
  apply (Login_succeeds_iff_password_verifies authService aliceLogin desk). reflexivity.
Defined.


(** Dan registers with a password of six letters. *)
Definition newcomer : RegisterRequest.t := RegisterRequest.mk "Dan" "d@x.com" "abcdef".

Definition dan : User.t :=
  User.mk "uuid-i" "Dan" "d@x.com" "abcdef" RoleEngineer morning morning.

(** The world in which the token of a registration on [desk] is issued. *)
Definition registeredAt (user : User.t) : World :=
  sent (set_users (users office ++ [user]) office) (ticked (sent office desk)).

Definition danRegistered : AuthResponse.t :=
  AuthResponse.mk (userResponse dan)
    (UtilsFacts.issuedToken dan "secret" UtilsRuns.day (registeredAt dan)).

Lemma newcomer_registered : fst (Register authService newcomer desk) = Ok danRegistered.
Proof. reflexivity. Qed.

(** Dan becomes an engineer. *)
Lemma Register_creates_an_engineer_account_witness :
  exists (user : User.t) (w2 : World),
    users (db (snd (Register authService newcomer desk))) = (users (db desk) ++ [user])%list /\
    ru_infos (db (snd (Register authService newcomer desk))) = ru_infos (db desk) /\
    cells (db (snd (Register authService newcomer desk))) = cells (db desk) /\
    operation_records (db (snd (Register authService newcomer desk)))
      = operation_records (db desk) /\
    User.Role user = RoleEngineer /\
    User.Name user = RegisterRequest.Name newcomer /\
    User.Email user = RegisterRequest.Email newcomer /\
    User.CreatedAt user = now desk (ticks desk) /\
    Utils.CheckPassword (RegisterRequest.Password newcomer) (User.PasswordHash user) = true /\
    AuthResponse.User danRegistered = userResponse user /\
    AuthResponse.Token danRegistered
      = UtilsFacts.issuedToken user (AuthService.jwtSecret authService) (AuthService.jwtTTL
          authService) w2 /\
    now w2 = now desk /\ ticks w2 = S (ticks desk) /\
    (forall r, In r (users (db desk)) ->
               User.Email r <> User.Email user /\ User.ID r <> User.ID user) /\
    (users_consistent (users (db desk)) ->
     users_consistent (users (db (snd (Register authService newcomer desk))))).
Proof.
  apply (Register_creates_an_engineer_account authService newcomer desk danRegistered).
  exact newcomer_registered.
Defined.


(** Dan registers with eight letters, which the policy of the
    administrator's calls refuses. *)
Definition careless : RegisterRequest.t := RegisterRequest.mk "Dan" "d@x.com" "abcdefgh".

Example careless_password_refused_by_policy :
  Password.validatePassword (RegisterRequest.Password careless)
    = (false, Password.msgNoSpecial).
Proof. reflexivity. Qed.

(** He is registered all the same. *)
Lemma Register_applies_no_password_policy_witness :
  exists resp,
    fst (Register authService careless desk) = Ok resp /\
    AuthResponse.User resp
      = UserResponse.mk (uuid_New (sent (db desk) desk)) (RegisterRequest.Name careless)
          (RegisterRequest.Email careless) RoleEngineer (now desk (ticks desk)).
Proof.
  apply (Register_applies_no_password_policy authService careless desk "abcdefgh").
  - reflexivity.
  - reflexivity.
  - intros r [<- | [<- | []]]; split; discriminate.
  - reflexivity.
Defined.

(** Dan logs in on the world his registration left. *)
Lemma registered_account_logs_in_witness :
  exists resp',
    fst (AuthService.Login authService
           (LoginRequest.mk (RegisterRequest.Email newcomer) (RegisterRequest.Password newcomer))
               (snd (Register authService newcomer desk)))
      = Ok resp' /\
    AuthResponse.User resp' = AuthResponse.User danRegistered.
Proof.
  apply (registered_account_logs_in authService authService newcomer desk
           (snd (Register authService newcomer desk)) danRegistered).
  - exact newcomer_registered.
  - reflexivity.
  - reflexivity.
Defined.


(** Half a day after [desk]. *)
Definition afternoon : World :=
  mkWorld office (fun _ => None) 0%nat (fun _ => morning + 12 * 3600 * Second) 0%nat.

Definition aliceSession : AuthResponse.t :=
  AuthResponse.mk (userResponse UtilsRuns.alice)
    (UtilsFacts.issuedToken UtilsRuns.alice "secret" UtilsRuns.day (sent office desk)).

Lemma alice_logged_in : fst (AuthService.Login authService aliceLogin desk) = Ok aliceSession.
Proof. reflexivity. Qed.

(** Alice logs in in the morning and comes back with her token in the afternoon. *)
Lemma session_round_trip_witness :
  exists claims,
    fst (Utils.ValidateToken (AuthResponse.Token aliceSession) (AuthService.jwtSecret authService)
        afternoon)
      = Ok claims /\
    Claims.UserID claims = UserResponse.ID (AuthResponse.User aliceSession) /\
    Claims.Email claims = UserResponse.Email (AuthResponse.User aliceSession) /\
    Claims.Role claims = UserResponse.Role (AuthResponse.User aliceSession) /\
    (NoDup (map User.ID (users (db desk))) ->
     users (db desk) = users (db desk) ->
     fault desk (stmts desk) = None ->
     fst (GetCurrentUser (Claims.UserID claims) desk) = Ok (AuthResponse.User aliceSession)).
Proof.
  apply (session_round_trip authService aliceLogin desk afternoon desk UtilsRuns.alice
           aliceSession).
  - apply Sample.unmarshal_marshal.
  - reflexivity.
  - apply Sample.unmarshal_marshal.
  - exact alice_logged_in.
  - reflexivity.
Defined.

(** Alice logs in with the password the administrator gave her. *)
Lemma changed_password_logs_in_witness :
  exists resp,
    fst (AuthService.Login authService
           (LoginRequest.mk (User.Email UtilsRuns.alice) (AdminChangePasswordRequest.NewPassword
               newPassword)) (snd (ChangeUserPassword "u-1" newPassword desk)))
      = Ok resp /\
    UserResponse.ID (AuthResponse.User resp) = "u-1" /\
    UserResponse.Email (AuthResponse.User resp) = User.Email UtilsRuns.alice.
Proof.
  apply (changed_password_logs_in authService "u-1" newPassword desk
           (snd (ChangeUserPassword "u-1" newPassword desk)) UtilsRuns.alice).
  - exact office_consistent.
  - left. reflexivity.
  - reflexivity.
  - vm_compute. reflexivity.
  - reflexivity.
  - reflexivity.
Defined.

(** Bob, once deleted, is refused with the password that was his. *)
Lemma deleted_account_cannot_log_in_witness :
  fst (AuthService.Login authService (LoginRequest.mk (User.Email bob) "Hunter#2")
         (snd (DeleteUser "u-2" desk)))
    = Err "invalid email or password".
Proof.
  apply (deleted_account_cannot_log_in authService "u-2" "Hunter#2" desk
           (snd (DeleteUser "u-2" desk)) bob).
  - exact office_consistent.
  - right. left. reflexivity.
  - reflexivity.
  - vm_compute. reflexivity.
  - reflexivity.
  - reflexivity.
Defined.


Example bob_logged_in_before :
  exists resp,
    fst (AuthService.Login authService (LoginRequest.mk "b@x.com" "Hunter#2") desk) = Ok resp.
Proof. eexists. reflexivity. Qed.


(** *** The endpoints *)

Definition forUser (method id : string) : Context :=
  NewContext (mkRequest method ∅ ∅ {["id" := id]}) [].

(** The password endpoint, asked to give Alice a new password. *)
Lemma ChangePassword_endpoint_answers_witness :
  (Password.MatchString Password.specialCharClass
     (AdminChangePasswordRequest.NewPassword newPassword) = false ->
   fault desk (stmts desk) = None ->
   (exists old, In old (users (db desk)) /\ User.ID old = Param "id" (forUser "PUT" "u-1")) ->
   fst (AdminHandler.ChangePassword newPassword (forUser "PUT" "u-1") desk) =
   JSON StatusInternalServerError
     (H [("error", "password_change_error"); ("message", Password.msgNoSpecial)]) (forUser "PUT"
         "u-1") /\
   db (snd (AdminHandler.ChangePassword newPassword (forUser "PUT" "u-1") desk)) = db desk) /\
  (fault desk (stmts desk) = None ->
   (forall r, In r (users (db desk)) -> User.ID r <> Param "id" (forUser "PUT" "u-1")) ->
   fst (AdminHandler.ChangePassword newPassword (forUser "PUT" "u-1") desk) =
   JSON StatusNotFound
     (H [("error", "password_change_error"); ("message", "user not found")]) (forUser "PUT" "u-1")
         /\
   db (snd (AdminHandler.ChangePassword newPassword (forUser "PUT" "u-1") desk)) = db desk) /\
  (forall body,
     Written (fst (AdminHandler.ChangePassword newPassword (forUser "PUT" "u-1") desk))
       = (Written (forUser "PUT" "u-1") ++ [mkResponse StatusOK body])%list ->
     Password.policy_accepts (AdminChangePasswordRequest.NewPassword newPassword) /\
     exists user,
       List.find (fun u => String.eqb (User.ID u) (Param "id" (forUser "PUT" "u-1")))
                 (users (db (snd (AdminHandler.ChangePassword newPassword (forUser "PUT" "u-1")
                     desk)))) = Some user /\
       Utils.CheckPassword (AdminChangePasswordRequest.NewPassword newPassword)
                           (User.PasswordHash user) = true).
Proof.
  apply (ChangePassword_endpoint_answers newPassword (forUser "PUT" "u-1") desk).
  vm_compute. lia.
Defined.


(** Three answers of the password endpoint: 500 for eight letters and
    digits, 404 for an id nobody has, 200 for a password the policy
    accepts. *)
Example password_endpoint_answers :
  Written (fst (AdminHandler.ChangePassword
                  (AdminChangePasswordRequest.mk "Passw0rd") (forUser "PUT" "u-1") desk))
    = [mkResponse StatusInternalServerError
         (H [("error", "password_change_error"); ("message", Password.msgNoSpecial)])] /\
  map Status (Written (fst (AdminHandler.ChangePassword newPassword (forUser "PUT" "u-9") desk)))
    = [StatusNotFound] /\
  Written (fst (AdminHandler.ChangePassword newPassword (forUser "PUT" "u-1") desk))
    = [mkResponse StatusOK
         (H [("message", "Password changed successfully"); ("user_id", "u-1")])].
Proof. vm_compute. repeat split. Qed.

(** Somebody registers with the email Alice holds. *)
Definition duplicate : RegisterRequest.t := RegisterRequest.mk "Eve" "a@x.com" "whatever".

(** A registration with a held email, and the deletion of an id nobody has. *)
Lemma account_endpoints_report_conflict_and_absence_witness :
  ((exists holder, In holder (users (db desk)) /\
                   User.Email holder = RegisterRequest.Email duplicate) ->
   fst (AuthHandlerOps.Register authService duplicate (forUser "DELETE" "u-9") desk) =
   JSON StatusConflict
     (H [("error", "conflict"); ("message", "User with this email already exists");
         ("details", "user with this email already exists")]) (forUser "DELETE" "u-9") /\
   db (snd (AuthHandlerOps.Register authService duplicate (forUser "DELETE" "u-9") desk)) = db
       desk) /\
  (forall resp,
     Written (fst (AuthHandlerOps.Register authService duplicate (forUser "DELETE" "u-9") desk))
       = (Written (forUser "DELETE" "u-9") ++ [mkResponse StatusCreated (Auth resp)])%list <->
     fst (AuthServiceOps.Register authService duplicate desk) = Ok resp) /\
  ((forall r, In r (users (db desk)) -> User.ID r <> Param "id" (forUser "DELETE" "u-9")) ->
   fst (AdminHandler.DeleteUser (forUser "DELETE" "u-9") desk) =
   JSON StatusNotFound
     (H [("error", "delete_user_error"); ("message", "user not found")]) (forUser "DELETE" "u-9") /\
   db (snd (AdminHandler.DeleteUser (forUser "DELETE" "u-9") desk)) = db desk) /\
  (forall body,
     Written (fst (AdminHandler.DeleteUser (forUser "DELETE" "u-9") desk))
       = (Written (forUser "DELETE" "u-9") ++ [mkResponse StatusOK body])%list ->
     (exists old, In old (users (db desk)) /\ User.ID old = Param "id" (forUser "DELETE" "u-9")) /\
     forall r, In r (users (db (snd (AdminHandler.DeleteUser (forUser "DELETE" "u-9") desk)))) ->
               User.ID r <> Param "id" (forUser "DELETE" "u-9")).
Proof.
  apply (account_endpoints_report_conflict_and_absence authService duplicate
           (forUser "DELETE" "u-9") desk).
  reflexivity.
Defined.


Example account_endpoints_answers :
  Written (fst (AuthHandlerOps.Register authService duplicate (forUser "POST" "") desk))
    = [mkResponse StatusConflict
         (H [("error", "conflict"); ("message", "User with this email already exists");
             ("details", "user with this email already exists")])] /\
  Written (fst (AuthHandlerOps.Register authService newcomer (forUser "POST" "") desk))
    = [mkResponse StatusCreated (Auth danRegistered)] /\
  Written (fst (AdminHandler.DeleteUser (forUser "DELETE" "u-9") desk))
    = [mkResponse StatusNotFound
         (H [("error", "delete_user_error"); ("message", "user not found")])] /\
  Written (fst (AdminHandler.DeleteUser (forUser "DELETE" "u-2") desk))
    = [mkResponse StatusOK
         (H [("message", "User deleted successfully"); ("user_id", "u-2")])].
Proof. repeat split; reflexivity. Qed.

End AccountRuns.

(** ** Runs of the registry and of the ledger *)

Module RegistryRuns.
Import Gin HTTP ServiceRuns RuRepository RuServiceOps RuServiceFacts.

#[local] Existing Instance january1970.
#[local] Existing Instance AccountRuns.traced.

Lemma steady_reliable : reliable steady.
Proof. intros n. reflexivity. Qed.

Definition relabel : UpdateCellInfoRequest.t :=
  UpdateCellInfoRequest.mk "Ввод 1А" "Вводная ячейка, секция 1" "10,5 кВ".

Definition relabelled : Cell.t :=
  Cell.mk 7 "7" "Ввод 1А" "INPUT" CellStatusOFF "10,5 кВ" "HIGH" None
    "Вводная ячейка, секция 1" None false None None (Some 1) None None None "ru-1" 0 morning.

(** Cell 7 of ru-1 is given a new name, description and voltage. *)
Lemma UpdateCellInfo_rewrites_the_description_witness :
  exists cell,
    In cell (cells (db steady)) /\ Cell.ID cell = 7 /\ Cell.RuID cell = "ru-1" /\
    Cell.Name relabelled = UpdateCellInfoRequest.Name relabel /\
    Cell.Description relabelled = UpdateCellInfoRequest.Description relabel /\
    Cell.Voltage relabelled = UpdateCellInfoRequest.Voltage relabel /\
    operational relabelled = operational cell /\
    cells (db (snd (UpdateCellInfo "ru-1" 7 relabel steady)))
      = save Cell.ID Z.eqb relabelled (cells (db steady)) /\
    List.find (cell_is 7 "ru-1") (cells (db (snd (UpdateCellInfo "ru-1" 7 relabel steady))))
      = Some relabelled /\
    (forall r, Cell.ID r <> 7 ->
               (In r (cells (db (snd (UpdateCellInfo "ru-1" 7 relabel steady))))
                <-> In r (cells (db steady)))) /\
    users (db (snd (UpdateCellInfo "ru-1" 7 relabel steady))) = users (db steady) /\
    ru_infos (db (snd (UpdateCellInfo "ru-1" 7 relabel steady))) = ru_infos (db steady) /\
    operation_records (db (snd (UpdateCellInfo "ru-1" 7 relabel steady)))
      = operation_records (db steady).
Proof.
  apply (UpdateCellInfo_rewrites_the_description "ru-1" 7 relabel steady relabelled).
  vm_compute. reflexivity.
Defined.


Example relabel_cell7 :
  cells (db (snd (UpdateCellInfo "ru-1" 7 relabel steady))) = [cell7_elsewhere; relabelled] /\
  fst (UpdateCellInfo "ru-2" 7 relabel steady)
    = Err "cell not found: failed to get cell by ID: record not found".
Proof. vm_compute. split; reflexivity. Qed.

(** Switching cell 7 on writes that cell and leaves the ledger alone. *)
Example switch_on_cell7 :
  let run := RuService.UpdateCellStatus "ru-1" 7
               (UpdateCellStatusRequest.mk CellStatusON None) steady in
  map Cell.ID (cells (db (snd run))) = [8; 7] /\
  map Cell.Status (cells (db (snd run))) = [CellStatusReserve; CellStatusON] /\
  operation_records (db (snd run)) = operation_records tables.
Proof. vm_compute. repeat split. Qed.

Definition switching : AddHistoryRecordRequest.t :=
  AddHistoryRecordRequest.mk "7" "Ввод 1" "Включение" "Alice" "04.01.1970 04:05:06"
    (Some "Плановое") None None None None None None None None.

Definition switched : OperationRecord.t :=
  OperationRecord.mk "uuid-" "7" "Ввод 1" "Включение" "Alice" "04.01.1970 04:05:06"
    (Some "Плановое") None None None None None None None None "ru-1"
    morning (morning + Second).

(** A switching of cell 7 is entered in the ledger of ru-1. *)
Lemma added_record_heads_the_history_witness :
  (exists rest, fst (RuService.GetHistoryByRuID "ru-1" 2 (snd (AddHistoryRecord "ru-1" switching
      steady))) = Ok (switched :: rest)) /\
  (forall other, other <> "ru-1" -> history_of other (db (snd (AddHistoryRecord "ru-1" switching
      steady))) = history_of other (db steady)).
Proof.
  apply (added_record_heads_the_history "ru-1" switching steady
           (snd (AddHistoryRecord "ru-1" switching steady)) switched 2).
  - vm_compute. reflexivity.
  - intros r Hr _. repeat (destruct Hr as [<- | Hr]; [reflexivity |]). destruct Hr.
  - reflexivity.
  - reflexivity.
Defined.


Example enter_switching :
  let run := AddHistoryRecord "ru-1" switching steady in
  fst run = Ok switched /\
  operation_records (db (snd run)) = (operation_records tables ++ [switched])%list /\
  fst (RuService.GetHistoryByRuID "ru-1" 2 (snd run))
    = Ok [switched; record "c" "ru-1" 30] /\
  fst (RuService.GetHistoryByRuID "ru-2" 2 (snd run)) = Ok [record "b" "ru-2" 40].
Proof. vm_compute. repeat split. Qed.

(** A status that is no status of the application is stored as given. *)
Example unit_on_fire :
  let run := UpdateRuStatus "ru-1" "on fire" steady in
  map RUInfo.Status (ru_infos (db (snd run))) = ["on fire"; "operational"] /\
  map RUInfo.SubstationID (ru_infos (db (snd run))) = ["ps-164"; "ps-164"] /\
  fst (UpdateRuStatus "ghost" "operational" steady)
    = Err "failed to get RU: failed to get RU by ID: record not found".
Proof. vm_compute. repeat split. Qed.

Example view_of_ru1 :
  fst (GetRuByID "ru-1" steady) = Ok (GetRuResponse.mk (unit "ru-1" "ps-164") [cell7]) /\
  fst (GetRuByID "ghost" steady)
    = Err "failed to get RU info: failed to get RU by ID: record not found".
Proof. vm_compute. split; reflexivity. Qed.

(** The batch ghost, ru-1, ru-2 on a store that answers. *)
Lemma UpdateRUsSubstation_reassigns_the_units_named_witness :
  exists done,
    fst (RuService.UpdateRUsSubstation ["ghost"; "ru-1"; "ru-2"] "ps-64" steady) = Ok done /\
    map RUInfo.ID done
      = List.filter (fun id => existsb (fun r => String.eqb (RUInfo.ID r) id)
                                       (ru_infos (db steady))) ["ghost"; "ru-1"; "ru-2"] /\
    Forall (fun r => RUInfo.SubstationID r = "ps-64") done /\
    map RUInfo.ID (ru_infos (db (snd (RuService.UpdateRUsSubstation ["ghost"; "ru-1"; "ru-2"]
        "ps-64" steady))))
      = map RUInfo.ID (ru_infos (db steady)) /\
    (forall r,
       In r (ru_infos (db (snd (RuService.UpdateRUsSubstation ["ghost"; "ru-1"; "ru-2"] "ps-64"
           steady)))) ->
       (In (RUInfo.ID r) ["ghost"; "ru-1"; "ru-2"] -> RUInfo.SubstationID r = "ps-64") /\
       (~ In (RUInfo.ID r) ["ghost"; "ru-1"; "ru-2"] -> In r (ru_infos (db steady)))) /\
    users (db (snd (RuService.UpdateRUsSubstation ["ghost"; "ru-1"; "ru-2"] "ps-64" steady))) =
        users (db steady) /\
    cells (db (snd (RuService.UpdateRUsSubstation ["ghost"; "ru-1"; "ru-2"] "ps-64" steady))) =
        cells (db steady) /\
    operation_records (db (snd (RuService.UpdateRUsSubstation ["ghost"; "ru-1"; "ru-2"] "ps-64"
        steady)))
      = operation_records (db steady).
Proof.
  apply (UpdateRUsSubstation_reassigns_the_units_named ["ghost"; "ru-1"; "ru-2"]
           "ps-64" steady).
  exact steady_reliable.
Defined.


End RegistryRuns.

(** ** Runs of the endpoints of the registry *)

Module EndpointRuns.
Import Gin HTTP ServiceRuns RuHandlerOps RegistryRuns.

#[local] Existing Instance january1970.
#[local] Existing Instance AccountRuns.traced.

Definition atCell (ruID cellId : string) : Context :=
  NewContext (mkRequest "PUT" ∅ ∅ {["id" := ruID; "cellId" := cellId]}) [].

(** A cell that the unit does not have is answered 500, by both
    endpoints; a cell id that is no number is answered 400. *)
Example missing_cell_answered :
  fst (RuHandlerOps.UpdateCellStatus (UpdateCellStatusRequest.mk CellStatusON None)
         (atCell "ru-1" "99") steady)
    = mkAnswer StatusInternalServerError
        (Plain (H [("error", "update_error");
                   ("message",
                    "cell not found: failed to get cell by ID: record not found")])) /\
  Code (fst (RuHandlerOps.UpdateCellInfo relabel (atCell "ru-1" "99") steady))
    = StatusInternalServerError /\
  Code (fst (RuHandlerOps.UpdateCellInfo relabel (atCell "ru-1" "seven") steady))
    = StatusBadRequest /\
  fst (RuHandlerOps.UpdateCellInfo relabel (atCell "ru-1" "7") steady)
    = mkAnswer StatusOK (CellJSON relabelled).
Proof. vm_compute. repeat split. Qed.

Definition atSubstation (id : string) : Context :=
  NewContext (mkRequest "PUT" ∅ ∅ {["id" := id]}) [].

(** The reassignment endpoint reports two units moved to ps-64, and the
    store still has them in ps-164. *)
Example reassignment_reported :
  let run := UpdateSubstationRUs ["ghost"; "ru-1"; "ru-2"] (atSubstation "ps-64") steady in
  Code (fst run) = StatusOK /\
  match Content (fst run) with
  | Batch _ count rus =>
      count = 2 /\ map RUInfo.ID rus = ["ru-1"; "ru-2"] /\
      map RUInfo.SubstationID rus = ["ps-64"; "ps-64"]
  | _ => False
  end /\
  map RUInfo.SubstationID (ru_infos (db (snd run))) = ["ps-164"; "ps-164"].
Proof. vm_compute. repeat split. Qed.

End EndpointRuns.
